(** * lightnovel-crawler: crawl orchestration, checked against the source

    A shallow embedding of the parts of the crawler that its specification
    talks about:
    - [Utils]    : src/core/utils.js   (parseRange, the file helpers, retrying,
                   the logger levels),
    - [Browser]  : src/core/browser.js (waitForNetworkIdle, safeWaitForLoadState,
                   safeGoto, the registry of pages),
    - [Adapter]  : src/adapters/siteAdapter.js and mtlbooks.js,
    - [Scraper]  : src/core/scraper.js (state, scheduling, checkpointing, and
                   the whole of scrape),
    - [Output]   : src/core/output.js  (parseFrontmatter, the data of index.json),
    - [Cli], [WebUi] : the numeric options of src/index.js and src/web-ui.js.

    JavaScript numbers that the code only uses as integers are [Z]; [NaN] is
    [None] where a number may fail to parse.  Strings are byte strings, so
    [length] agrees with JavaScript's on ASCII text. *)

From Stdlib Require Import ZArith List Bool Ascii String Lia Sorted.
From stdpp Require Import base option gmap strings.
Import ListNotations.
Set Warnings "-register-all".


Local Open Scope string_scope.
Local Open Scope Z_scope.

(** Results of code that may throw: the error carries [Error.message]. *)
Inductive result (A : Type) : Type :=
| Ok (a : A)
| Err (message : string).
Arguments Ok {A} a.
Arguments Err {A} message.

Definition bind {A B : Type} (r : result A) (k : A -> result B) : result B :=
  match r with
  | Ok a => k a
  | Err e => Err e
  end.

Notation "'let*' x ':=' r 'in' k" := (bind r (fun x => k))
  (at level 10, x pattern, r at level 100, k at level 200).

Definition isOk {A : Type} (r : result A) : bool :=
  match r with Ok _ => true | Err _ => false end.

(** Code that reads and writes a store [W] and may throw: the store comes
    back also when it throws, as it was at the throw. *)
Definition io (W A : Type) : Type := W -> result A * W.

Definition ret {W A : Type} (a : A) : io W A := fun w => (Ok a, w).

Definition throw {W A : Type} (message : string) : io W A := fun w => (Err message, w).

Definition iobind {W A B : Type} (m : io W A) (k : A -> io W B) : io W B :=
  fun w =>
    match m w with
    | (Ok a, w') => k a w'
    | (Err e, w') => (Err e, w')
    end.

Notation "'let!' x ':=' m 'in' k" := (iobind m (fun x => k))
  (at level 10, x pattern, m at level 100, k at level 200).

Definition liftResult {W A : Type} (r : result A) : io W A := fun w => (r, w).

Definition gets {W A : Type} (f : W -> A) : io W A := fun w => (Ok (f w), w).

Definition modify {W : Type} (f : W -> W) : io W unit := fun w => (Ok tt, f w).

(* ================================================================== *)
(** ** JavaScript string and number primitives used by the code *)
(* ================================================================== *)

Module Js.

(** White space as [String.prototype.trim] and [parseInt] see it (the ASCII
    part of StrWhiteSpaceChar: TAB, LF, VT, FF, CR, SP). *)
Definition isWhiteSpace (c : ascii) : bool :=
  let n := nat_of_ascii c in
  ((9 <=? n)%nat && (n <=? 13)%nat) || (n =? 32)%nat.

Fixpoint trimStart (s : string) : string :=
  match s with
  | String c rest => if isWhiteSpace c then trimStart rest else s
  | EmptyString => EmptyString
  end.

(** [trimEnd] keeps a character when it is not white space or when something
    that is kept follows it. *)
Fixpoint trimEnd (s : string) : string :=
  match s with
  | EmptyString => EmptyString
  | String c rest =>
      match trimEnd rest with
      | EmptyString => if isWhiteSpace c then EmptyString else String c EmptyString
      | kept => String c kept
      end
  end.

Definition trim (s : string) : string := trimEnd (trimStart s).

(** [s.includes(c)] for a one-character needle. *)
Fixpoint includes (c : ascii) (s : string) : bool :=
  match s with
  | EmptyString => false
  | String d rest => Ascii.eqb c d || includes c rest
  end.

(** [s.split(sep)] for a one-character separator: never the empty list. *)
Fixpoint split (sep : ascii) (s : string) : list string :=
  match s with
  | EmptyString => [EmptyString]
  | String c rest =>
      if Ascii.eqb c sep then EmptyString :: split sep rest
      else match split sep rest with
           | piece :: pieces => String c piece :: pieces
           | [] => [String c EmptyString]
           end
  end.

(** The double quote and the line feed, as one-character strings. *)
Definition quote : string := String (ascii_of_nat 34) EmptyString.
Definition newline : string := String (ascii_of_nat 10) EmptyString.

(** A string is truthy when it is not empty. *)
Definition truthyString (s : string) : bool :=
  match s with EmptyString => false | _ => true end.

Definition digitValue (c : ascii) : option Z :=
  let n := Z.of_nat (nat_of_ascii c) in
  if (48 <=? n) && (n <=? 57) then Some (n - 48)
  else if (97 <=? n) && (n <=? 122) then Some (n - 87)
  else if (65 <=? n) && (n <=? 90) then Some (n - 55)
  else None.

(** The longest prefix of digits of the radix, read as a number; [acc] is
    [None] until a first digit has been read. *)
Fixpoint parseDigits (radix : Z) (s : string) (acc : option Z) : option Z :=
  match s with
  | EmptyString => acc
  | String c rest =>
      match digitValue c with
      | Some d =>
          if d <? radix
          then parseDigits radix rest (Some (radix * default 0 acc + d))
          else acc
      | None => acc
      end
  end.

(** [parseInt(s)] without a radix argument; [None] is [NaN]. *)
Definition parseInt (s : string) : option Z :=
  let s1 := trimStart s in
  let '(sign, s2) :=
    match s1 with
    | String "-"%char r => (-1, r)
    | String "+"%char r => (1, r)
    | _ => (1, s1)
    end in
  let '(radix, s3) :=
    match s2 with
    | String "0"%char (String "x"%char r) => (16, r)
    | String "0"%char (String "X"%char r) => (16, r)
    | _ => (10, s2)
    end in
  Z.mul sign <$> parseDigits radix s3 None.

(** [Array.from({ length: n }, (_, i) => i + 1)] and, more generally, the
    values a loop [for (i = a; i <= b; i++)] runs through. *)
Definition fromTo (a b : Z) : list Z :=
  List.map (fun k => a + Z.of_nat k) (seq 0 (Z.to_nat (b - a + 1))).

(** [Math.min] with [NaN] as [None]. *)
Definition mathMin (a b : option Z) : option Z :=
  match a, b with
  | Some x, Some y => Some (Z.min x y)
  | _, _ => None
  end.

(** A [Set] of numbers keeps insertion order. *)
Definition setAdd (set : list Z) (x : Z) : list Z :=
  if existsb (Z.eqb x) set then set else set ++ [x].

(** [array.sort((a, b) => a - b)]. *)
Fixpoint insertSorted (x : Z) (l : list Z) : list Z :=
  match l with
  | [] => [x]
  | y :: rest => if x <=? y then x :: l else y :: insertSorted x rest
  end.

Definition sortNumeric (l : list Z) : list Z :=
  fold_right insertSorted [] l.

(** [String(n)] for an integer: decimal digits, with a sign when negative. *)
Definition digitChar (d : Z) : ascii := ascii_of_nat (Z.to_nat (48 + d)).

Fixpoint digitsOf (fuel : nat) (n : Z) (acc : string) : string :=
  match fuel with
  | O => acc
  | S fuel' =>
      let acc' := String (digitChar (n mod 10)) acc in
      if n <? 10 then acc' else digitsOf fuel' (n / 10) acc'
  end.

Definition numberToString (n : Z) : string :=
  if n <? 0 then String "-"%char (digitsOf (S (Z.to_nat (Z.log2 (- n)))) (- n) "")
  else digitsOf (S (Z.to_nat (Z.log2 n))) n "".

(** The last [width] decimal digits of [n], zero padded. *)
Fixpoint padDigits (width : nat) (n : Z) : string :=
  match width with
  | O => ""
  | S w => padDigits w (n / 10) ++ String (digitChar (n mod 10)) ""
  end.

(** [s.padStart(width, "0")]. *)
Definition padStart0 (width : nat) (s : string) : string :=
  String.concat "" (repeat "0" (width - String.length s)) ++ s.

(** Year, month and day of a day number counted from 1970-01-01
    (proleptic Gregorian calendar, as ECMAScript's time values use). *)
Definition civilFromDays (days : Z) : Z * Z * Z :=
  let z := days + 719468 in
  let era := z / 146097 in
  let doe := z - era * 146097 in
  let yoe := (doe - doe / 1460 + doe / 36524 - doe / 146096) / 365 in
  let doy := doe - (365 * yoe + yoe / 4 - yoe / 100) in
  let mp := (5 * doy + 2) / 153 in
  let d := doy - (153 * mp + 2) / 5 + 1 in
  let m := if mp <? 10 then mp + 3 else mp - 9 in
  let y := yoe + era * 400 + (if m <=? 2 then 1 else 0) in
  (y, m, d).

(** [Date.prototype.toISOString] of the time value [ms] (milliseconds since
    the epoch, UTC). *)
Definition toISOString (ms : Z) : string :=
  let '(y, m, d) := civilFromDays (ms / 86400000) in
  let t := ms mod 86400000 in
  let year :=
    if (0 <=? y) && (y <=? 9999) then padDigits 4 y
    else (if y <? 0 then "-" else "+") ++ padDigits 6 (Z.abs y) in
  year ++ "-" ++ padDigits 2 m ++ "-" ++ padDigits 2 d ++ "T" ++
  padDigits 2 (t / 3600000) ++ ":" ++ padDigits 2 (t / 60000 mod 60) ++ ":" ++
  padDigits 2 (t / 1000 mod 60) ++ "." ++ padDigits 3 (t mod 1000) ++ "Z".

(** *** Values and JSON

    The values the crawler keeps in its state: primitives, [Date] objects (by
    their time value, always a valid one since they come from [new Date()]),
    arrays and plain objects (own properties in creation order, keys unique). *)
Inductive value : Type :=
| VUndefined
| VNull
| VBool (b : bool)
| VNum (n : Z)
| VStr (s : string)
| VDate (ms : Z)
| VArr (items : list value)
| VObj (props : list (string * value)).

(** A JSON document.  [JSON.stringify] produces the text of one and
    [JSON.parse] reads one back; the text is represented by the document it
    denotes. *)
Inductive json : Type :=
| JNull
| JBool (b : bool)
| JNum (n : Z)
| JStr (s : string)
| JArr (items : list json)
| JObj (members : list (string * json)).

(** SerializeJSONProperty: [None] is [undefined], which an object skips and
    an array writes as [null]; a [Date] is replaced by its [toJSON()]. *)
Fixpoint serialize (v : value) : option json :=
  match v with
  | VUndefined => None
  | VNull => Some JNull
  | VBool b => Some (JBool b)
  | VNum n => Some (JNum n)
  | VStr s => Some (JStr s)
  | VDate ms => Some (JStr (toISOString ms))
  | VArr items => Some (JArr (List.map (fun x => default JNull (serialize x)) items))
  | VObj props =>
      Some (JObj ((fix members (ps : list (string * value)) : list (string * json) :=
                     match ps with
                     | [] => []
                     | (k, x) :: rest =>
                         match serialize x with
                         | Some j => (k, j) :: members rest
                         | None => members rest
                         end
                     end) props))
  end.

(** The members that the own properties of an object serialize to. *)
Definition members (props : list (string * value)) : list (string * json) :=
  (fix members (ps : list (string * value)) : list (string * json) :=
     match ps with
     | [] => []
     | (k, x) :: rest =>
         match serialize x with
         | Some j => (k, j) :: members rest
         | None => members rest
         end
     end) props.

(** A text is the text of a JSON document or some other text. *)
Inductive text : Type :=
| Document (j : json)
| Plain (s : string).

(** [JSON.stringify(v, null, 2)]: [None] when the result is [undefined]. *)
Definition JSON_stringify (v : value) : option text := Document <$> serialize v.

(** The value [JSON.parse] builds from a document. *)
Fixpoint revive (j : json) : value :=
  match j with
  | JNull => VNull
  | JBool b => VBool b
  | JNum n => VNum n
  | JStr s => VStr s
  | JArr items => VArr (List.map revive items)
  | JObj members => VObj (List.map (fun kv => (kv.1, revive kv.2)) members)
  end.

(** [JSON.parse(t)]: [null] is read as the text of the document [null];
    a text that is not a JSON document is a [SyntaxError]. *)
Definition JSON_parse (t : option text) : result value :=
  match t with
  | None => Ok VNull
  | Some (Document j) => Ok (revive j)
  | Some (Plain _) => Err "Unexpected token in JSON"
  end.

(** What a value is read back as once it has been written with
    [JSON.stringify] and read with [JSON.parse]. *)
Definition stored (v : value) : value :=
  match serialize v with
  | Some j => revive j
  | None => VUndefined
  end.

(** ToBoolean. *)
Definition truthy (v : value) : bool :=
  match v with
  | VUndefined | VNull => false
  | VBool b => b
  | VNum n => negb (n =? 0)
  | VStr s => truthyString s
  | VDate _ | VArr _ | VObj _ => true
  end.

Fixpoint lookupProp (key : string) (props : list (string * value)) : value :=
  match props with
  | [] => VUndefined
  | (k, x) :: rest => if String.eqb k key then x else lookupProp key rest
  end.

Fixpoint assignProp (key : string) (x : value) (props : list (string * value))
  : list (string * value) :=
  match props with
  | [] => [(key, x)]
  | (k, y) :: rest =>
      if String.eqb k key then (k, x) :: rest else (k, y) :: assignProp key x rest
  end.

(** [v.key]: reading a property of [null] or [undefined] throws. *)
Definition getProp (v : value) (key : string) : result value :=
  match v with
  | VUndefined | VNull => Err ("Cannot read properties of null (reading '" ++ key ++ "')")
  | VObj props => Ok (lookupProp key props)
  | _ => Ok VUndefined
  end.

End Js.

(* ================================================================== *)
(** ** src/core/utils.js *)
(* ================================================================== *)

Module Utils.
Import Js.

(** The body of the loop of [parseRange] for one token: the indices it adds
    to the set, in the order it adds them. *)
Definition rangeIndexes (range : string) (totalChapters : Z) : list Z :=
  if includes "-" range then
    match split "-" range with
    | startStr :: endStr :: _ =>
        let start :=
          match parseInt startStr with
          | Some n => if n =? 0 then 1 else n
          | None => 1
          end in
        let end_ :=
          if truthyString endStr then parseInt endStr else Some totalChapters in
        match mathMin end_ (Some totalChapters) with
        | Some last => fromTo start last
        | None => []
        end
    | _ => []
    end
  else
    match parseInt range with
    | Some num => if (0 <? num) && (num <=? totalChapters) then [num] else []
    | None => []
    end.

Definition parseRange (rangeStr : string) (totalChapters : Z) : list Z :=
  if negb (truthyString rangeStr) || String.eqb rangeStr "all" then
    fromTo 1 totalChapters
  else
    let ranges := List.map trim (split "," rangeStr) in
    let chapters :=
      fold_left (fun set range => fold_left setAdd (rangeIndexes range totalChapters) set)
                ranges [] in
    sortNumeric chapters.

(** *** Files

    A path is kept as [path.join(dir, name)] was given it, so that
    [path.dirname] gives [dir] back. *)
Abbreviation path := (string * string)%type.

Definition join (dir name : string) : path := (dir, name).
Definition dirname (p : path) : string := p.1.

(** The disk, with what the operating system will refuse: [mkdirFault],
    [writeFault] and [readFault] give the paths on which [fs.mkdir],
    [fs.writeFile] and [fs.readFile] reject (with the message, for a write).
    [fs.writeFile] opens the file with the flag ['w'], which empties it, and
    then writes: [failedWrite] gives what a rejected write leaves at the
    path, [None] when the open itself is refused (the file is as it was) and
    [Some t] when the write fails after the open, [t] being the empty text or
    the part that was written. *)
Record FileSystem : Type := {
  files : gmap path text;
  dirs : gset string;
  mkdirFault : string -> option string;
  writeFault : path -> option string;
  failedWrite : path -> option text;
  readFault : path -> bool
}.

Definition withDir (fs : FileSystem) (dir : string) : FileSystem :=
  {| files := files fs; dirs := {[dir]} ∪ dirs fs;
     mkdirFault := mkdirFault fs; writeFault := writeFault fs;
     failedWrite := failedWrite fs; readFault := readFault fs |}.

Definition withFile (fs : FileSystem) (p : path) (content : text) : FileSystem :=
  {| files := <[p := content]> (files fs); dirs := dirs fs;
     mkdirFault := mkdirFault fs; writeFault := writeFault fs;
     failedWrite := failedWrite fs; readFault := readFault fs |}.

Definition ensureDir (dirPath : string) : io FileSystem unit :=
  fun fs =>
    if bool_decide (dirPath ∈ dirs fs) then (Ok tt, fs)
    else match mkdirFault fs dirPath with
         | Some e => (Err e, fs)
         | None => (Ok tt, withDir fs dirPath)
         end.

Definition fsWriteFile (filePath : path) (content : text) : io FileSystem unit :=
  fun fs =>
    match writeFault fs filePath with
    | Some e =>
        (Err e, match failedWrite fs filePath with
                | Some partial => withFile fs filePath partial
                | None => fs
                end)
    | None => (Ok tt, withFile fs filePath content)
    end.

Definition writeFile (filePath : path) (content : text) : io FileSystem unit :=
  let! _ := ensureDir (dirname filePath) in
  fsWriteFile filePath content.

(** The write of [filePath] fails with the message [e]: the directory is
    missing and cannot be made, or the file cannot be written. *)
Definition writeFails (fs : FileSystem) (filePath : path) (e : string) : Prop :=
  ((dirname filePath ∉ dirs fs) /\ mkdirFault fs (dirname filePath) = Some e) \/
  (((dirname filePath ∈ dirs fs) \/ mkdirFault fs (dirname filePath) = None) /\
   writeFault fs filePath = Some e).

(** [readFile] catches: [None] is the [null] it returns on any failure.
    Neither [readFile] nor [fileExists] changes the disk or throws. *)
Definition readFile (fs : FileSystem) (filePath : path) : option text :=
  if readFault fs filePath then None else files fs !! filePath.

Definition fileExists (fs : FileSystem) (filePath : path) : bool :=
  bool_decide (is_Some (files fs !! filePath)).

(** *** Retrying

    [retryWithBackoff] hands the function to [pRetry] with [retries]: the
    attempts are numbered from 1, and a failed attempt is followed by another
    one as long as its number is at most [retries].  This is what [pRetry]
    does with the errors of an attempt of [scrapeChapter], which are
    [Error]s; a [TypeError] that is not a network error ends the retries at
    once, and when the attempts threw different messages the rejection
    carries the message thrown most often, not the last one. *)
Inductive retryStep (A : Type) : Type :=
| Retry (nextAttempt : nat)
| Settle (r : result A).
Arguments Retry {A} nextAttempt.
Arguments Settle {A} r.

Definition afterAttempt {A : Type} (retries attemptNumber : nat) (r : result A)
  : retryStep A :=
  match r with
  | Ok a => Settle (Ok a)
  | Err e =>
      if (attemptNumber <=? retries)%nat then Retry (S attemptNumber)
      else Settle (Err e)
  end.

(** [retryWithBackoff(fn, { retries })] for a function whose attempts run one
    after the other on the store. *)
Fixpoint retryFrom {W A : Type} (fn : nat -> io W A) (retries : nat)
    (fuel attemptNumber : nat) : io W A :=
  fun w =>
    let '(r, w') := fn attemptNumber w in
    match afterAttempt retries attemptNumber r, fuel with
    | Retry next, S fuel' => retryFrom fn retries fuel' next w'
    | Retry _, O => (r, w')
    | Settle r', _ => (r', w')
    end.

Definition retryWithBackoff {W A : Type} (fn : nat -> io W A) (retries : nat)
  : io W A :=
  retryFrom fn retries retries 1%nat.

(** *** createLogger

    The table [levels], and the names that every object inherits from
    [Object.prototype]: [levels[level]] is then a function or an object. *)
Definition levels : list (string * Z) :=
  [ ("error", 0); ("warn", 1); ("info", 2); ("debug", 3) ].

Definition inheritedProperty (key : string) : bool :=
  existsb (String.eqb key)
    [ "constructor"; "hasOwnProperty"; "isPrototypeOf"; "propertyIsEnumerable";
      "toLocaleString"; "toString"; "valueOf"; "__proto__";
      "__defineGetter__"; "__defineSetter__"; "__lookupGetter__"; "__lookupSetter__" ].

Fixpoint levelOf (key : string) (table : list (string * Z)) : option Z :=
  match table with
  | [] => None
  | (k, n) :: rest => if String.eqb k key then Some n else levelOf key rest
  end.

(** [levels[level] || levels.info], the argument being a string or left out
    (then it is ['info']); [None] when it is not a number, which compares
    false with every number. *)
Definition currentLevel (level : option string) : option Z :=
  match level with
  | None => Some 2
  | Some name =>
      match levelOf name levels with
      | Some n => if n =? 0 then Some 2 else Some n
      | None => if inheritedProperty name then None else Some 2
      end
  end.

(** Whether the method [method] of the logger made with [level] writes to
    the console: [currentLevel >= levels[method]]. *)
Definition logs (level : option string) (method : string) : bool :=
  match currentLevel level, levelOf method levels with
  | Some current, Some needed => needed <=? current
  | _, _ => false
  end.

(** *** ProgressTracker (the counters) *)
Record ProgressTracker : Type := {
  total : Z;
  current : Z;
  errors : Z
}.

Definition newProgressTracker (total : Z) : ProgressTracker :=
  {| total := total; current := 0; errors := 0 |}.

Definition increment (p : ProgressTracker) : ProgressTracker :=
  {| total := total p; current := current p + 1; errors := errors p |}.

Definition addError (p : ProgressTracker) : ProgressTracker :=
  {| total := total p; current := current p; errors := errors p + 1 |}.

End Utils.


(* ================================================================== *)
(** ** src/types/models.js *)
(* ================================================================== *)

Module Models.

(** [author || undefined] and the like: [None] is [undefined]. *)
Record NovelMetadata : Type := {
  novelTitle : string;            (* title *)
  author : option string;
  coverUrl : option string;
  synopsis : option string;
  tags : option (list string);
  status : option string;
  totalChapters : Z;
  sourceUrl : string;
  crawledAt : string
}.

Record ChapterInfo : Type := {
  index : Z;
  id : string;
  title : string;
  url : string
}.

Record ContentMetadata : Type := {
  wordCount : Z;
  extractedAt : string
}.

Record ChapterContent : Type := {
  info : ChapterInfo;
  content : string;
  images : list string;
  contentMetadata : ContentMetadata   (* metadata *)
}.

(** [lastUpdated] is a [Date] object when the scraper sets it and whatever
    the checkpoint holds when the state was loaded. *)
Inductive timestamp : Type :=
| DateObject (ms : Z)
| DateString (s : string).

Record CrawlerState : Type := {
  stateUrl : string;              (* url *)
  metadata : option NovelMetadata;   (* null until extracted *)
  chapters : list ChapterInfo;
  lastCompletedIndex : Z;
  completedChapters : list string;
  lastUpdated : timestamp
}.

Record CrawlerConfig : Type := {
  configUrl : string;             (* url *)
  outputDir : string;
  range : option string;          (* null when all chapters are meant *)
  concurrency : nat;
  retries : nat;
  resume : bool;
  force : bool
}.

End Models.

(* ================================================================== *)
(** ** src/core/browser.js *)
(* ================================================================== *)

Module Browser.

Inductive eventKind : Type := Request | Response.

(** A network event of the page, with the time in milliseconds since
    [waitForNetworkIdle] was called. *)
Definition event : Type := Z * eventKind.

(** The variable [idleTimer]: cleared, or armed with the time at which it
    fires.  [first] marks the timer armed before the overall timer was. *)
Inductive idleTimer : Type :=
| Cleared
| Armed (deadline : Z) (first : bool).

Inductive outcome : Type :=
| Resolved (time : Z)
| Rejected (time : Z) (message : string).

(** Which of the two timers fires when nothing else happens: the earlier
    deadline, and on equal deadlines the timer that was armed first. *)
Definition fire (timeout : Z) (idle : idleTimer) : outcome :=
  match idle with
  | Armed deadline first =>
      if (deadline <? timeout) || (first && (deadline =? timeout))
      then Resolved deadline
      else Rejected timeout "Network idle timeout"
  | Cleared => Rejected timeout "Network idle timeout"
  end.

(** A timer is due at time [t]; a timer due at the instant of an event is
    taken to fire before the event is delivered.  This is the order of
    timers with a positive delay; a delay of 0 is outside it, since
    [setTimeout(f, 0)] fires a millisecond later, after the events that
    were already delivered. *)
Definition due (timeout : Z) (idle : idleTimer) (t : Z) : bool :=
  (timeout <=? t) ||
  match idle with
  | Armed deadline _ => deadline <=? t
  | Cleared => false
  end.

(** The promise of [waitForNetworkIdle] from the state of [idleTimer] on:
    [onRequest] clears the idle timer, [onResponse] clears it and arms it
    again; both timers call [cleanup], after which no event is delivered. *)
Fixpoint settle (timeout idleTime : Z) (idle : idleTimer) (events : list event)
  : outcome :=
  match events with
  | [] => fire timeout idle
  | (t, kind) :: rest =>
      if due timeout idle t then fire timeout idle
      else match kind with
           | Request => settle timeout idleTime Cleared rest
           | Response => settle timeout idleTime (Armed (t + idleTime) false) rest
           end
  end.

Definition waitForNetworkIdle (events : list event) (timeout idleTime : Z) : outcome :=
  settle timeout idleTime (Armed idleTime true) events.

(** [page.safeWaitForLoadState(state)]: whatever [state] is, it awaits
    [waitForNetworkIdle(page)] with the default timeout and idle time. *)
Definition safeWaitForLoadState (events : list event) : result unit :=
  match waitForNetworkIdle events 30000 500 with
  | Resolved _ => Ok tt
  | Rejected _ message => Err message
  end.


(** Times of a trace: not before the call, and in the order of the list. *)
Fixpoint ordered (from : Z) (events : list event) : Prop :=
  match events with
  | [] => True
  | (t, _) :: rest => from <= t /\ ordered t rest
  end.

(** Each event comes less than [idleTime] after the one before it, the
    first one less than [idleTime] after [from]. *)
Fixpoint busy (from idleTime : Z) (events : list event) : Prop :=
  match events with
  | [] => True
  | (t, _) :: rest => t < from + idleTime /\ busy t idleTime rest
  end.

(** *** safeGoto

    What [page.goto] resolves with: a response with its [ok()], [status()]
    and [statusText()], or [null]. *)
Record HttpResponse : Type := {
  ok : bool;
  status : Z;
  statusText : string
}.

Definition maxRetries : nat := 3.

(** One turn of the loop, up to the [catch]: the response when it is there
    and ok, and else the error thrown. *)
Definition checkedGoto (navigated : result (option HttpResponse)) : result HttpResponse :=
  match navigated with
  | Ok (Some response) =>
      if ok response then Ok response
      else Err ("HTTP " ++ Js.numberToString (status response) ++ " " ++ statusText response)
  | Ok None => Err "HTTP undefined undefined"
  | Err e => Err e
  end.

(** The loop from the turn [i] on, with [remaining] turns after it; [goto]
    gives what the call of [page.goto] of each turn resolves with or throws,
    and the store is the list of the sleeps made. *)
Fixpoint safeGotoFrom (goto : nat -> result (option HttpResponse)) (remaining i : nat)
  : io (list Z) HttpResponse :=
  fun slept =>
    match checkedGoto (goto i) with
    | Ok response => (Ok response, slept)
    | Err lastError =>
        match remaining with
        | O => (Err lastError, slept)
        | S remaining' =>
            safeGotoFrom goto remaining' (S i) (slept ++ [1000 * (Z.of_nat i + 1)])%list
        end
    end.

Definition safeGoto (goto : nat -> result (option HttpResponse)) : io (list Z) HttpResponse :=
  safeGotoFrom goto (maxRetries - 1) 0.

(** *** The registry of pages

    The manager once the browser has started: the map [pages], the pages of
    the browser that are open, and the number of pages made so far, which
    names the next one. *)
Record Manager : Type := {
  pages : gmap string nat;
  openPages : gset nat;
  created : nat
}.

(** [createPage(pageId)]: the page is kept in [pages] when an id is given
    that is not the empty string. *)
Definition createPage (pageId : option string) (m : Manager) : nat * Manager :=
  let page := created m in
  (page,
   {| pages := match pageId with
               | Some id => if Js.truthyString id then <[ id := page ]> (pages m) else pages m
               | None => pages m
               end;
      openPages := {[ page ]} ∪ openPages m;
      created := S (created m) |}).

Definition getPage (pageId : string) (m : Manager) : option nat := pages m !! pageId.

Definition closePage (pageId : string) (m : Manager) : Manager :=
  match pages m !! pageId with
  | Some page =>
      {| pages := delete pageId (pages m);
         openPages := openPages m ∖ {[ page ]};
         created := created m |}
  | None => m
  end.

Definition closeAllPages (m : Manager) : Manager :=
  {| pages := ∅;
     openPages := openPages m ∖ map_img (pages m);
     created := created m |}.

(** Every page the manager knows of has been made by it. *)
Definition knownPages (m : Manager) : Prop :=
  (forall page, page ∈ openPages m -> (page < created m)%nat) /\
  (forall pageId page, pages m !! pageId = Some page -> (page < created m)%nat).

End Browser.

(* ================================================================== *)
(** ** src/adapters/siteAdapter.js and src/adapters/mtlbooks.js *)
(* ================================================================== *)

Module Adapter.
Import Js Models.

(** What the in-page script reads from an element: its [textContent], and
    from its clone without the unwanted sub-elements the cleaned markup
    (after [cleanContent]), the image addresses and the word count.  The
    [src] of each image is taken to be an address that [new URL] accepts;
    on another one the script throws, which the record does not show. *)
Record Element : Type := {
  textContent : string;
  cleanedHTML : string;
  imageUrls : list string;
  words : Z
}.

(** A loaded document, by its [document.querySelector]. *)
Definition Dom : Type := string -> option Element.

(** The page capability: the network events seen during a wait, what
    [page.goto] loads or throws, and what the in-page scripts of the metadata
    and listing phases return or throw. *)
Record Page : Type := {
  network : list Browser.event;
  goto : string -> result Dom;
  metadataOnPage : result NovelMetadata;
  chaptersOnPage : result (list ChapterInfo)
}.

Definition validateMetadata (data : NovelMetadata) : bool :=
  truthyString (novelTitle data).

Definition validateChapters (data : list ChapterInfo) : bool :=
  (0 <? Z.of_nat (length data)) &&
  forallb (fun ch => truthyString (id ch) && truthyString (title ch) && truthyString (url ch))
          data.

(** [data && data.info && typeof data.content === 'string']: an object with
    an [info] object and a string [content] always passes. *)
Definition validateContent (data : ChapterContent) : bool := true.

(** [try { ... } catch (error) { throw new Error(prefix + error.message) }] *)
Definition rethrow {A : Type} (prefix : string) (r : result A) : result A :=
  match r with
  | Ok a => Ok a
  | Err e => Err (prefix ++ e)
  end.

Definition extractMetadata (page : Page) (url : string) : result NovelMetadata :=
  rethrow "Metadata extraction failed: "
    (let* _ := Browser.safeWaitForLoadState (network page) in
     let* metadata := metadataOnPage page in
     if validateMetadata metadata then Ok metadata
     else Err "Failed to extract valid metadata - title is required").

Definition extractChapterList (page : Page) (url : string) : result (list ChapterInfo) :=
  rethrow "Chapter list extraction failed: "
    (let* _ := Browser.safeWaitForLoadState (network page) in
     let* chapters := chaptersOnPage page in
     if validateChapters chapters then Ok chapters
     else Err "Failed to extract valid chapter list").

(** The last content selector: any element whose class contains "content". *)
Definition anyContentClass : string :=
  "[class*=" ++ quote ++ "content" ++ quote ++ "]".

Definition contentSelectors : list string :=
  [ ".chapter-content"; ".content"; ".chapter-body"; ".novel-content";
    ".reader-content"; ".text-content"; "#content"; ".post-content";
    anyContentClass ].

(** The minimum-content threshold of the selection loop. *)
Definition minContentLength : Z := 100.

Definition longEnough (el : Element) : bool :=
  minContentLength <? Z.of_nat (String.length (trim (textContent el))).

(** The loop over [contentSelectors]: [contentContainer] is assigned at every
    turn, and the loop is left at the first assignment that is an element
    with more text than the threshold. *)
Fixpoint selectContainer (querySelector : Dom) (selectors : list string)
    (contentContainer : option Element) : option Element :=
  match selectors with
  | [] => contentContainer
  | selector :: rest =>
      match querySelector selector with
      | Some el =>
          if longEnough el then Some el
          else selectContainer querySelector rest (Some el)
      | None => selectContainer querySelector rest None
      end
  end.

(** No candidate of the selectors has more text than the threshold. *)
Definition allShort (querySelector : Dom) (selectors : list string) : Prop :=
  forall selector el,
    In selector selectors -> querySelector selector = Some el -> longEnough el = false.

Definition extractChapterContent (page : Page) (chapterInfo : ChapterInfo) (now : Z)
  : result ChapterContent :=
  rethrow "Content extraction failed: "
    (let* document := goto page (url chapterInfo) in
     let* el :=
       match selectContainer document contentSelectors None with
       | Some el => Ok el
       | None => Err "Content container not found"
       end in
     let result :=
       {| info := chapterInfo;
          content := cleanedHTML el;
          images := imageUrls el;
          contentMetadata :=
            {| wordCount := words el; extractedAt := toISOString now |} |} in
     if validateContent result then Ok result
     else Err "Extracted content is invalid or empty").

(** *** loadAllChapters

    [found k] is what the in-page script returns at its turn number [k]
    (from 0): whether it has clicked a button that loads more chapters.  The
    result is the number of clicks and the time waited, in milliseconds. *)
Definition maxAttempts : nat := 10.

Fixpoint loadMore (found : nat -> bool) (remaining attempts : nat) (waited : Z) : nat * Z :=
  match remaining with
  | O => (attempts, waited)
  | S remaining' =>
      if found attempts then loadMore found remaining' (S attempts) (waited + 2000)
      else (attempts, waited)
  end.

Definition loadAllChapters (found : nat -> bool) : nat * Z :=
  let '(attempts, waited) := loadMore found maxAttempts 0 0 in
  (attempts, waited + 1000).

End Adapter.

(* ================================================================== *)
(** ** src/core/scraper.js *)
(* ================================================================== *)

Module Scraper.
Import Js Utils Models.

(** *** The state as the object the code builds, and read back *)

Definition optional {A : Type} (f : A -> value) (o : option A) : value :=
  match o with
  | Some a => f a
  | None => VUndefined
  end.

Definition strings (l : list string) : value := VArr (List.map VStr l).

Definition metadataValue (m : NovelMetadata) : value :=
  VObj [ ("title", VStr (novelTitle m));
         ("author", optional VStr (author m));
         ("coverUrl", optional VStr (coverUrl m));
         ("synopsis", optional VStr (synopsis m));
         ("tags", optional strings (tags m));
         ("status", optional VStr (status m));
         ("totalChapters", VNum (totalChapters m));
         ("sourceUrl", VStr (sourceUrl m));
         ("crawledAt", VStr (crawledAt m)) ].

Definition chapterValue (ch : ChapterInfo) : value :=
  VObj [ ("index", VNum (index ch)); ("id", VStr (id ch));
         ("title", VStr (title ch)); ("url", VStr (url ch)) ].

Definition timestampValue (t : timestamp) : value :=
  match t with
  | DateObject ms => VDate ms
  | DateString s => VStr s
  end.

(** The object of [initState], with its properties in that order. *)
Definition stateValue (st : CrawlerState) : value :=
  VObj [ ("url", VStr (stateUrl st));
         ("metadata", match metadata st with
                      | Some m => metadataValue m
                      | None => VNull
                      end);
         ("chapters", VArr (List.map chapterValue (chapters st)));
         ("lastCompletedIndex", VNum (lastCompletedIndex st));
         ("completedChapters", strings (completedChapters st));
         ("lastUpdated", timestampValue (lastUpdated st)) ].

Definition asString (v : value) : option string :=
  match v with VStr s => Some s | _ => None end.

Definition asNumber (v : value) : option Z :=
  match v with VNum n => Some n | _ => None end.

Definition asArray {A : Type} (f : value -> option A) (v : value) : option (list A) :=
  match v with VArr items => mapM f items | _ => None end.

Definition asOptional {A : Type} (f : value -> option A) (v : value) : option (option A) :=
  match v with
  | VUndefined => Some None
  | _ => Some <$> f v
  end.

Definition asTimestamp (v : value) : option timestamp :=
  match v with
  | VDate ms => Some (DateObject ms)
  | VStr s => Some (DateString s)
  | _ => None
  end.

Definition field {A : Type} (f : value -> option A) (v : value) (key : string) : option A :=
  match v with
  | VObj props => f (lookupProp key props)
  | _ => None
  end.

Definition metadataOf (v : value) : option NovelMetadata :=
  t ← field asString v "title";
  a ← field (asOptional asString) v "author";
  c ← field (asOptional asString) v "coverUrl";
  sy ← field (asOptional asString) v "synopsis";
  tg ← field (asOptional (asArray asString)) v "tags";
  st ← field (asOptional asString) v "status";
  n ← field asNumber v "totalChapters";
  su ← field asString v "sourceUrl";
  ca ← field asString v "crawledAt";
  Some {| novelTitle := t; author := a; coverUrl := c; synopsis := sy; tags := tg;
          status := st; totalChapters := n; sourceUrl := su; crawledAt := ca |}.

Definition chapterOf (v : value) : option ChapterInfo :=
  i ← field asNumber v "index";
  k ← field asString v "id";
  t ← field asString v "title";
  u ← field asString v "url";
  Some {| index := i; id := k; title := t; url := u |}.

Definition asNullable {A : Type} (f : value -> option A) (v : value) : option (option A) :=
  match v with
  | VNull => Some None
  | _ => Some <$> f v
  end.

(** The state a value is, field by field; [None] when the value does not
    have the shape of a [CrawlerState]. *)
Definition stateOf (v : value) : option CrawlerState :=
  u ← field asString v "url";
  m ← field (asNullable metadataOf) v "metadata";
  cs ← field (asArray chapterOf) v "chapters";
  n ← field asNumber v "lastCompletedIndex";
  done ← field (asArray asString) v "completedChapters";
  t ← field asTimestamp v "lastUpdated";
  Some {| stateUrl := u; metadata := m; chapters := cs; lastCompletedIndex := n;
          completedChapters := done; lastUpdated := t |}.

(** *** The scraper's store: [this.state] and the disk *)

Record World : Type := {
  state : CrawlerState;
  disk : FileSystem;
  browserRunning : bool           (* this.browserManager.browser is set *)
}.

Definition onDisk {A : Type} (m : io FileSystem A) : io World A :=
  fun w =>
    let '(r, fs) := m (disk w) in
    (r, {| state := state w; disk := fs; browserRunning := browserRunning w |}).

Definition setState (f : CrawlerState -> CrawlerState) : io World unit :=
  modify (fun w => {| state := f (state w); disk := disk w;
                      browserRunning := browserRunning w |}).

Definition stateFile (config : CrawlerConfig) : path :=
  join (outputDir config) "state.json".

Definition initState (config : CrawlerConfig) (now : Z) : CrawlerState :=
  {| stateUrl := configUrl config;
     metadata := None;
     chapters := [];
     lastCompletedIndex := 0;
     completedChapters := [];
     lastUpdated := DateObject now |}.

Definition saveState (config : CrawlerConfig) : io World unit :=
  let! st := gets state in
  match JSON_stringify (stateValue st) with
  | Some stateData => onDisk (writeFile (stateFile config) stateData)
  | None => throw "The data argument must be of type string"
  end.

(** [if (!this.state.completedChapters) this.state.completedChapters = []]:
    reading the property of [null] throws, and so does (in module code)
    creating one on a primitive; an array takes the property too, which
    [value] does not show. *)
Definition migrate (v : value) : result value :=
  let* completed := getProp v "completedChapters" in
  if truthy completed then Ok v
  else match v with
       | VObj props => Ok (VObj (assignProp "completedChapters" (VArr []) props))
       | VArr _ | VDate _ => Ok v
       | _ => Err "Cannot create property 'completedChapters'"
       end.

(** What [loadState] leaves in [this.state]: a state, or a value of another
    shape (the checkpoint is not checked against any shape). *)
Inductive loaded : Type :=
| Loaded (st : CrawlerState)
| Unshaped (v : value).

Definition loadState (config : CrawlerConfig) (now : Z) (fs : FileSystem) : loaded :=
  if resume config && fileExists fs (stateFile config) then
    match (let* parsed := JSON_parse (readFile fs (stateFile config)) in
           migrate parsed) with
    | Ok v =>
        match stateOf v with
        | Some st => Loaded st
        | None => Unshaped v
        end
    | Err _ => Loaded (initState config now)
    end
  else Loaded (initState config now).

(** A timestamp as a checkpoint holds it: the [toJSON()] of a [Date]
    object is its [toISOString()]. *)
Definition storedTimestamp (t : timestamp) : timestamp :=
  match t with
  | DateObject ms => DateString (toISOString ms)
  | DateString s => DateString s
  end.

(** The state with [lastUpdated] as a checkpoint holds it. *)
Definition asStored (st : CrawlerState) : CrawlerState :=
  {| stateUrl := stateUrl st;
     metadata := metadata st;
     chapters := chapters st;
     lastCompletedIndex := lastCompletedIndex st;
     completedChapters := completedChapters st;
     lastUpdated := storedTimestamp (lastUpdated st) |}.

(** *** Which chapters to scrape *)

Definition targetIndexes (config : CrawlerConfig) (st : CrawlerState) : list Z :=
  let n := Z.of_nat (length (chapters st)) in
  match range config with
  | Some rangeStr => if truthyString rangeStr then parseRange rangeStr n else fromTo 1 n
  | None => fromTo 1 n
  end.

Definition getChaptersToScrape (config : CrawlerConfig) (st : CrawlerState)
  : list ChapterInfo :=
  match chapters st with
  | [] => []
  | _ =>
      List.filter
        (fun chapter =>
           if negb (existsb (Z.eqb (index chapter)) (targetIndexes config st)) then false
           else if negb (force config) &&
                   existsb (String.eqb (id chapter)) (completedChapters st) then false
           else true)
        (chapters st)
  end.

(** *** One chapter *)

Definition chapterFilename (info : ChapterInfo) : string :=
  padStart0 4 (numberToString (index info)) ++ "-" ++ id info ++ ".md".

Definition createChapterMarkdown (info : ChapterInfo) (content : string)
    (metadata : ContentMetadata) : string :=
  let frontmatter :=
    String.concat newline
      (List.filter truthyString
         [ "---";
           "title: " ++ quote ++ title info ++ quote;
           "chapter: " ++ numberToString (index info);
           "id: " ++ quote ++ id info ++ quote;
           "url: " ++ quote ++ url info ++ quote;
           if wordCount metadata =? 0 then ""
           else "word_count: " ++ numberToString (wordCount metadata);
           if truthyString (extractedAt metadata)
           then "extracted_at: " ++ quote ++ extractedAt metadata ++ quote
           else "";
           "---";
           "" ]) in
  frontmatter ++ newline ++ "# " ++ title info ++ newline ++ newline ++ content.

(** [markdown] is what the turndown service makes of the content. *)
Definition saveChapterContent (config : CrawlerConfig) (content : ChapterContent)
    (markdown : string) : io World unit :=
  onDisk (writeFile (join (outputDir config) (chapterFilename (info content)))
                    (Plain (createChapterMarkdown (info content) markdown
                                                  (contentMetadata content)))).

(** The update of the state after a chapter is saved (no [await] inside). *)
Definition commit (chapterInfo : ChapterInfo) (now : Z) (st : CrawlerState)
  : CrawlerState :=
  {| stateUrl := stateUrl st;
     metadata := metadata st;
     chapters := chapters st;
     lastCompletedIndex := Z.max (lastCompletedIndex st) (index chapterInfo);
     completedChapters :=
       if existsb (String.eqb (id chapterInfo)) (completedChapters st)
       then completedChapters st
       else completedChapters st ++ [id chapterInfo];
     lastUpdated := DateObject now |}.

(** What one attempt gets from outside: the page [createPage] gives or the
    error it throws, the markdown of the content, and the clock at the
    extraction and at the update of the state. *)
Record Attempt : Type := {
  createdPage : result Adapter.Page;
  markdownOf : string -> string;
  extractedTime : Z;
  committedTime : Z
}.

(** The function [scrapeChapter] hands to [retryWithBackoff]. *)
Definition scrapeAttempt (config : CrawlerConfig) (chapterInfo : ChapterInfo)
    (env : Attempt) : io World ChapterContent :=
  let! page := liftResult (createdPage env) in
  let! content :=
    liftResult (Adapter.extractChapterContent page chapterInfo (extractedTime env)) in
  let! _ := saveChapterContent config content (markdownOf env (Models.content content)) in
  let! _ := setState (commit chapterInfo (committedTime env)) in
  let! n := gets (fun w => Z.of_nat (length (completedChapters (state w)))) in
  let! _ := (if n mod 5 =? 0 then saveState config else ret tt) in
  ret content.

(** [scrapeChapter] when its attempts run one after the other. *)
Definition scrapeChapter (config : CrawlerConfig) (chapterInfo : ChapterInfo)
    (env : nat -> Attempt) : io World ChapterContent :=
  retryWithBackoff (fun n => scrapeAttempt config chapterInfo (env n)) (retries config).

(** *** The chapters under the limiter

    What the callback given to the limiter returns: [undefined] when
    [scrapeChapter] succeeded, and the failure object otherwise. *)
Inductive taskResult : Type :=
| Undefined
| Failure (chapter : ChapterInfo) (error : string).

(** A task waits in the limiter's queue, or runs its attempt number
    [attemptNumber], or has settled. *)
Inductive taskStatus : Type :=
| Queued
| Running (attemptNumber : nat)
| Settled (r : taskResult).

Record Task : Type := {
  chapter : ChapterInfo;
  status : taskStatus
}.

Record Pool : Type := {
  tasks : list Task;
  progress : ProgressTracker;
  world : World
}.

Definition isRunning (t : Task) : bool :=
  match status t with Running _ => true | _ => false end.

Definition isSettled (t : Task) : bool :=
  match status t with Settled _ => true | _ => false end.

Definition runningCount (ts : list Task) : nat := length (List.filter isRunning ts).

(** The limiter starts queued tasks, oldest first, while it has free slots. *)
Fixpoint dispatch (free : nat) (ts : list Task) : list Task :=
  match ts with
  | [] => []
  | t :: rest =>
      match status t, free with
      | Queued, S free' => {| chapter := chapter t; status := Running 1 |} :: dispatch free' rest
      | Queued, O => t :: rest
      | _, _ => t :: dispatch free rest
      end
  end.

Definition limiter (config : CrawlerConfig) (ts : list Task) : list Task :=
  dispatch (concurrency config - runningCount ts) ts.

(** The positions of the running tasks. *)
Fixpoint runningFrom (i : nat) (ts : list Task) : list nat :=
  match ts with
  | [] => []
  | t :: rest =>
      if isRunning t then i :: runningFrom (S i) rest else runningFrom (S i) rest
  end.

(** The running task whose attempt ends next: the schedule names it by its
    rank among the running tasks, counted cyclically. *)
Definition pickRunning (pick : nat) (ts : list Task) : option nat :=
  let running := runningFrom 0 ts in
  running !! (pick mod length running)%nat.

(** The attempt of a running task ends: it is retried, or the task settles
    (the limiter then starts the next queued task).  Tasks interleave between
    attempts; an attempt is taken as one step. *)
Definition step (config : CrawlerConfig) (pool : Pool) (next : nat * Attempt) : Pool :=
  match pickRunning next.1 (tasks pool) with
  | None => pool
  | Some i =>
      match tasks pool !! i with
      | Some {| chapter := ch; status := Running n |} =>
          let '(r, w) := scrapeAttempt config ch next.2 (world pool) in
          match afterAttempt (retries config) n r with
          | Retry n' =>
              {| tasks := <[i := {| chapter := ch; status := Running n' |}]> (tasks pool);
                 progress := progress pool;
                 world := w |}
          | Settle (Ok _) =>
              {| tasks := limiter config
                            (<[i := {| chapter := ch; status := Settled Undefined |}]>
                               (tasks pool));
                 progress := increment (progress pool);
                 world := w |}
          | Settle (Err e) =>
              {| tasks := limiter config
                            (<[i := {| chapter := ch; status := Settled (Failure ch e) |}]>
                               (tasks pool));
                 progress := addError (progress pool);
                 world := w |}
          end
      | _ => pool
      end
  end.

Definition run (config : CrawlerConfig) (pool : Pool) (schedule : list (nat * Attempt))
  : Pool :=
  fold_left (step config) schedule pool.

(** The attempt that a step of the schedule ends: the position of its task
    among the chapters, the number of the attempt, and whether it returned
    (it threw otherwise). *)
Record Made : Type := {
  taskAt : nat;
  attemptNo : nat;
  fulfilled : bool
}.

Definition attemptEnded (config : CrawlerConfig) (pool : Pool) (next : nat * Attempt)
  : option Made :=
  match pickRunning next.1 (tasks pool) with
  | None => None
  | Some i =>
      match tasks pool !! i with
      | Some {| chapter := ch; status := Running n |} =>
          Some {| taskAt := i; attemptNo := n;
                  fulfilled := isOk (scrapeAttempt config ch next.2 (world pool)).1 |}
      | _ => None
      end
  end.

(** The attempts made through a schedule, in the order in which they end. *)
Fixpoint attemptsMade (config : CrawlerConfig) (pool : Pool)
    (schedule : list (nat * Attempt)) : list Made :=
  match schedule with
  | [] => []
  | next :: rest =>
      match attemptEnded config pool next with
      | Some a => [a]
      | None => []
      end ++ attemptsMade config (step config pool next) rest
  end.

(** The attempts of the task at the position [i], each with its number and
    whether it returned. *)
Definition attemptsOf (i : nat) (made : list Made) : list (nat * bool) :=
  List.map (fun a => (attemptNo a, fulfilled a))
           (List.filter (fun a => Nat.eqb (taskAt a) i) made).

(** The attempts 1 to [m] of a task, all of which threw. *)
Definition thrown (m : nat) : list (nat * bool) :=
  List.map (fun k => (k, false)) (seq 1 m).

(** [chapters.map(chapter => this.limiter(...))] *)
Definition startPool (config : CrawlerConfig) (chapters : list ChapterInfo)
    (tracker : ProgressTracker) (w : World) : Pool :=
  {| tasks := limiter config
                (List.map (fun ch => {| chapter := ch; status := Queued |}) chapters);
     progress := tracker;
     world := w |}.

Definition allSettled (pool : Pool) : bool := forallb isSettled (tasks pool).

Definition resultOf (t : Task) : option taskResult :=
  match status t with Settled r => Some r | _ => None end.

Definition isUndefined (r : taskResult) : bool :=
  match r with Undefined => true | Failure _ _ => false end.

(** [r.success] of a result that is an object: the failure object is built
    with [success: false]. *)
Definition successOf (r : taskResult) : option bool :=
  match r with
  | Undefined => None
  | Failure _ _ => Some false
  end.

Definition isFalse (b : option bool) : bool :=
  match b with Some false => true | _ => false end.

(** [r !== undefined && r.success !== false] *)
Definition countsAsSuccessful (r : taskResult) : bool :=
  negb (isUndefined r) && negb (isFalse (successOf r)).

(** [r && r.success === false] *)
Definition countsAsFailed (r : taskResult) : bool :=
  negb (isUndefined r) && isFalse (successOf r).

(** What [scrapeChapters] has in hand once [Promise.all] resolves. *)
Record Summary : Type := {
  results : list taskResult;
  successful : nat;
  failed : nat
}.

(** [scrapeChapters]: no task rejects, since each catches what
    [scrapeChapter] throws, so [Promise.all] resolves once every task has
    settled, with their results in the order of the chapters; [successful]
    and [failed] are the two counts of the summary it logs.  The tasks are
    run through the schedule; [None] when the schedule ends before every task
    has settled. *)
Definition scrapeChapters (config : CrawlerConfig) (chapters : list ChapterInfo)
    (schedule : list (nat * Attempt)) (tracker : ProgressTracker) (w : World)
  : option (Summary * ProgressTracker * World) :=
  let pool := run config (startPool config chapters tracker w) schedule in
  match mapM resultOf (tasks pool) with
  | Some results =>
      Some ({| results := results;
               successful := length (List.filter countsAsSuccessful results);
               failed := length (List.filter countsAsFailed results) |},
            progress pool, world pool)
  | None => None
  end.

(** *** Leaving *)

(** [browserManager.close()] catches what closing throws. *)
Definition closeBrowser : io World unit :=
  modify (fun w => {| state := state w; disk := disk w; browserRunning := false |}).

(** [cleanup] once [this.state] is set. *)
Definition cleanup (config : CrawlerConfig) : io World unit :=
  let! _ := saveState config in
  closeBrowser.

(** *** The metadata, the listing, and the whole of [scrape]

    What a phase gets from outside: the page [createPage] gives or the error
    it throws, and what each call of [page.goto] made by [safeGoto] gives.
    [adapter.setupPage], which sets headers and the viewport, is taken to
    succeed; the registry of pages, which the [finally] of a phase clears of
    its page, is not part of the store. *)
Record Phase : Type := {
  phasePage : result Adapter.Page;
  navigation : nat -> result (option Browser.HttpResponse)
}.

Definition withMetadata (found : option NovelMetadata) (st : CrawlerState) : CrawlerState :=
  {| stateUrl := stateUrl st;
     metadata := found;
     chapters := chapters st;
     lastCompletedIndex := lastCompletedIndex st;
     completedChapters := completedChapters st;
     lastUpdated := lastUpdated st |}.

Definition withChapters (listed : list ChapterInfo) (st : CrawlerState) : CrawlerState :=
  {| stateUrl := stateUrl st;
     metadata := metadata st;
     chapters := listed;
     lastCompletedIndex := lastCompletedIndex st;
     completedChapters := completedChapters st;
     lastUpdated := lastUpdated st |}.

Definition withTotalChapters (n : Z) (m : NovelMetadata) : NovelMetadata :=
  {| novelTitle := novelTitle m; author := author m; coverUrl := coverUrl m;
     synopsis := synopsis m; tags := tags m; Models.status := Models.status m;
     totalChapters := n; sourceUrl := sourceUrl m; crawledAt := crawledAt m |}.

Definition extractMetadata (config : CrawlerConfig) (env : Phase) : io World unit :=
  let! page := liftResult (phasePage env) in
  let! _ := liftResult (Browser.safeGoto (navigation env) []).1 in
  let! found := liftResult (Adapter.extractMetadata page (configUrl config)) in
  let! _ := setState (withMetadata (Some found)) in
  saveState config.

(** [this.state.metadata.totalChapters = chapters.length] throws when the
    metadata is [null]; the chapters are in the state by then. *)
Definition extractChapterList (config : CrawlerConfig) (env : Phase) : io World unit :=
  let! page := liftResult (phasePage env) in
  let! _ := liftResult (Browser.safeGoto (navigation env) []).1 in
  let! listed := liftResult (Adapter.extractChapterList page (configUrl config)) in
  let! _ := setState (withChapters listed) in
  let! st := gets state in
  match metadata st with
  | Some m =>
      let! _ := setState (withMetadata
                            (Some (withTotalChapters (Z.of_nat (length listed)) m))) in
      saveState config
  | None => throw "Cannot set properties of null (setting 'totalChapters')"
  end.

(** What a call of [scrape] gets from outside. *)
Record Run : Type := {
  browserStarted : result unit;          (* browserManager.init() *)
  startedAt : Z;                         (* the clock at initState *)
  metadataPhase : Phase;
  listingPhase : Phase;
  attempts : list (nat * Attempt)
}.

(** The [try] block of [scrape] up to the choice of the chapters. *)
Definition prepare (config : CrawlerConfig) (env : Run) : io World (list ChapterInfo) :=
  let! st := gets state in
  let! _ := (match metadata st with
             | None => extractMetadata config (metadataPhase env)
             | Some _ => ret tt
             end) in
  let! st := gets state in
  let! _ := (if Z.of_nat (length (chapters st)) =? 0
             then extractChapterList config (listingPhase env)
             else ret tt) in
  gets (fun w => getChaptersToScrape config (state w)).

(** The [try] block of [scrape] once the state is loaded: what it returns or
    throws; [None] when the attempts given do not settle every task. *)
Definition scrapeLoaded (config : CrawlerConfig) (env : Run) (w : World)
  : option (result CrawlerState * World) :=
  match prepare config env w with
  | (Err e, w1) => Some (Err e, w1)
  | (Ok [], w1) => Some (Ok (state w1), w1)
  | (Ok chaptersToScrape, w1) =>
      match scrapeChapters config chaptersToScrape (attempts env)
              (newProgressTracker (Z.of_nat (length chaptersToScrape))) w1 with
      | Some (_, _, w2) => Some (Ok (state w2), w2)
      | None => None
      end
  end.

(** How a call of [scrape] ends: what it returns or throws, the disk, and
    whether the browser is still there. *)
Record Outcome : Type := {
  returned : result CrawlerState;
  finalDisk : FileSystem;
  browserOpen : bool
}.

(** [scrape]: when the browser does not start, [this.state] is still [null]
    and [cleanup] has nothing to save or close; otherwise [cleanup] runs in
    the [finally], and what it throws replaces what the [try] block returned
    or threw.  A checkpoint that is not of the shape of a state is outside
    this model ([None]). *)
Definition scrape (config : CrawlerConfig) (env : Run) (fs : FileSystem) : option Outcome :=
  match browserStarted env with
  | Err e => Some {| returned := Err e; finalDisk := fs; browserOpen := false |}
  | Ok _ =>
      match loadState config (startedAt env) fs with
      | Unshaped _ => None
      | Loaded st =>
          match scrapeLoaded config env
                  {| state := st; disk := fs; browserRunning := true |} with
          | None => None
          | Some (r, w) =>
              let '(cleaned, w') := cleanup config w in
              Some {| returned := match cleaned with
                                  | Ok _ => r
                                  | Err e => Err e
                                  end;
                      finalDisk := disk w';
                      browserOpen := browserRunning w' |}
          end
      end
  end.

(** *** Measures and the invariant of a pool, for the proofs *)

Definition isQueued (t : Task) : bool :=
  match status t with Queued => true | _ => false end.

Definition isFulfilled (t : Task) : bool :=
  match status t with Settled Undefined => true | _ => false end.

Definition isFailed (t : Task) : bool :=
  match status t with Settled (Failure _ _) => true | _ => false end.

Definition countOf (p : Task -> bool) (ts : list Task) : nat :=
  length (List.filter p ts).

(** The attempts a task may still make. *)
Definition attemptsLeft (retries : nat) (t : Task) : nat :=
  match status t with
  | Queued => S retries
  | Running n => S (S retries - n)
  | Settled _ => 0
  end.

Definition attemptsLeftAll (retries : nat) (ts : list Task) : nat :=
  list_sum (List.map (attemptsLeft retries) ts).

(** A failure object names the chapter of its task. *)
Definition wellReported (t : Task) : Prop :=
  match status t with
  | Settled (Failure ch _) => ch = chapter t
  | _ => True
  end.

(** What holds of the pool of [scrapeChapters config chapters] started with
    the tracker [tracker], at every moment. *)
Record PoolInvariant (config : CrawlerConfig) (chapters : list ChapterInfo)
    (tracker : ProgressTracker) (pool : Pool) : Prop := {
  inv_chapters : List.map chapter (tasks pool) = chapters;
  inv_current :
    current (progress pool) = current tracker + Z.of_nat (countOf isFulfilled (tasks pool));
  inv_errors :
    errors (progress pool) = errors tracker + Z.of_nat (countOf isFailed (tasks pool));
  inv_reported : Forall wellReported (tasks pool);
  inv_slots : (countOf isRunning (tasks pool) <= concurrency config)%nat;
  inv_queue :
    existsb isQueued (tasks pool) = true ->
    countOf isRunning (tasks pool) = concurrency config
}.

(** The attempts made so far account for the status of the task [t] at the
    position [i]: a queued task has made none; a task that runs its attempt
    number [n] has made the attempts before it, which threw; a task that
    succeeded has made attempts that threw and a last one that returned; a
    task that failed has made attempts that all threw. *)
Definition accounted (retries : nat) (made : list Made) (i : nat) (t : Task) : Prop :=
  match status t with
  | Queued => attemptsOf i made = []
  | Running n => (1 <= n <= S retries)%nat /\ attemptsOf i made = thrown (n - 1)
  | Settled Undefined =>
      exists m, (m <= retries)%nat /\ attemptsOf i made = (thrown m ++ [(S m, true)])%list
  | Settled (Failure _ _) =>
      exists m, (m <= retries)%nat /\ attemptsOf i made = thrown (S m)
  end.

(** [st'] comes from [st] by updates of the state for chapters of [chs]. *)
Inductive committed (chs : list ChapterInfo) (st : CrawlerState) : CrawlerState -> Prop :=
| committed_none : committed chs st st
| committed_more (ch : ChapterInfo) (now : Z) (st' : CrawlerState) :
    In ch chs -> committed chs st st' -> committed chs st (commit ch now st').

(** The chapter is recorded as completed in the state. *)
Definition recorded (st : CrawlerState) (ch : ChapterInfo) : Prop :=
  In (id ch) (completedChapters st) /\ index ch <= lastCompletedIndex st.

(** Every task that has succeeded has its chapter recorded in the state. *)
Definition successesRecorded (st : CrawlerState) (ts : list Task) : Prop :=
  Forall (fun t => isFulfilled t = true -> recorded st (chapter t)) ts.

End Scraper.

(* ================================================================== *)
(** ** src/core/output.js *)
(* ================================================================== *)

Module Output.
Import Js Utils Models.

(** [s.indexOf(c)] for a one-character needle; [None] is -1. *)
Fixpoint indexOf (c : ascii) (s : string) : option nat :=
  match s with
  | EmptyString => None
  | String d rest => if Ascii.eqb d c then Some 0%nat else S <$> indexOf c rest
  end.

(** [s.substring(0, n)] and [s.substring(n)]. *)
Fixpoint substringTo (n : nat) (s : string) : string :=
  match n, s with
  | S n', String c rest => String c (substringTo n' rest)
  | _, _ => EmptyString
  end.

Fixpoint substringFrom (n : nat) (s : string) : string :=
  match n, s with
  | S n', String _ rest => substringFrom n' rest
  | _, _ => s
  end.

Definition isQuote (c : ascii) : bool :=
  Ascii.eqb c (ascii_of_nat 34) || Ascii.eqb c (ascii_of_nat 39).

(** The string without its last character when that is a quote. *)
Fixpoint dropEndQuote (s : string) : string :=
  match s with
  | EmptyString => EmptyString
  | String c EmptyString => if isQuote c then EmptyString else s
  | String c rest => String c (dropEndQuote rest)
  end.

(** [value.replace(/^[QUOTES]|[QUOTES]$/g, '')]: a quote at the start is
    taken off, and a quote at the end of what follows it. *)
Definition stripQuotes (s : string) : string :=
  match s with
  | String c rest => if isQuote c then dropEndQuote rest else dropEndQuote s
  | EmptyString => EmptyString
  end.

(** [s] without [prefix] at its start, when it starts with it. *)
Fixpoint stripPrefix (prefix s : string) : option string :=
  match prefix, s with
  | EmptyString, _ => Some s
  | String p prefix', String c rest =>
      if Ascii.eqb p c then stripPrefix prefix' rest else None
  | String _ _, EmptyString => None
  end.

(** What is before and after the first occurrence of [sep] in [s]. *)
Fixpoint cut (sep s : string) : option (string * string) :=
  match stripPrefix sep s with
  | Some rest => Some (EmptyString, rest)
  | None =>
      match s with
      | EmptyString => None
      | String c rest =>
          match cut sep rest with
          | Some (before, after) => Some (String c before, after)
          | None => None
          end
      end
  end.

(** The two marks of [frontmatterRegex]: three dashes and a line feed at
    the very start, and the first line feed, three dashes, line feed after
    it, at which the lazy group ends; the second group takes the rest. *)
Definition opening : string := "---" ++ newline.
Definition closing : string := newline ++ "---" ++ newline.

(** The body of the [forEach] over the lines; the object [frontmatter] is
    used as a map from keys to strings (an assignment to [__proto__] adds no
    key to an object). *)
Definition parseLine (frontmatter : gmap string string) (line : string)
  : gmap string string :=
  match indexOf ":" line with
  | Some colonIndex =>
      if (0 <? colonIndex)%nat then
        let key := trim (substringTo colonIndex line) in
        let value := stripQuotes (trim (substringFrom (S colonIndex) line)) in
        if String.eqb key "__proto__" then frontmatter
        else <[ key := value ]> frontmatter
      else frontmatter
  | None => frontmatter
  end.

Definition parseFrontmatter (content : string) : gmap string string * string :=
  match stripPrefix opening content with
  | Some rest =>
      match cut closing rest with
      | Some (frontmatterText, markdown) =>
          (fold_left parseLine (split (ascii_of_nat 10) frontmatterText) ∅, markdown)
      | None => (∅, content)
      end
  | None => (∅, content)
  end.

(** *** generateIndex: the chapters and the statistics of [indexData] *)

Record IndexChapter : Type := {
  listed : ChapterInfo;
  filename : string;
  completed : bool
}.

Definition indexChapters (st : CrawlerState) : list IndexChapter :=
  List.map
    (fun ch =>
       {| listed := ch;
          filename := padStart0 4 (numberToString (index ch)) ++ "-" ++ id ch ++ ".md";
          completed := existsb (String.eqb (id ch)) (completedChapters st) |})
    (chapters st).

Record Statistics : Type := {
  statisticsTotal : Z;        (* totalChapters *)
  statisticsCompleted : Z;    (* completedChapters *)
  statisticsFailed : Z        (* failedChapters *)
}.

Definition statistics (st : CrawlerState) : Statistics :=
  let total := Z.of_nat (length (chapters st)) in
  let done := Z.of_nat (length (completedChapters st)) in
  {| statisticsTotal := total;
     statisticsCompleted := done;
     statisticsFailed := Z.max 0 (total - done) |}.

End Output.

(* ================================================================== *)
(** ** src/index.js and src/web-ui.js: the numeric options *)
(* ================================================================== *)

Module Cli.
Import Js.

(** [parseInt(string, radix)] for a radix that is an integer: 0 stands for
    no radix, a radix below 2 or above 36 gives [NaN], and the prefix [0x]
    is taken off for the radix 16 only. *)
Definition parseIntRadix (s : string) (radix : Z) : option Z :=
  if radix =? 0 then parseInt s
  else if (radix <? 2) || (36 <? radix) then None
  else
    let s1 := trimStart s in
    let '(sign, s2) :=
      match s1 with
      | String "-"%char r => (-1, r)
      | String "+"%char r => (1, r)
      | _ => (1, s1)
      end in
    let s3 :=
      if radix =? 16 then
        match s2 with
        | String "0"%char (String "x"%char r) => r
        | String "0"%char (String "X"%char r) => r
        | _ => s2
        end
      else s2 in
    Z.mul sign <$> parseDigits radix s3 None.

(** An option declared as [.option(flags, description, fn, defaultValue)]:
    without the option the value is the default, and with it the function is
    called with the argument and the previous value, which is the default. *)
Definition processed (fn : string -> Z -> option Z) (defaultValue : Z)
    (argument : option string) : option Z :=
  match argument with
  | Some s => fn s defaultValue
  | None => Some defaultValue
  end.

(** [Math.max] with [NaN] as [None]. *)
Definition mathMax (a b : option Z) : option Z :=
  match a, b with
  | Some x, Some y => Some (Z.max x y)
  | _, _ => None
  end.

Definition concurrencyOption : option string -> option Z := processed parseIntRadix 2.
Definition retriesOption : option string -> option Z := processed parseIntRadix 3.
Definition timeoutOption : option string -> option Z := processed parseIntRadix 30000.

(** [Math.max(1, Math.min(options.concurrency, 10))] *)
Definition configuredConcurrency (argument : option string) : option Z :=
  mathMax (Some 1) (mathMin (concurrencyOption argument) (Some 10)).

End Cli.

Module WebUi.
Import Js.

(** The form sends [parseInt(formData.get('concurrency'))] as JSON, in which
    [NaN] is written [null]; the server takes
    [Math.max(1, Math.min(concurrency || 2, 10))]. *)
Definition submitted (field : string) : option Z := parseInt field.

Definition configuredConcurrency (concurrency : option Z) : Z :=
  let given :=
    match concurrency with
    | Some n => if n =? 0 then 2 else n
    | None => 2
    end in
  Z.max 1 (Z.min given 10).

End WebUi.

(* ================================================================== *)
(** ** Concrete inputs used by the examples *)
(* ================================================================== *)

Module Samples.
Import Js Utils Models.

Definition numbered (n : Z) : ChapterInfo :=
  {| index := n;
     id := "chapter-" ++ numberToString n;
     title := "Chapter " ++ numberToString n;
     url := "https://mtlbooks.com/novel/example/chapter-" ++ numberToString n |}.

Definition config : CrawlerConfig :=
  {| configUrl := "https://mtlbooks.com/novel/example";
     outputDir := "./downloads/example";
     range := None;
     concurrency := 2;
     retries := 3;
     resume := true;
     force := false |}.

Definition forced : CrawlerConfig :=
  {| configUrl := configUrl config; outputDir := outputDir config;
     range := None; concurrency := 2; retries := 3; resume := true; force := true |}.

(** Five chapters listed, the first and the third completed. *)
Definition resumed : CrawlerState :=
  {| stateUrl := configUrl config;
     metadata := None;
     chapters := List.map numbered [1; 2; 3; 4; 5];
     lastCompletedIndex := 3;
     completedChapters := ["chapter-1"; "chapter-3"];
     lastUpdated := DateObject 1700000000000 |}.

(** A chapter page with a hundred and twenty characters of text, on which
    only the first and the last content selector match. *)
Definition longText : string :=
  String.concat "" (repeat "lorem ipsum " 10).

Definition chapterElement : Adapter.Element :=
  {| Adapter.textContent := longText;
     Adapter.cleanedHTML := "<p>" ++ longText ++ "</p>";
     Adapter.imageUrls := [];
     Adapter.words := 20 |}.

Definition chapterDom : Adapter.Dom :=
  fun selector =>
    if String.eqb selector ".chapter-content" || String.eqb selector Adapter.anyContentClass
    then Some chapterElement
    else None.

Definition chapterPage : Adapter.Page :=
  {| Adapter.network := [];
     Adapter.goto := fun _ => Ok chapterDom;
     Adapter.metadataOnPage := Err "document.querySelector is not available";
     Adapter.chaptersOnPage := Err "No chapter links found" |}.

Definition goodAttempt : Scraper.Attempt :=
  {| Scraper.createdPage := Ok chapterPage;
     Scraper.markdownOf := fun html => html;
     Scraper.extractedTime := 1700000000000;
     Scraper.committedTime := 1700000000250 |}.

Definition failedAttempt : Scraper.Attempt :=
  {| Scraper.createdPage := Err "Navigation timeout of 30000 ms exceeded";
     Scraper.markdownOf := fun html => html;
     Scraper.extractedTime := 1700000000000;
     Scraper.committedTime := 1700000000250 |}.

Definition emptyDisk : FileSystem :=
  {| files := ∅; dirs := ∅;
     mkdirFault := fun _ => None;
     writeFault := fun _ => None;
     failedWrite := fun _ => None;
     readFault := fun _ => false |}.

Definition freshWorld : Scraper.World :=
  {| Scraper.state := Scraper.initState config 1700000000000;
     Scraper.disk := emptyDisk;
     Scraper.browserRunning := true |}.

(** Two failed attempts, then good ones. *)
Definition thirdTime (attemptNumber : nat) : Scraper.Attempt :=
  if (attemptNumber <=? 2)%nat then failedAttempt else goodAttempt.

(** One retry, two slots. *)
Definition oneRetry : CrawlerConfig :=
  {| configUrl := configUrl config; outputDir := outputDir config;
     range := None; concurrency := 2; retries := 1; resume := true; force := false |}.

(** Three chapters under [oneRetry]: the first succeeds, the second fails
    twice, the third succeeds; two more entries find nothing running. *)
Definition oneFailure : list (nat * Scraper.Attempt) :=
  [ (0%nat, goodAttempt); (0%nat, failedAttempt); (0%nat, failedAttempt);
    (0%nat, goodAttempt); (0%nat, goodAttempt); (0%nat, goodAttempt) ].

(** A chapter page still showing its placeholder: the only content element
    holds eighteen characters. *)
Definition skeletonElement : Adapter.Element :=
  {| Adapter.textContent := "Loading chapter...";
     Adapter.cleanedHTML := "<p>Loading chapter...</p>";
     Adapter.imageUrls := [];
     Adapter.words := 2 |}.

Definition skeletonDom : Adapter.Dom :=
  fun selector =>
    if String.eqb selector ".chapter-content" || String.eqb selector Adapter.anyContentClass
    then Some skeletonElement
    else None.

Definition skeletonPage : Adapter.Page :=
  {| Adapter.network := [];
     Adapter.goto := fun _ => Ok skeletonDom;
     Adapter.metadataOnPage := Err "document.querySelector is not available";
     Adapter.chaptersOnPage := Err "No chapter links found" |}.

(** The same placeholder in an element found by its id only. *)
Definition skeletonByIdDom : Adapter.Dom :=
  fun selector => if String.eqb selector "#content" then Some skeletonElement else None.

Definition skeletonByIdPage : Adapter.Page :=
  {| Adapter.network := [];
     Adapter.goto := fun _ => Ok skeletonByIdDom;
     Adapter.metadataOnPage := Err "document.querySelector is not available";
     Adapter.chaptersOnPage := Err "No chapter links found" |}.

Definition exampleMetadata : NovelMetadata :=
  {| novelTitle := "An Example Novel";
     author := Some "Somebody";
     coverUrl := None;
     synopsis := None;
     tags := Some ["fantasy"];
     status := None;
     totalChapters := 5;
     sourceUrl := configUrl config;
     crawledAt := "2023-11-14T22:13:20.000Z" |}.

(** A novel page that answers something every 400 ms for 32 seconds. *)
Definition busyPage : Adapter.Page :=
  {| Adapter.network :=
       List.map (fun k => (400 * Z.of_nat k, Browser.Response)) (seq 1 80);
     Adapter.goto := fun _ => Ok chapterDom;
     Adapter.metadataOnPage := Ok exampleMetadata;
     Adapter.chaptersOnPage := Ok (List.map numbered [1; 2; 3; 4; 5]) |}.

(** A novel page with one request and its response. *)
Definition quietPage : Adapter.Page :=
  {| Adapter.network := [(120, Browser.Request); (340, Browser.Response)];
     Adapter.goto := fun _ => Ok chapterDom;
     Adapter.metadataOnPage := Ok exampleMetadata;
     Adapter.chaptersOnPage := Ok (List.map numbered [1; 2; 3; 4; 5]) |}.

(** A disk that refuses every write. *)
Definition readOnlyDisk : FileSystem :=
  {| files := ∅; dirs := {[ outputDir config ]};
     mkdirFault := fun _ => None;
     writeFault := fun _ => Some "EACCES: permission denied";
     failedWrite := fun _ => None;
     readFault := fun _ => false |}.

Definition readOnlyWorld : Scraper.World :=
  {| Scraper.state := resumed;
     Scraper.disk := readOnlyDisk;
     Scraper.browserRunning := true |}.

(** The world of [resumed] on an empty disk. *)
Definition resumedWorld : Scraper.World :=
  {| Scraper.state := resumed;
     Scraper.disk := emptyDisk;
     Scraper.browserRunning := true |}.

(** Four of the five chapters completed: the next one is the fifth. *)
Definition fourDone : CrawlerState :=
  {| stateUrl := configUrl config;
     metadata := Some exampleMetadata;
     chapters := List.map numbered [1; 2; 3; 4; 5];
     lastCompletedIndex := 4;
     completedChapters := ["chapter-1"; "chapter-2"; "chapter-3"; "chapter-4"];
     lastUpdated := DateString "2023-11-14T22:13:20.000Z" |}.

Definition fourDoneWorld : Scraper.World :=
  {| Scraper.state := fourDone;
     Scraper.disk := emptyDisk;
     Scraper.browserRunning := true |}.

(** A disk on which the chapters can be written and the checkpoint cannot. *)
Definition lockedCheckpointDisk : FileSystem :=
  {| files := ∅; dirs := ∅;
     mkdirFault := fun _ => None;
     writeFault := fun p => if String.eqb p.2 "state.json"
                            then Some "EACCES: permission denied" else None;
     failedWrite := fun _ => None;
     readFault := fun _ => false |}.

Definition lockedCheckpointWorld : Scraper.World :=
  {| Scraper.state := fourDone;
     Scraper.disk := lockedCheckpointDisk;
     Scraper.browserRunning := true |}.

(** A full disk that holds the checkpoint of [fourDone]: the checkpoint can
    be opened and nothing can be written to it. *)
Definition fullDisk : FileSystem :=
  {| files := files (Scraper.disk (Scraper.saveState config fourDoneWorld).2);
     dirs := {[ outputDir config ]};
     mkdirFault := fun _ => None;
     writeFault := fun _ => Some "ENOSPC: no space left on device";
     failedWrite := fun _ => Some (Plain "");
     readFault := fun _ => false |}.

Definition fullDiskWorld : Scraper.World :=
  {| Scraper.state := fourDone;
     Scraper.disk := fullDisk;
     Scraper.browserRunning := true |}.

(** A checkpoint of an older format, without [completedChapters]. *)
Definition oldCheckpoint : json :=
  JObj [ ("url", JStr (configUrl config));
         ("metadata", JNull);
         ("chapters", JArr []);
         ("lastCompletedIndex", JNum 0);
         ("lastUpdated", JStr "2023-11-14T22:13:20.000Z") ].

Definition oldCheckpointDisk : FileSystem :=
  {| files := {[ Scraper.stateFile config := Document oldCheckpoint ]};
     dirs := {[ outputDir config ]};
     mkdirFault := fun _ => None;
     writeFault := fun _ => None;
     failedWrite := fun _ => None;
     readFault := fun _ => false |}.

(** A novel page that loads at the second navigation. *)
Definition okResponse : Browser.HttpResponse :=
  {| Browser.ok := true; Browser.status := 200; Browser.statusText := "OK" |}.

Definition secondTime (i : nat) : result (option Browser.HttpResponse) :=
  match i with
  | O => Err "net::ERR_CONNECTION_RESET"
  | _ => Ok (Some okResponse)
  end.

Definition novelPhase : Scraper.Phase :=
  {| Scraper.phasePage := Ok quietPage; Scraper.navigation := secondTime |}.

(** A novel page that answers 503 every time. *)
Definition unavailable (i : nat) : result (option Browser.HttpResponse) :=
  Ok (Some {| Browser.ok := false; Browser.status := 503;
              Browser.statusText := "Service Unavailable" |}).

Definition unavailablePhase : Scraper.Phase :=
  {| Scraper.phasePage := Ok quietPage; Scraper.navigation := unavailable |}.

(** A first run on an empty disk: metadata, listing, then the five chapters,
    each succeeding at once. *)
Definition firstRun : Scraper.Run :=
  {| Scraper.browserStarted := Ok tt;
     Scraper.startedAt := 1700000000000;
     Scraper.metadataPhase := novelPhase;
     Scraper.listingPhase := novelPhase;
     Scraper.attempts := repeat (0%nat, goodAttempt) 10 |}.

(** A run on which the novel page is not available. *)
Definition unavailableRun : Scraper.Run :=
  {| Scraper.browserStarted := Ok tt;
     Scraper.startedAt := 1700000000000;
     Scraper.metadataPhase := unavailablePhase;
     Scraper.listingPhase := unavailablePhase;
     Scraper.attempts := [] |}.

(** The three chapters left to scrape in [resumed], each succeeding at once
    (and entries that find nothing running). *)
Definition allGood : list (nat * Scraper.Attempt) :=
  repeat (0%nat, goodAttempt) 6.

End Samples.

(* ================================================================== *)
(** * Properties *)
(* ================================================================== *)

(** ** Strings and number lists *)

Section JsFacts.
Import Js.

Lemma ascii_eqb_comm (a b : ascii) : Ascii.eqb a b = Ascii.eqb b a.
Proof.
  destruct (Ascii.eqb_spec a b) as [->|Hne].
  - symmetry. apply Ascii.eqb_refl.
  - symmetry. apply Ascii.eqb_neq. congruence.
Qed.

Lemma split_without_separator (sep : ascii) (s : string) :
  includes sep s = false -> split sep s = [s].
Proof.
  induction s as [|c s IH]; simpl; [reflexivity|].
  intros H. apply orb_false_iff in H as [Hc Hs].
  rewrite ascii_eqb_comm, Hc, (IH Hs). reflexivity.
Qed.

Lemma split_at_separator (sep : ascii) (a b : string) :
  includes sep a = false ->
  split sep (a ++ String sep b) = a :: split sep b.
Proof.
  induction a as [|c a IH]; simpl.
  - intros _. rewrite Ascii.eqb_refl. reflexivity.
  - intros H. apply orb_false_iff in H as [Hc Ha].
    rewrite ascii_eqb_comm, Hc, (IH Ha). reflexivity.
Qed.

Lemma includes_separator (sep : ascii) (a b : string) :
  includes sep (a ++ String sep b) = true.
Proof.
  induction a as [|c a IH]; simpl.
  - rewrite Ascii.eqb_refl. reflexivity.
  - rewrite IH. apply orb_true_r.
Qed.

Lemma truthyString_nonempty (s : string) : s <> "" -> truthyString s = true.
Proof. destruct s; [congruence | reflexivity]. Qed.

Lemma fromTo_empty (a b : Z) : b < a -> fromTo a b = [].
Proof.
  intros H. unfold fromTo.
  replace (Z.to_nat (b - a + 1)) with 0%nat by lia. reflexivity.
Qed.

Lemma in_fromTo (a b i : Z) : In i (fromTo a b) <-> a <= i <= b.
Proof.
  unfold fromTo. rewrite in_map_iff. split.
  - intros (k & <- & Hk). apply in_seq in Hk. lia.
  - intros H. exists (Z.to_nat (i - a)). split; [lia|].
    apply in_seq. lia.
Qed.

End JsFacts.

(** ** parseRange *)

Section ParseRange.
Import Js Utils.

Lemma rangeIndexes_bare (token : string) (total : Z) :
  includes "-" token = false ->
  rangeIndexes token total =
    match parseInt token with
    | Some num => if (0 <? num) && (num <=? total) then [num] else []
    | None => []
    end.
Proof. intros H. unfold rangeIndexes. rewrite H. reflexivity. Qed.

Lemma rangeIndexes_interval (startStr endStr : string) (total : Z) :
  includes "-" startStr = false ->
  includes "-" endStr = false ->
  rangeIndexes (startStr ++ String "-" endStr) total =
    let start :=
      match parseInt startStr with
      | Some n => if n =? 0 then 1 else n
      | None => 1
      end in
    match (if truthyString endStr then parseInt endStr else Some total) with
    | Some last => fromTo start (Z.min last total)
    | None => []
    end.
Proof.
  intros Hs He. unfold rangeIndexes.
  rewrite includes_separator, (split_at_separator _ _ _ Hs),
    (split_without_separator _ _ He).
  simpl. destruct (if truthyString endStr then _ else _); reflexivity.
Qed.

End ParseRange.

Example parseRange_all : Utils.parseRange "all" 10 = [1;2;3;4;5;6;7;8;9;10].
Proof. reflexivity. Qed.

Example parseRange_bounded : Utils.parseRange "3-5" 10 = [3;4;5].
Proof. reflexivity. Qed.

Example parseRange_duplicates : Utils.parseRange "2,2,1-3" 10 = [1;2;3].
Proof. reflexivity. Qed.

Example parseRange_readme : Utils.parseRange "1-3, 7 ,9-" 10 = [1;2;3;7;9;10].
Proof. reflexivity. Qed.

(** C6, as the specification has it, fails: [parseRange("0,-1,abc", 10)] is
    not empty. *)
Lemma parseRange_malformed_not_empty : Utils.parseRange "0,-1,abc" 10 <> [].
Proof. vm_compute. discriminate. Qed.

(** C6 (amended): [parseRange("0,-1,abc", 10)] is [[1]].  A token without a
    dash that does not parse as a number, or whose number is not in
    [1..total], adds no index; a token [-N] has a dash, so it is read as an
    interval whose empty start stands for 1, and it adds [1..min(N, total)]. *)
Theorem parseRange_malformed_tokens :
  Utils.parseRange "0,-1,abc" 10 = [1] /\
  (forall (token : string) (total : Z),
      Js.includes "-" token = false ->
      match Js.parseInt token with
      | Some n => n <= 0 \/ total < n
      | None => True
      end ->
      Utils.rangeIndexes token total = []) /\
  (forall (digits : string) (total : Z),
      Js.includes "-" digits = false ->
      digits <> "" ->
      Utils.rangeIndexes (String "-" digits) total =
        match Js.parseInt digits with
        | Some n => Js.fromTo 1 (Z.min n total)
        | None => []
        end).
Proof.
  split; [reflexivity|]. split.
  - intros token total Hdash Hnum.
    rewrite rangeIndexes_bare by assumption.
    destruct (Js.parseInt token) as [n|]; [|reflexivity].
    destruct (0 <? n) eqn:Hpos; [|reflexivity].
    destruct (n <=? total) eqn:Hle; [|reflexivity].
    apply Z.ltb_lt in Hpos. apply Z.leb_le in Hle. lia.
  - intros digits total Hdash Hne.
    change (String "-" digits) with ("" ++ String "-" digits)%string.
    rewrite rangeIndexes_interval by (assumption || reflexivity).
    simpl. rewrite (truthyString_nonempty _ Hne). reflexivity.
Qed.

Lemma parseRange_malformed_tokens_witness :
  Utils.rangeIndexes "abc" 10 = [] /\
  Utils.rangeIndexes "0" 10 = [] /\
  Utils.rangeIndexes "-1" 10 = [1].
Proof.
  destruct parseRange_malformed_tokens as (_ & Hbare & Hdash).
  split; [|split].
  - apply (Hbare "abc" 10); [reflexivity | exact I].
  - apply (Hbare "0" 10); [reflexivity | vm_compute; left; discriminate].
  - apply (Hdash "1" 10); [reflexivity | discriminate].
Defined.

(** C7, as the specification has it, fails: [parseRange("8-", 5)] is not
    [[5]]. *)
Lemma parseRange_open_interval_beyond_total : Utils.parseRange "8-" 5 <> [5].
Proof. vm_compute. discriminate. Qed.

(** C7 (amended): [parseRange("8-", 5)] is empty.  An open interval [A-]
    runs from [A] to [total] and a bounded one [A-B] to [min(B, total)]; only
    the end is cut at [total] (and a start of 0 stands for 1), so an interval
    that starts above [total] adds no index, and every index added lies
    between the start and [total]. *)
Theorem parseRange_open_interval :
  Utils.parseRange "8-" 5 = [] /\
  (forall (startStr : string) (start total : Z),
      Js.includes "-" startStr = false ->
      Js.parseInt startStr = Some start ->
      Utils.rangeIndexes (startStr ++ "-") total =
        Js.fromTo (if start =? 0 then 1 else start) total) /\
  (forall (startStr endStr : string) (start last total : Z),
      Js.includes "-" startStr = false ->
      Js.includes "-" endStr = false ->
      Js.parseInt startStr = Some start ->
      endStr <> "" ->
      Js.parseInt endStr = Some last ->
      Utils.rangeIndexes (startStr ++ String "-" endStr) total =
        Js.fromTo (if start =? 0 then 1 else start) (Z.min last total)) /\
  (forall (start total i : Z),
      In i (Js.fromTo start total) <-> start <= i <= total).
Proof.
  split; [reflexivity|]. split; [|split].
  - intros startStr start total Hdash Hstart.
    rewrite rangeIndexes_interval by (assumption || reflexivity).
    simpl. rewrite Hstart, Z.min_id. reflexivity.
  - intros startStr endStr start last total Hs He Hstart Hne Hlast.
    rewrite rangeIndexes_interval by assumption.
    simpl. rewrite Hstart, (truthyString_nonempty _ Hne), Hlast. reflexivity.
  - intros. apply in_fromTo.
Qed.

Lemma parseRange_open_interval_witness :
  Utils.rangeIndexes "8-" 5 = Js.fromTo 8 5 /\
  Utils.rangeIndexes "3-" 5 = [3; 4; 5] /\
  Utils.rangeIndexes "2-9" 5 = [2; 3; 4; 5].
Proof.
  destruct parseRange_open_interval as (_ & Hopen & Hbounded & _).
  split; [|split].
  - apply (Hopen "8" 8 5); reflexivity.
  - apply (Hopen "3" 3 5); reflexivity.
  - apply (Hbounded "2" "9" 2 9 5); reflexivity || discriminate.
Defined.

(** ** getChaptersToScrape *)

Section ChaptersToScrape.
Import Js Utils Models Scraper.

Lemma includes_number (x : Z) (l : list Z) : existsb (Z.eqb x) l = true <-> In x l.
Proof.
  rewrite existsb_exists. split.
  - intros (y & Hy & Heq). apply Z.eqb_eq in Heq. congruence.
  - intros H. exists x. split; [assumption | apply Z.eqb_refl].
Qed.

Lemma includes_string (x : string) (l : list string) :
  existsb (String.eqb x) l = true <-> In x l.
Proof.
  rewrite existsb_exists. split.
  - intros (y & Hy & Heq). apply String.eqb_eq in Heq. congruence.
  - intros H. exists x. split; [assumption | apply String.eqb_refl].
Qed.

Lemma includes_string_false (x : string) (l : list string) :
  existsb (String.eqb x) l = false <-> ~ In x l.
Proof.
  rewrite <- includes_string. destruct (existsb _ l); split; congruence.
Qed.

(** A chapter is scheduled iff it is a chapter of the state, its index is a
    target index, and force is set or its id is not among the completed. *)
Lemma getChaptersToScrape_spec (config : CrawlerConfig) (st : CrawlerState)
    (c : ChapterInfo) :
  In c (getChaptersToScrape config st) <->
  In c (chapters st) /\
  In (index c) (targetIndexes config st) /\
  (force config = true \/ ~ In (id c) (completedChapters st)).
Proof.
  unfold getChaptersToScrape.
  destruct (chapters st) as [|c0 cs] eqn:Hcs.
  - simpl. tauto.
  - rewrite filter_In, <- includes_number, <- includes_string_false.
    destruct (existsb (Z.eqb (index c)) _); simpl.
    + destruct (force config); simpl.
      * intuition.
      * destruct (existsb (String.eqb (id c)) _); intuition congruence.
    + intuition congruence.
Qed.

End ChaptersToScrape.

(** C1: with chapters c1..c5 of indices 1..5, completed ids those of c1 and
    c3, and no range, [getChaptersToScrape] gives c2, c4, c5 without force
    and all five with force; in general a chapter is scheduled iff its index
    is in the resolved range and force is set or its id is not completed. *)
Theorem getChaptersToScrape_resume :
  (forall (config : Models.CrawlerConfig) (st : Models.CrawlerState)
          (c1 c2 c3 c4 c5 : Models.ChapterInfo),
      Models.chapters st = [c1; c2; c3; c4; c5] ->
      List.map Models.index [c1; c2; c3; c4; c5] = [1; 2; 3; 4; 5] ->
      List.NoDup (List.map Models.id [c1; c2; c3; c4; c5]) ->
      (forall k, In k (Models.completedChapters st) <->
                 k = Models.id c1 \/ k = Models.id c3) ->
      Models.range config = None ->
      Scraper.getChaptersToScrape config st =
        if Models.force config then [c1; c2; c3; c4; c5] else [c2; c4; c5]) /\
  (forall (config : Models.CrawlerConfig) (st : Models.CrawlerState)
          (c : Models.ChapterInfo),
      In c (Scraper.getChaptersToScrape config st) <->
      In c (Models.chapters st) /\
      In (Models.index c) (Scraper.targetIndexes config st) /\
      (Models.force config = true \/ ~ In (Models.id c) (Models.completedChapters st))) /\
  (forall (config : Models.CrawlerConfig) (st : Models.CrawlerState),
      Scraper.targetIndexes config st =
        match Models.range config with
        | Some (String a r) =>
            Utils.parseRange (String a r) (Z.of_nat (length (Models.chapters st)))
        | _ => Js.fromTo 1 (Z.of_nat (length (Models.chapters st)))
        end).
Proof.
  split; [|split].
  - intros config st c1 c2 c3 c4 c5 Hcs Hidx Hids Hdone Hrange.
    injection Hidx as H1 H2 H3 H4 H5.
    assert (Hin : forall c, existsb (String.eqb (Models.id c)) (Models.completedChapters st)
                            = true <-> Models.id c = Models.id c1 \/ Models.id c = Models.id c3).
    { intros c. rewrite includes_string. apply Hdone. }
    assert (Hd1 : existsb (String.eqb (Models.id c1)) (Models.completedChapters st) = true)
      by (apply Hin; auto).
    assert (Hd3 : existsb (String.eqb (Models.id c3)) (Models.completedChapters st) = true)
      by (apply Hin; auto).
    simpl in Hids.
    repeat match goal with
           | H : List.NoDup (_ :: _) |- _ => apply NoDup_cons_iff in H as [? H]
           end.
    assert (Hd2 : existsb (String.eqb (Models.id c2)) (Models.completedChapters st) = false).
    { apply not_true_is_false. rewrite Hin. simpl in *. intuition. }
    assert (Hd4 : existsb (String.eqb (Models.id c4)) (Models.completedChapters st) = false).
    { apply not_true_is_false. rewrite Hin. simpl in *. intuition. }
    assert (Hd5 : existsb (String.eqb (Models.id c5)) (Models.completedChapters st) = false).
    { apply not_true_is_false. rewrite Hin. simpl in *. intuition. }
    unfold Scraper.getChaptersToScrape, Scraper.targetIndexes.
    rewrite Hcs, Hrange. cbn [List.filter length].
    rewrite H1, H2, H3, H4, H5, Hd1, Hd2, Hd3, Hd4, Hd5.
    destruct (Models.force config); reflexivity.
  - apply getChaptersToScrape_spec.
  - intros config st. unfold Scraper.targetIndexes.
    destruct (Models.range config) as [[|a r]|]; reflexivity.
Qed.

Lemma getChaptersToScrape_resume_witness :
  Scraper.getChaptersToScrape Samples.config Samples.resumed =
    List.map Samples.numbered [2; 4; 5] /\
  Scraper.getChaptersToScrape Samples.forced Samples.resumed =
    List.map Samples.numbered [1; 2; 3; 4; 5].
Proof.
  destruct getChaptersToScrape_resume as (H & _ & _).
  split.
  - apply (H Samples.config Samples.resumed
             (Samples.numbered 1) (Samples.numbered 2) (Samples.numbered 3)
             (Samples.numbered 4) (Samples.numbered 5)); try reflexivity.
    + vm_compute. repeat constructor; simpl; intuition discriminate.
    + intros k. vm_compute. intuition.
  - apply (H Samples.forced Samples.resumed
             (Samples.numbered 1) (Samples.numbered 2) (Samples.numbered 3)
             (Samples.numbered 4) (Samples.numbered 5)); try reflexivity.
    + vm_compute. repeat constructor; simpl; intuition discriminate.
    + intros k. vm_compute. intuition.
Defined.

(** ** The state under the attempts *)

Section StateUnderAttempts.
Import Js Utils Models Scraper.

Lemma onDisk_state {A : Type} (m : io FileSystem A) (w : World) :
  state (onDisk m w).2 = state w.
Proof. unfold onDisk. destruct (m (disk w)). reflexivity. Qed.

Lemma saveState_state (config : CrawlerConfig) (w : World) :
  state (saveState config w).2 = state w.
Proof.
  cbv beta iota delta [saveState iobind gets].
  destruct (JSON_stringify (stateValue (state w))); [apply onDisk_state | reflexivity].
Qed.

Lemma saveChapterContent_state (config : CrawlerConfig) (c : ChapterContent)
    (markdown : string) (w : World) :
  state (saveChapterContent config c markdown w).2 = state w.
Proof. apply onDisk_state. Qed.

(** An attempt leaves the state as it was or commits its chapter. *)
Lemma scrapeAttempt_state (config : CrawlerConfig) (ch : ChapterInfo) (env : Attempt)
    (w : World) :
  state (scrapeAttempt config ch env w).2 = state w \/
  state (scrapeAttempt config ch env w).2 = commit ch (committedTime env) (state w).
Proof.
  unfold scrapeAttempt, iobind, liftResult.
  destruct (createdPage env) as [page|e]; [|left; reflexivity].
  destruct (Adapter.extractChapterContent page ch (extractedTime env)) as [c|e];
    [|left; reflexivity].
  pose proof (saveChapterContent_state config c (markdownOf env (Models.content c)) w) as Hs.
  destruct (saveChapterContent config c _ w) as [[[]|e] w1]; simpl in Hs;
    [|left; assumption].
  unfold setState, modify, gets. simpl.
  destruct (_ mod 5 =? 0).
  - match goal with |- context [saveState config ?w2] =>
      pose proof (saveState_state config w2) as Hs2;
      destruct (saveState config w2) as [[[]|e] w3]
    end; simpl in *; right; rewrite Hs2, Hs; reflexivity.
  - simpl. right. rewrite Hs. reflexivity.
Qed.

Lemma commit_distinct (ch : ChapterInfo) (now : Z) (st : CrawlerState) :
  List.NoDup (completedChapters st) ->
  List.NoDup (completedChapters (commit ch now st)).
Proof.
  intros H. unfold commit. simpl.
  destruct (existsb (String.eqb (id ch)) (completedChapters st)) eqn:Hin; [assumption|].
  apply includes_string_false in Hin.
  apply List.NoDup_app; [assumption | repeat constructor; simpl; tauto |].
  intros x Hx [<-|[]]. contradiction.
Qed.

End StateUnderAttempts.

(** ** The pool of tasks *)

Section PoolFacts.
Import Js Utils Models Scraper.

Lemma countOf_insert (p : Task -> bool) (ts : list Task) (i : nat) (old t : Task) :
  ts !! i = Some old ->
  (countOf p (<[i := t]> ts) + (if p old then 1 else 0) =
   countOf p ts + (if p t then 1 else 0))%nat.
Proof.
  unfold countOf. revert i. induction ts as [|a ts IH]; intros i Hi; [discriminate|].
  destruct i as [|i]; simpl in *.
  - injection Hi as ->. destruct (p old), (p t); simpl; lia.
  - specialize (IH i Hi). destruct (p a); simpl; lia.
Qed.

Lemma attemptsLeftAll_insert (r : nat) (ts : list Task) (i : nat) (old t : Task) :
  ts !! i = Some old ->
  (attemptsLeftAll r (<[i := t]> ts) + attemptsLeft r old =
   attemptsLeftAll r ts + attemptsLeft r t)%nat.
Proof.
  unfold attemptsLeftAll. revert i. induction ts as [|a ts IH]; intros i Hi; [discriminate|].
  destruct i as [|i]; simpl in *.
  - injection Hi as ->. lia.
  - specialize (IH i Hi). lia.
Qed.

Lemma chapters_insert (ts : list Task) (i : nat) (old t : Task) :
  ts !! i = Some old ->
  chapter t = chapter old ->
  List.map chapter (<[i := t]> ts) = List.map chapter ts.
Proof.
  revert i. induction ts as [|a ts IH]; intros i Hi Hch; [discriminate|].
  destruct i as [|i]; simpl in *.
  - injection Hi as ->. rewrite Hch. reflexivity.
  - rewrite (IH i Hi Hch). reflexivity.
Qed.

Lemma existsb_countOf (p : Task -> bool) (ts : list Task) :
  existsb p ts = true <-> (0 < countOf p ts)%nat.
Proof.
  unfold countOf. induction ts as [|a ts IH]; simpl.
  - split; [discriminate | lia].
  - destruct (p a); simpl; [split; [lia | reflexivity] | exact IH].
Qed.

(** *** The limiter *)

Lemma dispatch_chapters (free : nat) (ts : list Task) :
  List.map chapter (dispatch free ts) = List.map chapter ts.
Proof.
  revert free. induction ts as [|t ts IH]; intros free; [reflexivity|].
  simpl. destruct (status t), free; simpl; rewrite ?IH; reflexivity.
Qed.

Lemma dispatch_countOf (p : Task -> bool) (free : nat) (ts : list Task) :
  (forall t, status t = Queued ->
             p t = false /\ p {| chapter := chapter t; status := Running 1 |} = false) ->
  countOf p (dispatch free ts) = countOf p ts.
Proof.
  intros Hp. unfold countOf. revert free.
  induction ts as [|t ts IH]; intros free; [reflexivity|].
  simpl. destruct (status t) eqn:Hst, free; simpl;
    try (destruct (Hp t Hst) as [-> ->]);
    try (destruct (p t)); simpl; rewrite ?IH; reflexivity.
Qed.

Lemma dispatch_reported (free : nat) (ts : list Task) :
  Forall wellReported ts -> Forall wellReported (dispatch free ts).
Proof.
  intros H. revert free. induction H as [|t ts Ht Hts IH]; intros free; [constructor|].
  simpl. destruct (status t) eqn:Hst, free; constructor; auto.
  exact I.
Qed.

Lemma dispatch_attemptsLeft (r free : nat) (ts : list Task) :
  attemptsLeftAll r (dispatch free ts) = attemptsLeftAll r ts.
Proof.
  unfold attemptsLeftAll. revert free.
  induction ts as [|t ts IH]; intros free; [reflexivity|].
  simpl. destruct (status t) eqn:Hst.
  - destruct free; simpl; [reflexivity|].
    rewrite IH. unfold attemptsLeft. simpl. rewrite Hst. lia.
  - simpl. rewrite IH. reflexivity.
  - simpl. rewrite IH. reflexivity.
Qed.

Lemma dispatch_slots (free : nat) (ts : list Task) :
  (countOf isRunning (dispatch free ts) <= countOf isRunning ts + free)%nat /\
  (existsb isQueued (dispatch free ts) = true ->
   countOf isRunning (dispatch free ts) = (countOf isRunning ts + free)%nat).
Proof.
  unfold countOf. revert free.
  induction ts as [|t ts IH]; intros free; simpl.
  - split; [lia | discriminate].
  - destruct (status t) eqn:Hst.
    + assert (Hr : isRunning t = false) by (unfold isRunning; rewrite Hst; reflexivity).
      destruct free as [|free]; simpl; rewrite Hr.
      * split; lia.
      * destruct (IH free) as [Hle Heq]. split; [simpl; lia|].
        intros Hq. simpl. rewrite (Heq Hq). lia.
    + assert (Hr : isRunning t = true) by (unfold isRunning; rewrite Hst; reflexivity).
      assert (Hq : isQueued t = false) by (unfold isQueued; rewrite Hst; reflexivity).
      simpl. rewrite Hr, Hq. simpl.
      destruct (IH free) as [Hle Heq]. split; [lia|].
      intros Hq'. rewrite (Heq Hq'). lia.
    + assert (Hr : isRunning t = false) by (unfold isRunning; rewrite Hst; reflexivity).
      assert (Hq : isQueued t = false) by (unfold isQueued; rewrite Hst; reflexivity).
      simpl. rewrite Hr, Hq. simpl.
      exact (IH free).
Qed.

(** *** The schedule picks a running task *)

Lemma runningFrom_lookup (j : nat) (ts : list Task) (k i : nat) :
  runningFrom j ts !! k = Some i ->
  exists t, ts !! (i - j)%nat = Some t /\ isRunning t = true /\ (j <= i)%nat.
Proof.
  revert j k. induction ts as [|a ts IH]; intros j k; simpl; [discriminate|].
  assert (Hrest : forall k', runningFrom (S j) ts !! k' = Some i ->
            exists t, (a :: ts) !! (i - j)%nat = Some t /\ isRunning t = true /\ (j <= i)%nat).
  { intros k' H. destruct (IH (S j) k' H) as (t & Ht & Hrun & Hle).
    exists t. split; [|split; [assumption | lia]].
    replace (i - j)%nat with (S (i - S j)) by lia. exact Ht. }
  destruct (isRunning a) eqn:Hr; [|apply Hrest].
  destruct k as [|k]; simpl; [|apply Hrest].
  intros [= <-]. exists a. rewrite Nat.sub_diag. auto.
Qed.

Lemma runningFrom_length (j : nat) (ts : list Task) :
  length (runningFrom j ts) = countOf isRunning ts.
Proof.
  unfold countOf. revert j. induction ts as [|a ts IH]; intros j; simpl; [reflexivity|].
  destruct (isRunning a); simpl; rewrite IH; reflexivity.
Qed.

Lemma pickRunning_running (pick : nat) (ts : list Task) (i : nat) :
  pickRunning pick ts = Some i ->
  exists ch n, ts !! i = Some {| chapter := ch; status := Running n |}.
Proof.
  unfold pickRunning. intros H.
  destruct (runningFrom_lookup _ _ _ _ H) as (t & Ht & Hrun & _).
  rewrite Nat.sub_0_r in Ht. destruct t as [ch st]. unfold isRunning in Hrun. simpl in Hrun.
  destruct st; try discriminate. eauto.
Qed.

Lemma pickRunning_some (pick : nat) (ts : list Task) :
  (0 < countOf isRunning ts)%nat -> is_Some (pickRunning pick ts).
Proof.
  intros H. unfold pickRunning. apply lookup_lt_is_Some_2.
  rewrite runningFrom_length. apply Nat.mod_upper_bound. lia.
Qed.

Lemma pickRunning_none (pick : nat) (ts : list Task) :
  countOf isRunning ts = 0%nat -> pickRunning pick ts = None.
Proof.
  intros H. unfold pickRunning. apply lookup_ge_None_2.
  rewrite runningFrom_length, H. lia.
Qed.

(** *** The invariant under a step *)

Lemma settled_not_running (t : Task) :
  isSettled t = true ->
  isRunning t = false /\ isQueued t = false /\ attemptsLeft 0 t = 0%nat.
Proof.
  unfold isSettled, isRunning, isQueued, attemptsLeft.
  destruct (status t); intros; try discriminate; auto.
Qed.

Lemma invariant_settle (config : CrawlerConfig) (chapters : list ChapterInfo)
    (tracker : ProgressTracker) (pool : Pool) (i : nat) (ch : ChapterInfo) (n : nat)
    (t' : Task) (p' : ProgressTracker) (w' : World) :
  PoolInvariant config chapters tracker pool ->
  tasks pool !! i = Some {| chapter := ch; status := Running n |} ->
  chapter t' = ch ->
  isSettled t' = true ->
  wellReported t' ->
  current p' = current (progress pool) + (if isFulfilled t' then 1 else 0) ->
  errors p' = errors (progress pool) + (if isFailed t' then 1 else 0) ->
  PoolInvariant config chapters tracker
    {| tasks := limiter config (<[i := t']> (tasks pool)); progress := p'; world := w' |}.
Proof.
  intros [Hch Hcur Herr Hrep Hslots Hqueue] Hi Hch' Hset Hrep' Hcur' Herr'.
  destruct (settled_not_running _ Hset) as (Hrun' & Hq' & _).
  pose proof (countOf_insert isRunning _ _ _ t' Hi) as Hrunning.
  rewrite Hrun' in Hrunning. simpl in Hrunning.
  constructor; simpl; unfold limiter.
  - rewrite dispatch_chapters, (chapters_insert _ _ _ _ Hi); auto.
  - rewrite dispatch_countOf, Hcur', Hcur.
    + pose proof (countOf_insert isFulfilled _ _ _ t' Hi) as H. simpl in H.
      destruct (isFulfilled t'); lia.
    + intros t Hst. unfold isFulfilled. rewrite Hst. auto.
  - rewrite dispatch_countOf, Herr', Herr.
    + pose proof (countOf_insert isFailed _ _ _ t' Hi) as H. simpl in H.
      destruct (isFailed t'); lia.
    + intros t Hst. unfold isFailed. rewrite Hst. auto.
  - apply dispatch_reported, Forall_insert; assumption.
  - match goal with |- context [dispatch ?f ?l] => destruct (dispatch_slots f l) as [H _] end.
    unfold runningCount, countOf in *. lia.
  - intros Hq.
    match goal with |- context [dispatch ?f ?l] => destruct (dispatch_slots f l) as [_ H] end.
    rewrite (H Hq). unfold runningCount, countOf in *. lia.
Qed.

Lemma invariant_retry (config : CrawlerConfig) (chapters : list ChapterInfo)
    (tracker : ProgressTracker) (pool : Pool) (i : nat) (ch : ChapterInfo) (n n' : nat)
    (w' : World) :
  PoolInvariant config chapters tracker pool ->
  tasks pool !! i = Some {| chapter := ch; status := Running n |} ->
  PoolInvariant config chapters tracker
    {| tasks := <[i := {| chapter := ch; status := Running n' |}]> (tasks pool);
       progress := progress pool; world := w' |}.
Proof.
  intros [Hch Hcur Herr Hrep Hslots Hqueue] Hi.
  pose proof (countOf_insert isRunning _ _ _ {| chapter := ch; status := Running n' |} Hi)
    as Hrunning.
  pose proof (countOf_insert isQueued _ _ _ {| chapter := ch; status := Running n' |} Hi)
    as Hqueued.
  pose proof (countOf_insert isFulfilled _ _ _ {| chapter := ch; status := Running n' |} Hi)
    as Hful.
  pose proof (countOf_insert isFailed _ _ _ {| chapter := ch; status := Running n' |} Hi)
    as Hfail.
  simpl in *.
  constructor; simpl.
  - rewrite (chapters_insert _ _ _ _ Hi); auto.
  - rewrite Hcur. lia.
  - rewrite Herr. lia.
  - apply Forall_insert; [assumption | exact I].
  - lia.
  - intros Hq. apply existsb_countOf in Hq.
    rewrite <- Hqueue; [lia|]. apply existsb_countOf. lia.
Qed.

Lemma step_invariant (config : CrawlerConfig) (chapters : list ChapterInfo)
    (tracker : ProgressTracker) (pool : Pool) (next : nat * Attempt) :
  PoolInvariant config chapters tracker pool ->
  PoolInvariant config chapters tracker (step config pool next).
Proof.
  intros Hinv. unfold step.
  destruct (pickRunning next.1 (tasks pool)) as [i|] eqn:Hpick; [|assumption].
  destruct (pickRunning_running _ _ _ Hpick) as (ch & n & Hi). rewrite Hi.
  destruct (scrapeAttempt config ch next.2 (world pool)) as [r w].
  unfold afterAttempt. destruct r as [c|e].
  - eapply invariant_settle; eauto; simpl; try reflexivity; try exact I; lia.
  - destruct (n <=? retries config)%nat.
    + eapply invariant_retry; eauto.
    + eapply invariant_settle; eauto; simpl; try reflexivity; lia.
Qed.

Lemma step_attemptsLeft (config : CrawlerConfig) (pool : Pool) (next : nat * Attempt) :
  (0 < countOf isRunning (tasks pool))%nat ->
  (attemptsLeftAll (retries config) (tasks (step config pool next)) <
   attemptsLeftAll (retries config) (tasks pool))%nat.
Proof.
  intros Hrun. unfold step.
  destruct (pickRunning_some next.1 _ Hrun) as [i Hpick]. rewrite Hpick.
  destruct (pickRunning_running _ _ _ Hpick) as (ch & n & Hi). rewrite Hi.
  destruct (scrapeAttempt config ch next.2 (world pool)) as [r w].
  unfold afterAttempt. destruct r as [c|e]; [|destruct (n <=? retries config)%nat eqn:Hn];
    simpl; unfold limiter; rewrite ?dispatch_attemptsLeft;
    match goal with |- context [<[i := ?t]> _] =>
      pose proof (attemptsLeftAll_insert (retries config) _ _ _ t Hi) as H
    end; unfold attemptsLeft in H; simpl in H; try lia.
  apply Nat.leb_le in Hn. lia.
Qed.

Lemma step_idle (config : CrawlerConfig) (pool : Pool) (next : nat * Attempt) :
  countOf isRunning (tasks pool) = 0%nat -> step config pool next = pool.
Proof.
  intros H. unfold step. rewrite (pickRunning_none _ _ H). reflexivity.
Qed.

(** *** From the start to the end of a run *)

Lemma countOf_queued_tasks (p : Task -> bool) (chapters : list ChapterInfo) :
  p = isRunning \/ p = isFulfilled \/ p = isFailed ->
  countOf p (List.map (fun ch => {| chapter := ch; status := Queued |}) chapters) = 0%nat.
Proof.
  intros Hp. unfold countOf.
  induction chapters as [|ch chapters IH]; simpl; [reflexivity|].
  destruct Hp as [->|[->| ->]]; simpl; auto.
Qed.

Lemma startPool_invariant (config : CrawlerConfig) (chapters : list ChapterInfo)
    (tracker : ProgressTracker) (w : World) :
  PoolInvariant config chapters tracker (startPool config chapters tracker w).
Proof.
  set (queued := List.map (fun ch => {| chapter := ch; status := Queued |}) chapters).
  assert (Hrun : countOf isRunning queued = 0%nat) by (apply countOf_queued_tasks; auto).
  destruct (dispatch_slots (concurrency config - runningCount queued) queued) as [Hle Heq].
  constructor; simpl; unfold limiter; fold queued.
  - rewrite dispatch_chapters. unfold queued. rewrite List.map_map. simpl. apply List.map_id.
  - rewrite dispatch_countOf.
    + unfold queued. rewrite countOf_queued_tasks by auto. lia.
    + intros t Hst. unfold isFulfilled. rewrite Hst. auto.
  - rewrite dispatch_countOf.
    + unfold queued. rewrite countOf_queued_tasks by auto. lia.
    + intros t Hst. unfold isFailed. rewrite Hst. auto.
  - apply dispatch_reported. unfold queued. apply List.Forall_forall.
    intros t Ht. apply in_map_iff in Ht as (ch & <- & _). exact I.
  - unfold runningCount, countOf in *. lia.
  - intros Hq. rewrite (Heq Hq). unfold runningCount, countOf in *. lia.
Qed.

Lemma startPool_attemptsLeft (config : CrawlerConfig) (chapters : list ChapterInfo)
    (tracker : ProgressTracker) (w : World) :
  attemptsLeftAll (retries config) (tasks (startPool config chapters tracker w)) =
  (length chapters * S (retries config))%nat.
Proof.
  simpl. unfold limiter. rewrite dispatch_attemptsLeft. unfold attemptsLeftAll.
  induction chapters as [|ch chapters IH]; simpl; [reflexivity|].
  rewrite IH. reflexivity.
Qed.

Lemma run_invariant (config : CrawlerConfig) (chapters : list ChapterInfo)
    (tracker : ProgressTracker) (schedule : list (nat * Attempt)) (pool : Pool) :
  PoolInvariant config chapters tracker pool ->
  PoolInvariant config chapters tracker (run config pool schedule).
Proof.
  revert pool. induction schedule as [|next schedule IH]; intros pool Hinv; [assumption|].
  simpl. apply IH, step_invariant, Hinv.
Qed.

Lemma settled_attemptsLeft (r : nat) (ts : list Task) :
  forallb isSettled ts = true <-> attemptsLeftAll r ts = 0%nat.
Proof.
  unfold attemptsLeftAll. induction ts as [|t ts IH]; simpl; [tauto|].
  rewrite andb_true_iff, IH. unfold isSettled, attemptsLeft.
  destruct (status t); simpl; split; intros; try lia; intuition discriminate.
Qed.

Lemma settled_none_running (ts : list Task) :
  forallb isSettled ts = true -> countOf isRunning ts = 0%nat.
Proof.
  unfold countOf. induction ts as [|t ts IH]; simpl; [reflexivity|].
  intros H. apply andb_true_iff in H as [Ht Hts].
  destruct (settled_not_running _ Ht) as (-> & _). auto.
Qed.

(** While a task has not settled, an attempt is in flight: no failure of
    another task keeps it from running. *)
Lemma unsettled_running (config : CrawlerConfig) (chapters : list ChapterInfo)
    (tracker : ProgressTracker) (pool : Pool) :
  PoolInvariant config chapters tracker pool ->
  (1 <= concurrency config)%nat ->
  allSettled pool = false ->
  (0 < countOf isRunning (tasks pool))%nat.
Proof.
  intros Hinv Hc Hall.
  destruct (existsb isQueued (tasks pool)) eqn:Hq.
  - rewrite (inv_queue _ _ _ _ Hinv Hq). lia.
  - unfold allSettled in Hall. unfold countOf.
    induction (tasks pool) as [|t ts IH]; simpl in *; [discriminate|].
    apply orb_false_iff in Hq as [Hqt Hqts].
    unfold isSettled, isQueued, isRunning in *.
    destruct (status t); simpl in *; try discriminate; try lia. auto.
Qed.

Lemma run_settles (config : CrawlerConfig) (chapters : list ChapterInfo)
    (tracker : ProgressTracker) (schedule : list (nat * Attempt)) (pool : Pool) :
  PoolInvariant config chapters tracker pool ->
  (1 <= concurrency config)%nat ->
  (attemptsLeftAll (retries config) (tasks pool) <= length schedule)%nat ->
  allSettled (run config pool schedule) = true.
Proof.
  revert pool. induction schedule as [|next schedule IH]; intros pool Hinv Hc Hlen; simpl in *.
  - apply (settled_attemptsLeft (retries config)). lia.
  - destruct (allSettled pool) eqn:Hall.
    + rewrite step_idle by (apply settled_none_running; exact Hall).
      apply IH; auto. apply (settled_attemptsLeft (retries config)) in Hall. lia.
    + apply IH; [apply step_invariant; assumption | assumption |].
      pose proof (step_attemptsLeft config pool next
                    (unsettled_running _ _ _ _ Hinv Hc Hall)). lia.
Qed.

Lemma settled_results (ts : list Task) :
  forallb isSettled ts = true ->
  exists results,
    mapM resultOf ts = Some results /\
    Forall2 (fun t r => status t = Settled r) ts results.
Proof.
  induction ts as [|t ts IH]; simpl; intros H.
  - exists []. split; [reflexivity | constructor].
  - apply andb_true_iff in H as [Ht Hts].
    destruct (IH Hts) as (results & Hm & Hf).
    unfold isSettled in Ht. destruct (status t) as [| |r] eqn:Hst; try discriminate.
    exists (r :: results). split; [|constructor; assumption].
    rewrite Hm. unfold resultOf. rewrite Hst. reflexivity.
Qed.

Lemma results_counts (ts : list Task) (results : list taskResult) :
  Forall2 (fun t r => status t = Settled r) ts results ->
  countOf isFulfilled ts = length (List.filter isUndefined results) /\
  countOf isFailed ts = length (List.filter countsAsFailed results) /\
  length (List.filter countsAsSuccessful results) = 0%nat.
Proof.
  unfold countOf. induction 1 as [|t r ts results Hst _ IH]; [auto|].
  destruct IH as (H1 & H2 & H3).
  assert (Hful : isFulfilled t = isUndefined r)
    by (unfold isFulfilled; rewrite Hst; destruct r; reflexivity).
  assert (Hfail : isFailed t = countsAsFailed r)
    by (unfold isFailed; rewrite Hst; destruct r; reflexivity).
  assert (Hsucc : countsAsSuccessful r = false) by (destruct r; reflexivity).
  cbn [List.filter]. rewrite Hful, Hfail, Hsucc.
  destruct (isUndefined r), (countsAsFailed r); simpl; auto.
Qed.

Lemma results_of_chapters (ts : list Task) (results : list taskResult) :
  Forall2 (fun t r => status t = Settled r) ts results ->
  Forall wellReported ts ->
  Forall2 (fun ch r => r = Undefined \/ exists e, r = Failure ch e)
          (List.map chapter ts) results.
Proof.
  induction 1 as [|t r ts results Hst _ IH]; intros Hrep; simpl; [constructor|].
  inversion Hrep as [|? ? Ht Hts]; subst. constructor; [|auto].
  unfold wellReported in Ht. rewrite Hst in Ht.
  destruct r as [|ch e]; [left; reflexivity | right; subst; eauto].
Qed.

Lemma results_partition (results : list taskResult) :
  (length (List.filter isUndefined results) + length (List.filter countsAsFailed results))%nat
  = length results.
Proof.
  induction results as [|r results IH]; simpl; [reflexivity|].
  destruct r; simpl; lia.
Qed.

(** *** The state under a run *)

Lemma step_state (config : CrawlerConfig) (pool : Pool) (next : nat * Attempt) :
  state (world (step config pool next)) = state (world pool) \/
  exists ch, state (world (step config pool next)) =
             commit ch (committedTime next.2) (state (world pool)).
Proof.
  unfold step.
  destruct (pickRunning next.1 (tasks pool)) as [i|]; [|left; reflexivity].
  destruct (tasks pool !! i) as [[ch [| n |r]]|]; try (left; reflexivity).
  pose proof (scrapeAttempt_state config ch next.2 (world pool)) as H.
  destruct (scrapeAttempt config ch next.2 (world pool)) as [r w]. simpl in H.
  assert (Hw : state w = state (world pool) \/
               exists ch', state w = commit ch' (committedTime next.2) (state (world pool)))
    by (destruct H; eauto).
  unfold afterAttempt. destruct r; [|destruct (n <=? retries config)%nat]; exact Hw.
Qed.

Lemma run_distinct (config : CrawlerConfig) (schedule : list (nat * Attempt)) (pool : Pool) :
  List.NoDup (completedChapters (state (world pool))) ->
  List.NoDup (completedChapters (state (world (run config pool schedule)))).
Proof.
  revert pool. induction schedule as [|next schedule IH]; intros pool H; [assumption|].
  simpl. apply IH.
  destruct (step_state config pool next) as [->|[ch ->]];
    [assumption | apply commit_distinct, H].
Qed.

(** *** One task alone is [scrapeChapter] *)

Lemma run_idle (config : CrawlerConfig) (schedule : list (nat * Attempt)) (pool : Pool) :
  countOf isRunning (tasks pool) = 0%nat -> run config pool schedule = pool.
Proof.
  intros H. induction schedule as [|next schedule IH]; [reflexivity|].
  simpl. rewrite step_idle by exact H. exact IH.
Qed.

Lemma run_cons (config : CrawlerConfig) (pool : Pool) (next : nat * Attempt)
    (schedule : list (nat * Attempt)) :
  run config pool (next :: schedule) = run config (step config pool next) schedule.
Proof. reflexivity. Qed.

(** The task of a single chapter goes through the attempts that
    [retryWithBackoff] makes, and ends as [scrapeChapter] does. *)
Lemma run_single_task (config : CrawlerConfig) (ch : ChapterInfo) (env : nat -> Attempt)
    (fuel n : nat) (tracker : ProgressTracker) (w : World) :
  (n + fuel = S (retries config))%nat ->
  let fn := fun k => scrapeAttempt config ch (env k) in
  let pool := {| tasks := [{| chapter := ch; status := Running n |}];
                 progress := tracker; world := w |} in
  let schedule := List.map (fun k => (0%nat, env k)) (seq n (S fuel)) in
  run config pool schedule =
    match retryFrom fn (retries config) fuel n w with
    | (Ok _, w') =>
        {| tasks := [{| chapter := ch; status := Settled Undefined |}];
           progress := increment tracker; world := w' |}
    | (Err e, w') =>
        {| tasks := [{| chapter := ch; status := Settled (Failure ch e) |}];
           progress := addError tracker; world := w' |}
    end.
Proof.
  revert n w. induction fuel as [|fuel IH]; intros n w Hn fn pool schedule;
    unfold schedule, pool; cbn [seq List.map retryFrom]; rewrite run_cons;
    unfold step at 1; cbn [fst snd tasks world progress];
    change (pickRunning 0 [{| chapter := ch; status := Running n |}]) with (Some 0%nat);
    cbn [lookup list_lookup]; fold (fn n);
    destruct (fn n w) as [[c|e] w1]; cbn [afterAttempt].
  - reflexivity.
  - replace (n <=? retries config)%nat with false
      by (symmetry; apply Nat.leb_gt; lia).
    reflexivity.
  - rewrite run_idle by reflexivity. reflexivity.
  - replace (n <=? retries config)%nat with true
      by (symmetry; apply Nat.leb_le; lia).
    cbn [insert list_insert]. apply (IH (S n) w1). lia.
Qed.

Lemma scrapeChapters_single (config : CrawlerConfig) (ch : ChapterInfo)
    (env : nat -> Attempt) (tracker : ProgressTracker) (w : World) :
  (1 <= concurrency config)%nat ->
  scrapeChapters config [ch]
    (List.map (fun k => (0%nat, env k)) (seq 1 (S (retries config)))) tracker w =
    match scrapeChapter config ch env w with
    | (Ok _, w') =>
        Some ({| results := [Undefined]; successful := 0; failed := 0 |},
              increment tracker, w')
    | (Err e, w') =>
        Some ({| results := [Failure ch e]; successful := 0; failed := 1 |},
              addError tracker, w')
    end.
Proof.
  intros Hc. unfold scrapeChapters, startPool, limiter. cbn [List.map].
  destruct (concurrency config) as [|c]; [lia|].
  change (dispatch (S c - runningCount [{| chapter := ch; status := Queued |}])
                   [{| chapter := ch; status := Queued |}])
    with [{| chapter := ch; status := Running 1 |}].
  rewrite (run_single_task config ch env (retries config) 1 tracker w) by reflexivity.
  unfold scrapeChapter, retryWithBackoff.
  destruct (retryFrom _ (retries config) (retries config) 1 w) as [[c'|e] w']; reflexivity.
Qed.

(** *** The attempts of each task *)

Lemma attemptsOf_app (i : nat) (made more : list Made) :
  attemptsOf i (made ++ more) = (attemptsOf i made ++ attemptsOf i more)%list.
Proof. unfold attemptsOf. rewrite List.filter_app, List.map_app. reflexivity. Qed.

Lemma attemptsOf_own (i n : nat) (b : bool) (made : list Made) :
  attemptsOf i (made ++ [{| taskAt := i; attemptNo := n; fulfilled := b |}])
  = (attemptsOf i made ++ [(n, b)])%list.
Proof.
  rewrite attemptsOf_app. unfold attemptsOf at 2. simpl.
  rewrite Nat.eqb_refl. reflexivity.
Qed.

Lemma attemptsOf_other (i j n : nat) (b : bool) (made : list Made) :
  i <> j ->
  attemptsOf i (made ++ [{| taskAt := j; attemptNo := n; fulfilled := b |}])
  = attemptsOf i made.
Proof.
  intros Hne. rewrite attemptsOf_app. unfold attemptsOf at 2. simpl.
  replace (j =? i)%nat with false by (symmetry; apply Nat.eqb_neq; congruence).
  simpl. apply app_nil_r.
Qed.

Lemma thrown_next (m : nat) : thrown (S m) = (thrown m ++ [(S m, false)])%list.
Proof. unfold thrown. rewrite seq_S, List.map_app. reflexivity. Qed.

Lemma accounted_attempts (r : nat) (made made' : list Made) (i : nat) (t : Task) :
  attemptsOf i made' = attemptsOf i made ->
  accounted r made i t -> accounted r made' i t.
Proof. unfold accounted. intros ->. auto. Qed.

Lemma dispatch_lookup (free : nat) (ts : list Task) (i : nat) (t' : Task) :
  dispatch free ts !! i = Some t' ->
  exists t, ts !! i = Some t /\
            (t' = t \/ (status t = Queued /\ status t' = Running 1)).
Proof.
  revert free i. induction ts as [|a ts IH]; intros free i; simpl; [discriminate|].
  destruct (status a) eqn:Hst.
  - destruct free as [|free].
    + intros H. exists t'. auto.
    + destruct i as [|i]; simpl.
      * intros [= <-]. exists a. auto.
      * apply IH.
  - destruct i as [|i]; simpl; [intros [= <-]; exists a; auto | apply IH].
  - destruct i as [|i]; simpl; [intros [= <-]; exists a; auto | apply IH].
Qed.

Lemma dispatch_accounted (r : nat) (made : list Made) (free : nat) (ts : list Task) :
  (forall i t, ts !! i = Some t -> accounted r made i t) ->
  forall i t, dispatch free ts !! i = Some t -> accounted r made i t.
Proof.
  intros Hts i t' Hi.
  destruct (dispatch_lookup _ _ _ _ Hi) as (t & Ht & [->|[Hq Hrun]]); [auto|].
  specialize (Hts _ _ Ht). unfold accounted in *. rewrite Hq in Hts. rewrite Hrun.
  split; [lia | exact Hts].
Qed.

Lemma insert_accounted (r : nat) (made : list Made) (ts : list Task) (i0 n : nat)
    (b : bool) (ch : ChapterInfo) (new : Task) :
  (forall i t, ts !! i = Some t -> accounted r made i t) ->
  ts !! i0 = Some {| chapter := ch; status := Running n |} ->
  accounted r (made ++ [{| taskAt := i0; attemptNo := n; fulfilled := b |}]) i0 new ->
  forall i t, <[i0 := new]> ts !! i = Some t ->
    accounted r (made ++ [{| taskAt := i0; attemptNo := n; fulfilled := b |}]) i t.
Proof.
  intros Hts Hi0 Hnew i t Hi.
  destruct (Nat.eq_dec i i0) as [->|Hne].
  - rewrite list_lookup_insert_eq in Hi by (eapply lookup_lt_Some; exact Hi0).
    injection Hi as <-. exact Hnew.
  - rewrite list_lookup_insert_ne in Hi by congruence.
    apply (accounted_attempts r made); [apply attemptsOf_other; exact Hne | auto].
Qed.

Lemma step_accounted (config : CrawlerConfig) (pool : Pool) (next : nat * Attempt)
    (made : list Made) :
  (forall i t, tasks pool !! i = Some t -> accounted (retries config) made i t) ->
  forall i t, tasks (step config pool next) !! i = Some t ->
    accounted (retries config)
      (made ++ match attemptEnded config pool next with Some a => [a] | None => [] end) i t.
Proof.
  intros Hinv. unfold step, attemptEnded.
  destruct (pickRunning next.1 (tasks pool)) as [i0|] eqn:Hpick;
    [|rewrite app_nil_r; exact Hinv].
  destruct (pickRunning_running _ _ _ Hpick) as (ch & n & Hi0). rewrite Hi0.
  pose proof (Hinv _ _ Hi0) as Hown. unfold accounted in Hown. simpl in Hown.
  destruct Hown as [Hn Hown].
  destruct (scrapeAttempt config ch next.2 (world pool)) as [r w].
  assert (Hlast : (thrown (n - 1) ++ [(n, false)])%list = thrown n).
  { destruct n as [|n]; [lia|]. rewrite thrown_next.
    replace (S n - 1)%nat with n by lia. reflexivity. }
  unfold afterAttempt. destruct r as [c|e]; [|destruct (n <=? retries config)%nat eqn:Hle];
    cbn [fst isOk tasks].
  - unfold limiter. apply dispatch_accounted.
    apply (insert_accounted _ _ _ _ _ _ ch); [exact Hinv | exact Hi0 |].
    unfold accounted. simpl. rewrite attemptsOf_own, Hown.
    exists (n - 1)%nat. split; [lia|]. replace (S (n - 1)) with n by lia. reflexivity.
  - apply Nat.leb_le in Hle.
    apply (insert_accounted _ _ _ _ _ _ ch); [exact Hinv | exact Hi0 |].
    unfold accounted. simpl. rewrite attemptsOf_own, Hown.
    split; [lia|]. rewrite Nat.sub_0_r. exact Hlast.
  - unfold limiter. apply dispatch_accounted.
    apply (insert_accounted _ _ _ _ _ _ ch); [exact Hinv | exact Hi0 |].
    unfold accounted. simpl. rewrite attemptsOf_own, Hown.
    exists (n - 1)%nat. split; [lia|]. replace (S (n - 1)) with n by lia. exact Hlast.
Qed.

Lemma run_accounted (config : CrawlerConfig) (schedule : list (nat * Attempt))
    (pool : Pool) (made : list Made) :
  (forall i t, tasks pool !! i = Some t -> accounted (retries config) made i t) ->
  forall i t, tasks (run config pool schedule) !! i = Some t ->
    accounted (retries config) (made ++ attemptsMade config pool schedule) i t.
Proof.
  revert pool made. induction schedule as [|next schedule IH]; intros pool made Hinv; simpl.
  - rewrite app_nil_r. exact Hinv.
  - rewrite app_assoc. apply IH. apply step_accounted. exact Hinv.
Qed.

Lemma startPool_accounted (config : CrawlerConfig) (chapters : list ChapterInfo)
    (tracker : ProgressTracker) (w : World) :
  forall i t, tasks (startPool config chapters tracker w) !! i = Some t ->
    accounted (retries config) [] i t.
Proof.
  unfold startPool, limiter. cbn [tasks]. apply dispatch_accounted.
  intros i t Hi. apply list_lookup_fmap_Some in Hi as (ch & -> & _).
  reflexivity.
Qed.

(** Once every task has settled, each has ended by its own attempts. *)
Lemma results_by_own_attempts (r : nat) (made : list Made) (ts : list Task)
    (results : list taskResult) :
  (forall i t, ts !! i = Some t -> accounted r made i t) ->
  Forall2 (fun t res => status t = Settled res) ts results ->
  Forall2 (fun ch res => res = Undefined \/ exists e, res = Failure ch e)
          (List.map chapter ts) results ->
  forall i ch, List.map chapter ts !! i = Some ch ->
    exists m, (m <= r)%nat /\
      ((results !! i = Some Undefined /\
        attemptsOf i made = (thrown m ++ [(S m, true)])%list) \/
       (exists e, results !! i = Some (Failure ch e) /\
                  attemptsOf i made = thrown (S m))).
Proof.
  intros Hacc Hst Hres i ch Hch.
  destruct (Forall2_lookup_l _ _ _ _ _ Hres Hch) as (res & Hi & Hcase).
  destruct (Forall2_lookup_r _ _ _ _ _ Hst Hi) as (t & Ht & Hsettled).
  specialize (Hacc _ _ Ht). unfold accounted in Hacc. rewrite Hsettled in Hacc.
  destruct Hcase as [->|[e ->]]; destruct Hacc as (m & Hm & Hown); exists m; eauto 6.
Qed.

End PoolFacts.

(** C3, against the code: whatever happens inside the tasks, once every
    attempt that can be made has ended [scrapeChapters] has returned, with
    one result per chapter.  Each task ends by its own attempts alone: it
    gives [undefined] when one of its attempts returned, after attempts of
    its own that threw, and the failure object of its own chapter when its
    attempts, at most [retries + 1], all threw; what the other tasks do
    changes neither.  The tracker has counted each task once, as a success
    or as an error, and its two counts add up to the number of chapters
    scheduled.  The summary that is logged does not: its count of failed
    tasks is the tracker's, and its count of successful tasks is 0 whatever
    the tasks did. *)
Theorem scrapeChapters_fault_isolation
    (config : Models.CrawlerConfig) (chapters : list Models.ChapterInfo)
    (schedule : list (nat * Scraper.Attempt)) (tracker : Utils.ProgressTracker)
    (w : Scraper.World) :
  (1 <= Models.concurrency config)%nat ->
  (length chapters * S (Models.retries config) <= length schedule)%nat ->
  (exists summary tracker' w',
    Scraper.scrapeChapters config chapters schedule tracker w
      = Some (summary, tracker', w') /\
    Forall2 (fun ch r => r = Scraper.Undefined \/ exists e, r = Scraper.Failure ch e)
            chapters (Scraper.results summary) /\
    (forall i ch, chapters !! i = Some ch ->
       let own :=
         Scraper.attemptsOf i
           (Scraper.attemptsMade config (Scraper.startPool config chapters tracker w)
                                 schedule) in
       exists m, (m <= Models.retries config)%nat /\
         ((Scraper.results summary !! i = Some Scraper.Undefined /\
           own = (Scraper.thrown m ++ [(S m, true)])%list) \/
          (exists e, Scraper.results summary !! i = Some (Scraper.Failure ch e) /\
                     own = Scraper.thrown (S m)))) /\
    Utils.current tracker' =
      Utils.current tracker +
      Z.of_nat (length (List.filter Scraper.isUndefined (Scraper.results summary))) /\
    Utils.errors tracker' = Utils.errors tracker + Z.of_nat (Scraper.failed summary) /\
    (Utils.current tracker' - Utils.current tracker) +
    (Utils.errors tracker' - Utils.errors tracker) = Z.of_nat (length chapters) /\
    Scraper.successful summary = 0%nat) /\
  (forall (moment pick : nat),
      let pool := Scraper.run config (Scraper.startPool config chapters tracker w)
                              (firstn moment schedule) in
      Scraper.allSettled pool = false ->
      exists i ch n,
        Scraper.pickRunning pick (Scraper.tasks pool) = Some i /\
        Scraper.tasks pool !! i = Some {| Scraper.chapter := ch; Scraper.status := Scraper.Running n |}).
Proof.
  intros Hc Hlen.
  split; cycle 1.
  { intros moment pick pool Hall.
    assert (Hinv : Scraper.PoolInvariant config chapters tracker pool)
      by (apply run_invariant, startPool_invariant).
    destruct (pickRunning_some pick _ (unsettled_running _ _ _ _ Hinv Hc Hall)) as [i Hi].
    destruct (pickRunning_running _ _ _ Hi) as (ch & n & Hn). eauto. }
  pose proof (startPool_invariant config chapters tracker w) as Hstart.
  pose proof (run_invariant config chapters tracker schedule _ Hstart) as Hinv.
  assert (Hall : Scraper.allSettled
                   (Scraper.run config (Scraper.startPool config chapters tracker w) schedule)
                 = true).
  { eapply run_settles; eauto. rewrite startPool_attemptsLeft. exact Hlen. }
  destruct (settled_results _ Hall) as (results & Hm & Hst).
  destruct (results_counts _ _ Hst) as (Hful & Hfail & Hnone).
  pose proof (results_of_chapters _ _ Hst (Scraper.inv_reported _ _ _ _ Hinv)) as Hres.
  pose proof (results_by_own_attempts (Models.retries config) _ _ _
                (run_accounted config schedule _ []
                   (startPool_accounted config chapters tracker w))
                Hst Hres) as Hown.
  rewrite (Scraper.inv_chapters _ _ _ _ Hinv) in Hres, Hown.
  pose proof (results_partition results) as Hpart.
  pose proof (Forall2_length _ _ _ Hres) as Hlength.
  eexists _, _, _. unfold Scraper.scrapeChapters. rewrite Hm.
  split; [reflexivity|]. cbn [Scraper.results Scraper.failed Scraper.successful].
  rewrite (Scraper.inv_current _ _ _ _ Hinv), (Scraper.inv_errors _ _ _ _ Hinv), Hful, Hfail.
  split; [assumption|]. split; [exact Hown|].
  repeat split; [lia | exact Hnone].
Qed.

Lemma scrapeChapters_fault_isolation_witness :
  exists summary tracker' w',
    Scraper.scrapeChapters Samples.oneRetry (List.map Samples.numbered [1; 2; 3])
      Samples.oneFailure (Utils.newProgressTracker 3) Samples.freshWorld
      = Some (summary, tracker', w') /\
    (exists e, Scraper.results summary !! 1%nat
               = Some (Scraper.Failure (Samples.numbered 2) e)) /\
    Utils.current tracker' + Utils.errors tracker' = 3 /\
    Scraper.successful summary = 0%nat.
Proof.
  destruct (scrapeChapters_fault_isolation Samples.oneRetry
              (List.map Samples.numbered [1; 2; 3]) Samples.oneFailure
              (Utils.newProgressTracker 3) Samples.freshWorld)
    as [(summary & tracker' & w' & Hrun & _ & Hown & _ & _ & Hsum & Hnone) _].
  - vm_compute. lia.
  - vm_compute. lia.
  - exists summary, tracker', w'. split; [exact Hrun|]. split; [|split].
    + destruct (Hown 1%nat (Samples.numbered 2) eq_refl) as (m & _ & [[_ Hok]|(e & He & _)]).
      * exfalso.
        assert (Hin : In (S m, true)
                        (Scraper.attemptsOf 1
                           (Scraper.attemptsMade Samples.oneRetry
                              (Scraper.startPool Samples.oneRetry
                                 (List.map Samples.numbered [1; 2; 3])
                                 (Utils.newProgressTracker 3) Samples.freshWorld)
                              Samples.oneFailure)))
          by (rewrite Hok; apply in_or_app; right; left; reflexivity).
        vm_compute in Hin. destruct Hin as [H|[H|[]]]; discriminate H.
      * exists e. exact He.
    + change (Utils.current (Utils.newProgressTracker 3)) with 0 in Hsum.
      change (Utils.errors (Utils.newProgressTracker 3)) with 0 in Hsum.
      change (Z.of_nat (length (List.map Samples.numbered [1; 2; 3]))) with 3 in Hsum.
      lia.
    + exact Hnone.
Defined.

(** The run of [Samples.oneFailure]: the failure of the second task leaves
    the first and the third to succeed. *)
Example scrapeChapters_one_failure :
  (fun r => (Scraper.results r.1.1, Utils.current r.1.2, Utils.errors r.1.2)) <$>
    Scraper.scrapeChapters Samples.oneRetry (List.map Samples.numbered [1; 2; 3])
      Samples.oneFailure (Utils.newProgressTracker 3) Samples.freshWorld
  = Some ([ Scraper.Undefined;
            Scraper.Failure (Samples.numbered 2) "Navigation timeout of 30000 ms exceeded";
            Scraper.Undefined ], 2, 1).
Proof. vm_compute. reflexivity. Qed.

(** The attempts of that run, in the order in which they end: the second
    task makes its two attempts between those of the first and the third. *)
Example scrapeChapters_one_failure_attempts :
  List.map (fun a => (Scraper.taskAt a, Scraper.attemptNo a, Scraper.fulfilled a))
    (Scraper.attemptsMade Samples.oneRetry
       (Scraper.startPool Samples.oneRetry (List.map Samples.numbered [1; 2; 3])
          (Utils.newProgressTracker 3) Samples.freshWorld)
       Samples.oneFailure)
  = [ (0, 1, true); (1, 1, false); (1, 2, false); (2, 1, true) ]%nat.
Proof. vm_compute. reflexivity. Qed.

(** A chapter whose first two attempts fail and whose third succeeds is
    completed by [scrapeChapter]. *)
Example scrapeChapter_third_attempt :
  isOk (fst (Scraper.scrapeChapter Samples.config (Samples.numbered 4)
               Samples.thirdTime Samples.resumedWorld)) = true /\
  Models.completedChapters
    (Scraper.state (snd (Scraper.scrapeChapter Samples.config (Samples.numbered 4)
                           Samples.thirdTime Samples.resumedWorld)))
    = ["chapter-1"; "chapter-3"; "chapter-4"] /\
  Models.lastCompletedIndex
    (Scraper.state (snd (Scraper.scrapeChapter Samples.config (Samples.numbered 4)
                           Samples.thirdTime Samples.resumedWorld)))
    = 4.
Proof. vm_compute. repeat split; reflexivity. Qed.

(** The summary that [scrapeChapters] logs counts no task as successful: a
    task that succeeded returns [undefined], which the filter leaves out. *)
Lemma scrapeChapters_logs_no_success
    (config : Models.CrawlerConfig) (chapters : list Models.ChapterInfo)
    (schedule : list (nat * Scraper.Attempt)) (tracker : Utils.ProgressTracker)
    (w : Scraper.World) (summary : Scraper.Summary) (tracker' : Utils.ProgressTracker)
    (w' : Scraper.World) :
  Scraper.scrapeChapters config chapters schedule tracker w = Some (summary, tracker', w') ->
  Scraper.successful summary = 0%nat.
Proof.
  unfold Scraper.scrapeChapters. destruct (mapM _ _) as [results|]; [|discriminate].
  intros [= <- _ _]. simpl.
  induction results as [|r results IH]; simpl; [reflexivity|].
  destruct r; simpl; exact IH.
Qed.

(** C10: [completedChapters] holds no id twice.  [initState] makes it
    empty; the update of the state after a chapter appends the id only when
    it is not there, so it keeps the ids distinct; hence they are distinct
    after any sequence of updates from the initial state, and after any run
    of the tasks from a state in which they are. *)
Theorem completedChapters_distinct :
  (forall (config : Models.CrawlerConfig) (now : Z),
      Models.completedChapters (Scraper.initState config now) = []) /\
  (forall (ch : Models.ChapterInfo) (now : Z) (st : Models.CrawlerState),
      List.NoDup (Models.completedChapters st) ->
      List.NoDup (Models.completedChapters (Scraper.commit ch now st))) /\
  (forall (config : Models.CrawlerConfig) (now : Z)
          (commits : list (Models.ChapterInfo * Z)),
      List.NoDup
        (Models.completedChapters
           (fold_left (fun st c => Scraper.commit c.1 c.2 st) commits
                      (Scraper.initState config now)))) /\
  (forall (config : Models.CrawlerConfig) (chapters : list Models.ChapterInfo)
          (schedule : list (nat * Scraper.Attempt)) (tracker : Utils.ProgressTracker)
          (w : Scraper.World),
      List.NoDup (Models.completedChapters (Scraper.state w)) ->
      List.NoDup
        (Models.completedChapters
           (Scraper.state
              (Scraper.world
                 (Scraper.run config (Scraper.startPool config chapters tracker w)
                              schedule))))).
Proof.
  split; [reflexivity|]. split; [exact commit_distinct|]. split.
  - intros config now commits.
    assert (H : List.NoDup (Models.completedChapters (Scraper.initState config now)))
      by constructor.
    revert H. generalize (Scraper.initState config now).
    induction commits as [|c commits IH]; intros st H; [assumption|].
    simpl. apply IH, commit_distinct, H.
  - intros config chapters schedule tracker w H. apply run_distinct. exact H.
Qed.

Lemma completedChapters_distinct_witness :
  List.NoDup
    (Models.completedChapters
       (Scraper.commit (Samples.numbered 3) 1700000000900 Samples.resumed)) /\
  List.NoDup
    (Models.completedChapters
       (Scraper.state
          (Scraper.world
             (Scraper.run Samples.oneRetry
                (Scraper.startPool Samples.oneRetry (List.map Samples.numbered [1; 2; 3])
                                   (Utils.newProgressTracker 3) Samples.freshWorld)
                Samples.oneFailure)))).
Proof.
  destruct completedChapters_distinct as (_ & Hcommit & _ & Hrun).
  split.
  - apply (Hcommit (Samples.numbered 3) 1700000000900 Samples.resumed).
    vm_compute. repeat constructor; simpl; intuition discriminate.
  - apply (Hrun Samples.oneRetry (List.map Samples.numbered [1; 2; 3]) Samples.oneFailure
             (Utils.newProgressTracker 3) Samples.freshWorld).
    vm_compute. constructor.
Defined.

(** A chapter scraped again (under force, or when the checkpoint after its
    update failed and the attempt was retried) is not listed twice. *)
Example commit_twice :
  Models.completedChapters
    (Scraper.commit (Samples.numbered 2) 2
       (Scraper.commit (Samples.numbered 2) 1 (Scraper.initState Samples.config 0)))
  = ["chapter-2"].
Proof. reflexivity. Qed.

(** ** extractChapterContent *)

Section ContentContainer.
Import Js Models Adapter.

(** The loop stops at the first selector whose element has enough text. *)
Lemma selectContainer_first (querySelector : Dom) (before after : list string)
    (selector : string) (el : Element) (current : option Element) :
  allShort querySelector before ->
  querySelector selector = Some el ->
  longEnough el = true ->
  selectContainer querySelector (before ++ selector :: after) current = Some el.
Proof.
  revert current. induction before as [|s before IH]; intros current Hshort Hsel Hlong; simpl.
  - rewrite Hsel, Hlong. reflexivity.
  - assert (Hrest : allShort querySelector before)
      by (intros s' e' Hin; apply Hshort; right; exact Hin).
    destruct (querySelector s) as [e|] eqn:Hs; [|apply IH; assumption].
    rewrite (Hshort s e (or_introl eq_refl) Hs). apply IH; assumption.
Qed.

(** When no candidate has enough text the loop runs to its end, and
    [contentContainer] is what the last selector found. *)
Lemma selectContainer_none (querySelector : Dom) (selectors : list string)
    (selector : string) (current : option Element) :
  allShort querySelector (selectors ++ [selector]) ->
  selectContainer querySelector (selectors ++ [selector]) current = querySelector selector.
Proof.
  revert current. induction selectors as [|s selectors IH]; intros current Hshort; simpl.
  - destruct (querySelector selector) as [e|] eqn:Hs; [|reflexivity].
    rewrite (Hshort selector e (or_introl eq_refl) Hs). reflexivity.
  - assert (Hrest : allShort querySelector (selectors ++ [selector]))
      by (intros s' e' Hin; apply Hshort; right; exact Hin).
    destruct (querySelector s) as [e|] eqn:Hs; [|apply IH; assumption].
    rewrite (Hshort s e (or_introl eq_refl) Hs). apply IH; assumption.
Qed.

End ContentContainer.

(** C8, against the code: on a page none of whose candidate containers has
    more than a hundred characters of text, [extractChapterContent] still
    returns content whenever the last selector matches an element; it returns
    the content of that element, below the threshold.  It fails only when the
    last selector matches nothing. *)
Theorem extractChapterContent_below_threshold
    (page : Adapter.Page) (chapterInfo : Models.ChapterInfo) (now : Z)
    (document : Adapter.Dom) (el : Adapter.Element) :
  Adapter.goto page (Models.url chapterInfo) = Ok document ->
  Adapter.allShort document Adapter.contentSelectors ->
  document Adapter.anyContentClass = Some el ->
  Adapter.longEnough el = false /\
  Adapter.extractChapterContent page chapterInfo now =
    Ok {| Models.info := chapterInfo;
          Models.content := Adapter.cleanedHTML el;
          Models.images := Adapter.imageUrls el;
          Models.contentMetadata :=
            {| Models.wordCount := Adapter.words el;
               Models.extractedAt := Js.toISOString now |} |}.
Proof.
  intros Hgoto Hshort Hlast. split.
  - apply (Hshort Adapter.anyContentClass el); [|assumption].
    unfold Adapter.contentSelectors. simpl. tauto.
  - unfold Adapter.extractChapterContent. rewrite Hgoto. cbn [bind].
    change Adapter.contentSelectors
      with ([ ".chapter-content"; ".content"; ".chapter-body"; ".novel-content";
              ".reader-content"; ".text-content"; "#content"; ".post-content" ]
            ++ [Adapter.anyContentClass])%list in *.
    rewrite selectContainer_none by exact Hshort.
    rewrite Hlast. reflexivity.
Qed.

Lemma extractChapterContent_below_threshold_witness :
  Adapter.longEnough Samples.skeletonElement = false /\
  Adapter.extractChapterContent Samples.skeletonPage (Samples.numbered 1) 1700000000000 =
    Ok {| Models.info := Samples.numbered 1;
          Models.content := "<p>Loading chapter...</p>";
          Models.images := [];
          Models.contentMetadata :=
            {| Models.wordCount := 2;
               Models.extractedAt := "2023-11-14T22:13:20.000Z" |} |}.
Proof.
  apply (extractChapterContent_below_threshold Samples.skeletonPage (Samples.numbered 1)
           1700000000000 Samples.skeletonDom Samples.skeletonElement).
  - reflexivity.
  - intros selector candidate Hin. vm_compute in Hin.
    repeat (destruct Hin as [<-|Hin]; [vm_compute; intros [= <-]; reflexivity|]).
    destruct Hin.
  - reflexivity.
Defined.

(** The first half of C8 holds: a container with enough text is selected,
    and it is the first such candidate in the order of the selectors. *)
Example extractChapterContent_selects_long :
  Adapter.selectContainer Samples.chapterDom Adapter.contentSelectors None
  = Some Samples.chapterElement.
Proof. vm_compute. reflexivity. Qed.

(** The same placeholder fails the extraction when it is found by its id
    only, since the last selector then matches nothing. *)
Example extractChapterContent_not_found :
  Adapter.extractChapterContent Samples.skeletonByIdPage (Samples.numbered 1) 0
  = Err "Content extraction failed: Content container not found".
Proof. vm_compute. reflexivity. Qed.

(** ** waitForNetworkIdle *)

Section NetworkIdle.
Import Browser.






End NetworkIdle.




Example waitForNetworkIdle_pair_then_silence :
  Browser.waitForNetworkIdle [(120, Browser.Request); (340, Browser.Response)] 30000 500
  = Browser.Resolved 840.
Proof. reflexivity. Qed.

Example waitForNetworkIdle_no_event :
  Browser.waitForNetworkIdle [] 30000 500 = Browser.Resolved 500.
Proof. reflexivity. Qed.

(** ** The wait and its callers *)

(** C4, as the specification has it, fails: on a page whose network never
    falls idle for half a second within thirty seconds the wait is rejected,
    and the metadata phase fails with an error although the page would have
    given its metadata. *)
Lemma extractMetadata_fails_on_busy_page :
  Browser.waitForNetworkIdle (Adapter.network Samples.busyPage) 30000 500
    = Browser.Rejected 30000 "Network idle timeout" /\
  Adapter.metadataOnPage Samples.busyPage = Ok Samples.exampleMetadata /\
  Adapter.extractMetadata Samples.busyPage (Models.configUrl Samples.config)
    = Err "Metadata extraction failed: Network idle timeout".
Proof. vm_compute. repeat split; reflexivity. Qed.

(** C4 (amended): when the overall timer of [waitForNetworkIdle] fires
    before the idle timer does, the promise is rejected with the error
    [Network idle timeout]; [safeWaitForLoadState] lets it through, and its
    callers, the metadata and the listing extraction, fail with an extraction
    error that wraps it, whatever the page would have given. *)
Theorem waitForNetworkIdle_timeout_is_fatal
    (page : Adapter.Page) (url : string) (t : Z) (message : string) :
  Browser.waitForNetworkIdle (Adapter.network page) 30000 500
    = Browser.Rejected t message ->
  t = 30000 /\
  message = "Network idle timeout" /\
  Browser.safeWaitForLoadState (Adapter.network page) = Err "Network idle timeout" /\
  Adapter.extractMetadata page url
    = Err "Metadata extraction failed: Network idle timeout" /\
  Adapter.extractChapterList page url
    = Err "Chapter list extraction failed: Network idle timeout".
Proof.
  intros Hwait.
  assert (Hshape : forall idle events t' m,
             Browser.settle 30000 500 idle events = Browser.Rejected t' m ->
             t' = 30000 /\ m = "Network idle timeout").
  { intros idle events. revert idle.
    assert (Hfire : forall idle t' m,
               Browser.fire 30000 idle = Browser.Rejected t' m ->
               t' = 30000 /\ m = "Network idle timeout").
    { intros idle t' m. unfold Browser.fire. destruct idle as [|d first];
        [|destruct (_ || _)]; intros [=]; auto. }
    induction events as [|[t0 k0] events IH]; intros idle t' m; simpl; [apply Hfire|].
    destruct (Browser.due 30000 idle t0); [apply Hfire|].
    destruct k0; apply IH. }
  destruct (Hshape _ _ _ _ Hwait) as [-> ->].
  assert (Hsafe : Browser.safeWaitForLoadState (Adapter.network page)
                  = Err "Network idle timeout")
    by (unfold Browser.safeWaitForLoadState; rewrite Hwait; reflexivity).
  repeat split; try assumption.
  - unfold Adapter.extractMetadata. rewrite Hsafe. reflexivity.
  - unfold Adapter.extractChapterList. rewrite Hsafe. reflexivity.
Qed.

Lemma waitForNetworkIdle_timeout_is_fatal_witness :
  Adapter.extractMetadata Samples.busyPage (Models.configUrl Samples.config)
    = Err "Metadata extraction failed: Network idle timeout" /\
  Adapter.extractChapterList Samples.busyPage (Models.configUrl Samples.config)
    = Err "Chapter list extraction failed: Network idle timeout".
Proof.
  destruct (waitForNetworkIdle_timeout_is_fatal Samples.busyPage
              (Models.configUrl Samples.config) 30000 "Network idle timeout")
    as (_ & _ & _ & Hmeta & Hlist).
  - vm_compute. reflexivity.
  - split; assumption.
Defined.

(** When the wait settles, the callers go on to read the page. *)
Example extractMetadata_on_quiet_page :
  Adapter.extractMetadata Samples.quietPage (Models.configUrl Samples.config)
  = Ok Samples.exampleMetadata.
Proof. vm_compute. reflexivity. Qed.

(** ** The checkpoint *)

Section Checkpoint.
Import Js Utils Models Scraper.

Lemma serialize_object (props : list (string * value)) :
  serialize (VObj props) = Some (JObj (members props)).
Proof. reflexivity. Qed.

Lemma members_cons (k : string) (x : value) (rest : list (string * value)) :
  members ((k, x) :: rest) =
    match serialize x with
    | Some j => (k, j) :: members rest
    | None => members rest
    end.
Proof. reflexivity. Qed.

Lemma lookupProp_absent (key : string) (props : list (string * value)) :
  ~ In key (List.map fst props) ->
  lookupProp key (List.map (fun kv : string * json => (kv.1, revive kv.2)) (members props)) = VUndefined.
Proof.
  induction props as [|[k x] props IH]; [reflexivity|].
  intros Hnot. rewrite members_cons. simpl in Hnot.
  assert (Hk : String.eqb k key = false) by (apply String.eqb_neq; tauto).
  destruct (serialize x); simpl; rewrite ?Hk; apply IH; tauto.
Qed.

Lemma lookupProp_stored (key : string) (props : list (string * value)) :
  List.NoDup (List.map fst props) ->
  lookupProp key (List.map (fun kv : string * json => (kv.1, revive kv.2)) (members props))
  = stored (lookupProp key props).
Proof.
  induction props as [|[k x] props IH]; [reflexivity|].
  intros Hnd. simpl in Hnd. apply NoDup_cons_iff in Hnd as [Hk Hnd].
  rewrite members_cons. cbn [lookupProp].
  destruct (String.eqb k key) eqn:Hkey.
  - apply String.eqb_eq in Hkey. subst k. unfold stored.
    destruct (serialize x); simpl; [rewrite String.eqb_refl; reflexivity|].
    apply lookupProp_absent. exact Hk.
  - destruct (serialize x); simpl; rewrite ?Hkey; apply IH; exact Hnd.
Qed.

Lemma field_stored {A : Type} (f : value -> option A) (props : list (string * value)) (key : string) :
  List.NoDup (List.map fst props) ->
  field f (stored (VObj props)) key = f (stored (lookupProp key props)).
Proof.
  intros Hnd. unfold stored at 1. rewrite serialize_object. cbn [revive field].
  rewrite lookupProp_stored by exact Hnd. reflexivity.
Qed.

Lemma strings_stored (l : list string) : asArray asString (stored (strings l)) = Some l.
Proof.
  unfold stored, strings. cbn [serialize revive asArray].
  induction l as [|x l IH]; [reflexivity|].
  cbn. cbn in IH. rewrite IH. reflexivity.
Qed.

Lemma optional_string_stored (o : option string) :
  asOptional asString (stored (optional VStr o)) = Some o.
Proof. destruct o; reflexivity. Qed.

Lemma optional_strings_stored (o : option (list string)) :
  asOptional (asArray asString) (stored (optional strings o)) = Some o.
Proof.
  destruct o as [l|]; [|reflexivity]. cbn [optional].
  pose proof (strings_stored l) as H. unfold stored, strings in *.
  cbn [serialize revive asOptional] in *. rewrite H. reflexivity.
Qed.

(** The keys of an object written out in full are distinct. *)
Ltac distinct_keys :=
  cbn [List.map fst];
  repeat (constructor; [simpl; intuition discriminate|]);
  constructor.

Lemma metadata_stored (m : NovelMetadata) :
  metadataOf (stored (metadataValue m)) = Some m.
Proof.
  destruct m as [t a c sy tg s n su ca].
  unfold metadataOf, metadataValue.
  rewrite !field_stored by distinct_keys.
  cbn [lookupProp String.eqb Ascii.eqb Bool.eqb novelTitle author coverUrl synopsis tags status totalChapters sourceUrl crawledAt].
  rewrite !optional_string_stored, optional_strings_stored.
  reflexivity.
Qed.

Lemma chapter_stored (ch : ChapterInfo) : chapterOf (stored (chapterValue ch)) = Some ch.
Proof.
  destruct ch as [i k t u]. unfold chapterOf, chapterValue.
  rewrite !field_stored by distinct_keys. reflexivity.
Qed.

Lemma mapM_cons {A B : Type} (f : A -> option B) (x : A) (l : list A) :
  mapM f (x :: l) = y ← f x; k ← mapM f l; Some (y :: k).
Proof. reflexivity. Qed.

Lemma chapters_stored (cs : list ChapterInfo) :
  asArray chapterOf (stored (VArr (List.map chapterValue cs))) = Some cs.
Proof.
  unfold stored. cbn [serialize revive asArray]. rewrite !List.map_map.
  induction cs as [|ch cs IH]; [reflexivity|].
  cbn [List.map]. rewrite mapM_cons, IH.
  change (revive (default JNull (serialize (chapterValue ch))))
    with (stored (chapterValue ch)).
  rewrite chapter_stored. reflexivity.
Qed.

Lemma timestamp_stored (t : timestamp) :
  asTimestamp (stored (timestampValue t)) = Some (storedTimestamp t).
Proof. destruct t; reflexivity. Qed.

Lemma nullable_object_stored {A : Type} (f : value -> option A)
    (props : list (string * value)) :
  asNullable f (stored (VObj props)) = Some <$> f (stored (VObj props)).
Proof. unfold stored. rewrite serialize_object. reflexivity. Qed.

Lemma nullable_metadata_stored (o : option NovelMetadata) :
  asNullable metadataOf
    (stored (match o with Some m => metadataValue m | None => VNull end)) = Some o.
Proof.
  destruct o as [m|]; [|reflexivity].
  pose proof (metadata_stored m) as H. unfold metadataValue in *.
  rewrite nullable_object_stored, H. reflexivity.
Qed.

Lemma state_stored (st : CrawlerState) :
  stateOf (stored (stateValue st)) = Some (asStored st).
Proof.
  destruct st as [u m cs n done t].
  unfold stateOf, stateValue.
  rewrite !field_stored by distinct_keys.
  cbn [lookupProp String.eqb Ascii.eqb Bool.eqb stateUrl metadata chapters
       lastCompletedIndex completedChapters lastUpdated].
  rewrite nullable_metadata_stored, chapters_stored, strings_stored, timestamp_stored.
  reflexivity.
Qed.

Lemma migrate_stored (st : CrawlerState) :
  migrate (stored (stateValue st)) = Ok (stored (stateValue st)).
Proof.
  unfold migrate, stateValue. unfold stored at 1. rewrite serialize_object.
  cbn [revive getProp bind].
  rewrite lookupProp_stored by distinct_keys.
  cbn [lookupProp String.eqb Ascii.eqb Bool.eqb].
  reflexivity.
Qed.

Lemma asStored_string (st : CrawlerState) (s : string) :
  lastUpdated st = DateString s -> asStored st = st.
Proof. destruct st as [u m cs n done t]. simpl. intros ->. reflexivity. Qed.

Lemma asStored_idempotent (st : CrawlerState) : asStored (asStored st) = asStored st.
Proof. destruct st as [u m cs n done [ms|s]]; reflexivity. Qed.

(** *** Writing *)

Lemma writeFile_ok (p : path) (c : text) (fs fs' : FileSystem) :
  writeFile p c fs = (Ok tt, fs') ->
  files fs' !! p = Some c /\ readFault fs' = readFault fs.
Proof.
  unfold writeFile, iobind, ensureDir, fsWriteFile.
  destruct (bool_decide (dirname p ∈ dirs fs)).
  - destruct (writeFault fs p); [discriminate|].
    intros [= <-]. simpl. split; [apply lookup_insert_eq | reflexivity].
  - destruct (mkdirFault fs (dirname p)); [discriminate|]. simpl.
    destruct (writeFault fs p); [discriminate|].
    intros [= <-]. simpl. split; [apply lookup_insert_eq | reflexivity].
Qed.

(** A write that fails reports the error of the operating system; the other
    files are as they were, and so is the file itself when the open was
    refused. *)
Lemma writeFile_fails (p : path) (c : text) (fs : FileSystem) (e : string) :
  writeFails fs p e ->
  (writeFile p c fs).1 = Err e /\
  (forall q, q <> p -> files (writeFile p c fs).2 !! q = files fs !! q) /\
  (failedWrite fs p = None -> files (writeFile p c fs).2 = files fs).
Proof.
  unfold writeFails, writeFile, iobind, ensureDir, fsWriteFile.
  assert (Hleft : forall fs0 : FileSystem,
            (forall q, q <> p ->
               files (match failedWrite fs0 p with
                      | Some partial => withFile fs0 p partial
                      | None => fs0
                      end) !! q = files fs0 !! q)).
  { intros fs0 q Hq. destruct (failedWrite fs0 p); [|reflexivity].
    simpl. apply lookup_insert_ne. congruence. }
  intros [[Hdir Hmk]|[Hdir Hw]].
  - rewrite bool_decide_eq_false_2 by exact Hdir. rewrite Hmk. auto.
  - destruct (bool_decide (dirname p ∈ dirs fs)) eqn:Hd.
    + rewrite Hw. simpl. repeat split; [apply Hleft|].
      intros ->. reflexivity.
    + destruct Hdir as [Hin|Hmk];
        [apply bool_decide_eq_false in Hd; contradiction|].
      rewrite Hmk. simpl. rewrite Hw. simpl. repeat split.
      * intros q Hq. apply (Hleft (withDir fs (dirname p)) q Hq).
      * change (failedWrite (withDir fs (dirname p)) p) with (failedWrite fs p).
        intros ->. reflexivity.
Qed.

Lemma saveState_writeFile (config : CrawlerConfig) (w : World) :
  saveState config w =
    onDisk (writeFile (stateFile config)
              (Document (JObj (members
                 [ ("url", VStr (stateUrl (state w)));
                   ("metadata", match metadata (state w) with
                                | Some m => metadataValue m
                                | None => VNull
                                end);
                   ("chapters", VArr (List.map chapterValue (chapters (state w))));
                   ("lastCompletedIndex", VNum (lastCompletedIndex (state w)));
                   ("completedChapters", strings (completedChapters (state w)));
                   ("lastUpdated", timestampValue (lastUpdated (state w))) ])))) w.
Proof. reflexivity. Qed.

End Checkpoint.

(** C2 at the state that [initState] makes: saved and then loaded, it is
    not the state that was saved, since [lastUpdated] was a [Date] object,
    as the type of [CrawlerState] has it, and comes back as a string. *)
Lemma loadState_after_saveState_differs :
  (Scraper.saveState Samples.config Samples.freshWorld).1 = Ok tt /\
  Scraper.loadState Samples.config 1700000009999
    (Scraper.disk (Scraper.saveState Samples.config Samples.freshWorld).2)
  <> Scraper.Loaded (Scraper.state Samples.freshWorld).
Proof. split; [reflexivity|]. vm_compute. discriminate. Qed.

(** C2, against the code: with resume enabled, when [saveState] succeeds
    and the checkpoint can be read, [loadState] gives the saved state back in
    every field but [lastUpdated]: a [lastUpdated] that was a [Date] object,
    as the type of [CrawlerState] has it and as [initState] and the update
    after a chapter set it, is now its ISO string.  Only a state whose
    [lastUpdated] is already a string comes back equal in every field, also
    with empty chapters and completed lists. *)
Theorem loadState_after_saveState
    (config : Models.CrawlerConfig) (w w' : Scraper.World) (now : Z) :
  Models.resume config = true ->
  Scraper.saveState config w = (Ok tt, w') ->
  Utils.readFault (Scraper.disk w') (Scraper.stateFile config) = false ->
  Scraper.loadState config now (Scraper.disk w')
    = Scraper.Loaded (Scraper.asStored (Scraper.state w)) /\
  Models.lastUpdated (Scraper.asStored (Scraper.state w))
    = match Models.lastUpdated (Scraper.state w) with
      | Models.DateObject ms => Models.DateString (Js.toISOString ms)
      | Models.DateString s => Models.DateString s
      end /\
  (forall s, Models.lastUpdated (Scraper.state w) = Models.DateString s ->
             Scraper.loadState config now (Scraper.disk w')
               = Scraper.Loaded (Scraper.state w)).
Proof.
  intros Hresume Hsave Hread.
  assert (Hload : Scraper.loadState config now (Scraper.disk w')
                  = Scraper.Loaded (Scraper.asStored (Scraper.state w))).
  { rewrite saveState_writeFile in Hsave. unfold Scraper.onDisk in Hsave.
    destruct (Utils.writeFile _ _ (Scraper.disk w)) as [r fs'] eqn:Hwrite.
    injection Hsave as -> <-. cbn [Scraper.disk] in *.
    destruct (writeFile_ok _ _ _ _ Hwrite) as [Hfile _].
    unfold Scraper.loadState, Utils.fileExists, Utils.readFile.
    rewrite Hresume, Hread, Hfile.
    rewrite bool_decide_eq_true_2 by eauto.
    cbn [andb Js.JSON_parse bind].
    pose proof (migrate_stored (Scraper.state w)) as Hmig.
    pose proof (state_stored (Scraper.state w)) as Hst.
    unfold Js.stored, Scraper.stateValue in Hmig, Hst.
    rewrite serialize_object in Hmig, Hst. cbv beta iota in Hmig, Hst.
    rewrite Hmig, Hst. reflexivity. }
  split; [exact Hload|]. split.
  - destruct (Scraper.state w) as [u m cs n done [ms|s]]; reflexivity.
  - intros s Hs. rewrite Hload, (asStored_string _ _ Hs). reflexivity.
Qed.

Lemma loadState_after_saveState_witness :
  Scraper.loadState Samples.config 1700000009999
    (Scraper.disk (Scraper.saveState Samples.config Samples.resumedWorld).2)
  = Scraper.Loaded (Scraper.asStored Samples.resumed).
Proof.
  apply (loadState_after_saveState Samples.config Samples.resumedWorld
           (Scraper.saveState Samples.config Samples.resumedWorld).2 1700000009999).
  - reflexivity.
  - vm_compute. reflexivity.
  - reflexivity.
Defined.

(** A state that was loaded is saved and loaded again unchanged. *)
Example loadState_twice :
  let w1 := (Scraper.saveState Samples.config Samples.resumedWorld).2 in
  match Scraper.loadState Samples.config 0 (Scraper.disk w1) with
  | Scraper.Loaded st =>
      let w2 := {| Scraper.state := st; Scraper.disk := Scraper.disk w1;
                   Scraper.browserRunning := true |} in
      Scraper.loadState Samples.config 0 (Scraper.disk (Scraper.saveState Samples.config w2).2)
      = Scraper.Loaded st
  | Scraper.Unshaped _ => False
  end.
Proof. vm_compute. reflexivity. Qed.

(** Without a checkpoint, with resume disabled, or with a checkpoint that is
    not JSON, [loadState] starts from the initial state. *)
Example loadState_fresh :
  Scraper.loadState Samples.config 7 Samples.emptyDisk
  = Scraper.Loaded (Scraper.initState Samples.config 7).
Proof. vm_compute. reflexivity. Qed.

(** C9, as the specification has it, fails: on a disk that refuses the
    write, [saveState] does not return normally. *)
Lemma saveState_throws_on_read_only_disk :
  isOk (Scraper.saveState Samples.config Samples.readOnlyWorld).1 = false.
Proof. vm_compute. reflexivity. Qed.

(** What a failing write of the checkpoint does to [saveState]: the error
    is the one of the write, the browser is as it was, and so are the files
    other than the checkpoint. *)
Lemma saveState_fails (config : Models.CrawlerConfig) (w : Scraper.World) (e : string) :
  Utils.writeFails (Scraper.disk w) (Scraper.stateFile config) e ->
  (Scraper.saveState config w).1 = Err e /\
  Scraper.browserRunning (Scraper.saveState config w).2 = Scraper.browserRunning w /\
  (forall p, p <> Scraper.stateFile config ->
     Utils.files (Scraper.disk (Scraper.saveState config w).2) !! p
     = Utils.files (Scraper.disk w) !! p) /\
  (Utils.failedWrite (Scraper.disk w) (Scraper.stateFile config) = None ->
   Utils.files (Scraper.disk (Scraper.saveState config w).2) = Utils.files (Scraper.disk w)).
Proof.
  intros Hfail. rewrite saveState_writeFile. unfold Scraper.onDisk.
  match goal with |- context [Utils.writeFile ?p ?c ?fs] =>
    pose proof (writeFile_fails p c fs e Hfail) as (H1 & H2 & H3);
    destruct (Utils.writeFile p c fs) as [r fs']
  end. simpl in *. auto.
Qed.

(** C9 (amended): [saveState] catches nothing and logs nothing: when the
    write of the checkpoint fails, [saveState] throws the error of the write
    to its caller, the state in memory being as it was. *)
Theorem saveState_write_failure
    (config : Models.CrawlerConfig) (w : Scraper.World) (e : string) :
  Utils.writeFails (Scraper.disk w) (Scraper.stateFile config) e ->
  (Scraper.saveState config w).1 = Err e /\
  Scraper.state (Scraper.saveState config w).2 = Scraper.state w.
Proof.
  intros Hfail. split.
  - apply (saveState_fails config w e Hfail).
  - apply saveState_state.
Qed.

Lemma saveState_write_failure_witness :
  (Scraper.saveState Samples.config Samples.readOnlyWorld).1
    = Err "EACCES: permission denied" /\
  Scraper.state (Scraper.saveState Samples.config Samples.readOnlyWorld).2
    = Samples.resumed.
Proof.
  apply (saveState_write_failure Samples.config Samples.readOnlyWorld
           "EACCES: permission denied").
  right. split; [left; vm_compute; reflexivity | reflexivity].
Defined.

(** [cleanup] saves the state before it closes the browser, outside any
    [try]: a failing save ends [cleanup] with the error of the write, and
    [browserManager.close()] is not reached. *)
Lemma cleanup_write_failure
    (config : Models.CrawlerConfig) (w : Scraper.World) (e : string) :
  Utils.writeFails (Scraper.disk w) (Scraper.stateFile config) e ->
  (Scraper.cleanup config w).1 = Err e /\
  Scraper.browserRunning (Scraper.cleanup config w).2 = Scraper.browserRunning w.
Proof.
  intros Hfail.
  destruct (saveState_fails config w e Hfail) as (Herr & Hbrowser & _).
  unfold Scraper.cleanup, iobind.
  destruct (Scraper.saveState config w) as [[[]|e'] w1]; simpl in *;
    split; congruence.
Qed.

(** A write that fails after the file was opened leaves the checkpoint
    emptied: the next run finds no JSON in it and starts from the initial
    state. *)
Example saveState_on_full_disk :
  let w := (Scraper.saveState Samples.config Samples.fullDiskWorld).2 in
  (Scraper.saveState Samples.config Samples.fullDiskWorld).1
    = Err "ENOSPC: no space left on device" /\
  Utils.files (Scraper.disk w) !! Scraper.stateFile Samples.config = Some (Js.Plain "") /\
  Scraper.loadState Samples.config 7 (Scraper.disk w)
    = Scraper.Loaded (Scraper.initState Samples.config 7).
Proof. vm_compute. repeat split; reflexivity. Qed.

(** When the write succeeds, [cleanup] goes on to close the browser. *)
Example cleanup_closes_browser :
  (Scraper.cleanup Samples.config Samples.resumedWorld).1 = Ok tt /\
  Scraper.browserRunning (Scraper.cleanup Samples.config Samples.resumedWorld).2 = false.
Proof. vm_compute. split; reflexivity. Qed.

(* ================================================================== *)
(** * Further properties of the code *)
(* ================================================================== *)

(** ** What a run does to the state *)

Section RunAndState.
Import Js Utils Models Scraper.

(** An attempt that succeeds has updated the state for its chapter. *)
Lemma scrapeAttempt_ok (config : CrawlerConfig) (ch : ChapterInfo) (env : Attempt)
    (w : World) (c : ChapterContent) :
  (scrapeAttempt config ch env w).1 = Ok c ->
  state (scrapeAttempt config ch env w).2 = commit ch (committedTime env) (state w).
Proof.
  unfold scrapeAttempt, iobind, liftResult.
  destruct (createdPage env) as [page|e]; [|discriminate].
  destruct (Adapter.extractChapterContent page ch (extractedTime env)) as [c0|e];
    [|discriminate].
  pose proof (saveChapterContent_state config c0 (markdownOf env (Models.content c0)) w) as Hs.
  destruct (saveChapterContent config c0 _ w) as [[[]|e] w1]; simpl in Hs; [|discriminate].
  unfold setState, modify, gets. simpl.
  destruct (_ mod 5 =? 0).
  - match goal with |- context [saveState config ?w2] =>
      pose proof (saveState_state config w2) as Hs2;
      destruct (saveState config w2) as [[[]|e] w3]
    end; simpl in *; [|discriminate]. intros _. rewrite Hs2, Hs. reflexivity.
  - simpl. intros _. rewrite Hs. reflexivity.
Qed.

Lemma committed_trans (chs : list ChapterInfo) (st1 st2 st3 : CrawlerState) :
  committed chs st1 st2 -> committed chs st2 st3 -> committed chs st1 st3.
Proof.
  intros H12 H23. induction H23 as [|ch now st' Hin _ IH]; [assumption|].
  apply committed_more; assumption.
Qed.

Lemma committed_completed (chs : list ChapterInfo) (st st' : CrawlerState) (k : string) :
  committed chs st st' ->
  (In k (completedChapters st) -> In k (completedChapters st')) /\
  (In k (completedChapters st') ->
   In k (completedChapters st) \/ exists ch, In ch chs /\ k = id ch).
Proof.
  induction 1 as [|ch now st' Hin _ [IH1 IH2]]; [tauto|].
  unfold commit. cbn [completedChapters].
  destruct (existsb (String.eqb (id ch)) (completedChapters st')); [tauto|].
  split.
  - intros Hk. apply in_or_app. left. auto.
  - intros Hk. apply in_app_or in Hk as [Hk|[<-|[]]]; [auto|].
    right. eauto.
Qed.

Lemma committed_listing (chs : list ChapterInfo) (st st' : CrawlerState) :
  committed chs st st' ->
  stateUrl st' = stateUrl st /\ metadata st' = metadata st /\ chapters st' = chapters st.
Proof. induction 1 as [|ch now st' Hin _ IH]; simpl; auto. Qed.

Lemma committed_index (chs : list ChapterInfo) (st st' : CrawlerState) :
  committed chs st st' ->
  lastCompletedIndex st <= lastCompletedIndex st' /\
  (lastCompletedIndex st' = lastCompletedIndex st \/
   exists ch, In ch chs /\ lastCompletedIndex st' = index ch).
Proof.
  induction 1 as [|ch now st' Hin _ [IH1 IH2]]; [split; [lia | auto]|].
  cbn [commit lastCompletedIndex]. split; [lia|].
  destruct (Z.max_spec (lastCompletedIndex st') (index ch)) as [[_ ->]|[_ ->]];
    [right; eauto | exact IH2].
Qed.

Lemma recorded_commit (ch : ChapterInfo) (now : Z) (st : CrawlerState) :
  recorded (commit ch now st) ch.
Proof.
  unfold recorded, commit. cbn [completedChapters lastCompletedIndex].
  split; [|lia].
  destruct (existsb (String.eqb (id ch)) (completedChapters st)) eqn:Hin.
  - apply includes_string. exact Hin.
  - apply in_or_app. right. left. reflexivity.
Qed.

Lemma recorded_later (chs : list ChapterInfo) (st st' : CrawlerState) (ch : ChapterInfo) :
  committed chs st st' -> recorded st ch -> recorded st' ch.
Proof.
  intros Hc [Hin Hle]. split.
  - apply (committed_completed _ _ _ _ Hc). exact Hin.
  - pose proof (committed_index _ _ _ Hc). lia.
Qed.

(** *** In the pool *)

Lemma step_committed (config : CrawlerConfig) (pool : Pool) (next : nat * Attempt) :
  committed (List.map chapter (tasks pool))
            (state (world pool)) (state (world (step config pool next))).
Proof.
  unfold step.
  destruct (pickRunning next.1 (tasks pool)) as [i|]; [|constructor].
  destruct (tasks pool !! i) as [[ch [| n |r]]|] eqn:Hi; try constructor.
  assert (Hin : In ch (List.map chapter (tasks pool))).
  { apply in_map_iff. exists {| chapter := ch; status := Running n |}.
    split; [reflexivity|]. apply list_elem_of_In, list_elem_of_lookup. eauto. }
  pose proof (scrapeAttempt_state config ch next.2 (world pool)) as H.
  destruct (scrapeAttempt config ch next.2 (world pool)) as [r w]. simpl in H.
  assert (Hw : committed (List.map chapter (tasks pool)) (state (world pool)) (state w)).
  { destruct H as [->| ->]; [constructor|].
    apply committed_more; [exact Hin | constructor]. }
  unfold afterAttempt. destruct r; [|destruct (n <=? retries config)%nat]; exact Hw.
Qed.

Lemma run_committed (config : CrawlerConfig) (chs : list ChapterInfo)
    (tracker : ProgressTracker) (schedule : list (nat * Attempt)) (pool : Pool) :
  PoolInvariant config chs tracker pool ->
  committed chs (state (world pool)) (state (world (run config pool schedule))).
Proof.
  revert pool. induction schedule as [|next schedule IH]; intros pool Hinv; [constructor|].
  rewrite run_cons. eapply committed_trans.
  - rewrite <- (inv_chapters _ _ _ _ Hinv). apply step_committed.
  - apply IH, step_invariant, Hinv.
Qed.

Lemma successesRecorded_later (chs : list ChapterInfo) (st st' : CrawlerState)
    (ts : list Task) :
  committed chs st st' -> successesRecorded st ts -> successesRecorded st' ts.
Proof.
  intros Hc H. unfold successesRecorded in *. eapply Forall_impl; [exact H|].
  intros t Ht Hful. eapply recorded_later; eauto.
Qed.

Lemma successesRecorded_dispatch (st : CrawlerState) (free : nat) (ts : list Task) :
  successesRecorded st ts -> successesRecorded st (dispatch free ts).
Proof.
  unfold successesRecorded. intros H. revert free.
  induction H as [|t ts Ht Hts IH]; intros free; [constructor|].
  simpl. destruct (status t) eqn:Hst, free; constructor; auto.
  discriminate.
Qed.

Lemma step_recorded (config : CrawlerConfig) (pool : Pool) (next : nat * Attempt) :
  successesRecorded (state (world pool)) (tasks pool) ->
  successesRecorded (state (world (step config pool next))) (tasks (step config pool next)).
Proof.
  intros Hrec.
  pose proof (step_committed config pool next) as Hc. revert Hc. unfold step.
  destruct (pickRunning next.1 (tasks pool)) as [i|]; [|intros _; exact Hrec].
  destruct (tasks pool !! i) as [[ch [| n |r]]|] eqn:Hi; try (intros _; exact Hrec).
  pose proof (scrapeAttempt_ok config ch next.2 (world pool)) as Hok.
  destruct (scrapeAttempt config ch next.2 (world pool)) as [r w]. simpl in Hok.
  unfold afterAttempt. destruct r as [c|e]; [|destruct (n <=? retries config)%nat];
    cbn [world tasks]; intros Hc;
    pose proof (successesRecorded_later _ _ _ _ Hc Hrec) as Hrec'.
  - apply successesRecorded_dispatch, Forall_insert; [exact Hrec'|].
    intros _. cbn [chapter]. rewrite (Hok c eq_refl). apply recorded_commit.
  - apply Forall_insert; [exact Hrec' | discriminate].
  - apply successesRecorded_dispatch, Forall_insert; [exact Hrec' | discriminate].
Qed.

Lemma run_recorded (config : CrawlerConfig) (schedule : list (nat * Attempt)) (pool : Pool) :
  successesRecorded (state (world pool)) (tasks pool) ->
  successesRecorded (state (world (run config pool schedule)))
                    (tasks (run config pool schedule)).
Proof.
  revert pool. induction schedule as [|next schedule IH]; intros pool H; [exact H|].
  rewrite run_cons. apply IH, step_recorded, H.
Qed.

Lemma startPool_recorded (config : CrawlerConfig) (chs : list ChapterInfo)
    (tracker : ProgressTracker) (w : World) :
  successesRecorded (state w) (tasks (startPool config chs tracker w)).
Proof.
  simpl. apply successesRecorded_dispatch. unfold successesRecorded.
  apply List.Forall_forall. intros t Ht. apply in_map_iff in Ht as (ch & <- & _).
  discriminate.
Qed.

(** What [scrapeChapters] returns is read off the pool at the end of the
    schedule. *)
Lemma scrapeChapters_pool (config : CrawlerConfig) (chs : list ChapterInfo)
    (schedule : list (nat * Attempt)) (tracker tracker' : ProgressTracker)
    (w w' : World) (summary : Summary) :
  scrapeChapters config chs schedule tracker w = Some (summary, tracker', w') ->
  w' = world (run config (startPool config chs tracker w) schedule) /\
  tracker' = progress (run config (startPool config chs tracker w) schedule) /\
  Forall2 (fun t r => status t = Settled r)
          (tasks (run config (startPool config chs tracker w) schedule))
          (results summary).
Proof.
  unfold scrapeChapters.
  destruct (mapM resultOf _) as [rs|] eqn:Hm; [|discriminate].
  intros [= <- <- <-]. repeat split. simpl.
  apply mapM_Some_1 in Hm. eapply Forall2_impl; [exact Hm|].
  intros t r. unfold resultOf. destruct (status t); congruence.
Qed.

Lemma scrapeChapters_committed (config : CrawlerConfig) (chs : list ChapterInfo)
    (schedule : list (nat * Attempt)) (tracker tracker' : ProgressTracker)
    (w w' : World) (summary : Summary) :
  scrapeChapters config chs schedule tracker w = Some (summary, tracker', w') ->
  committed chs (state w) (state w').
Proof.
  intros H. destruct (scrapeChapters_pool _ _ _ _ _ _ _ _ H) as (-> & _ & _).
  exact (run_committed config chs tracker schedule (startPool config chs tracker w)
           (startPool_invariant config chs tracker w)).
Qed.

Lemma recorded_results (st : CrawlerState) (ts : list Task) (rs : list taskResult) :
  Forall2 (fun t r => status t = Settled r) ts rs ->
  successesRecorded st ts ->
  Forall2 (fun ch r => r = Undefined -> recorded st ch) (List.map chapter ts) rs.
Proof.
  unfold successesRecorded.
  induction 1 as [|t r ts rs Hst _ IH]; intros Hrec; simpl; [constructor|].
  inversion Hrec as [|? ? Ht Hts]; subst. constructor; [|apply IH; assumption].
  intros ->. apply Ht. unfold isFulfilled. rewrite Hst. reflexivity.
Qed.

Lemma scrapeChapters_recorded (config : CrawlerConfig) (chs : list ChapterInfo)
    (schedule : list (nat * Attempt)) (tracker tracker' : ProgressTracker)
    (w w' : World) (summary : Summary) :
  scrapeChapters config chs schedule tracker w = Some (summary, tracker', w') ->
  Forall2 (fun ch r => r = Undefined -> recorded (state w') ch) chs (results summary).
Proof.
  intros H. destruct (scrapeChapters_pool _ _ _ _ _ _ _ _ H) as (-> & _ & Hres).
  pose proof (run_recorded config schedule (startPool config chs tracker w)
                (startPool_recorded config chs tracker w)) as Hrec.
  pose proof (run_invariant config chs tracker schedule (startPool config chs tracker w)
                (startPool_invariant config chs tracker w)) as Hinv.
  pose proof (recorded_results _ _ _ Hres Hrec) as HR.
  rewrite (inv_chapters _ _ _ _ Hinv) in HR. exact HR.
Qed.

End RunAndState.

(** X1: a run of [scrapeChapters] never takes an id out of
    [completedChapters] and never lowers [lastCompletedIndex], and it leaves
    the url, the metadata and the list of chapters of the state as they
    were. *)
Theorem scrapeChapters_preserves_progress
    (config : Models.CrawlerConfig) (chapters : list Models.ChapterInfo)
    (schedule : list (nat * Scraper.Attempt)) (tracker tracker' : Utils.ProgressTracker)
    (w w' : Scraper.World) (summary : Scraper.Summary) :
  Scraper.scrapeChapters config chapters schedule tracker w = Some (summary, tracker', w') ->
  (forall k, In k (Models.completedChapters (Scraper.state w)) ->
             In k (Models.completedChapters (Scraper.state w'))) /\
  Models.lastCompletedIndex (Scraper.state w) <= Models.lastCompletedIndex (Scraper.state w') /\
  Models.stateUrl (Scraper.state w') = Models.stateUrl (Scraper.state w) /\
  Models.metadata (Scraper.state w') = Models.metadata (Scraper.state w) /\
  Models.chapters (Scraper.state w') = Models.chapters (Scraper.state w).
Proof.
  intros H. pose proof (scrapeChapters_committed _ _ _ _ _ _ _ _ H) as Hc.
  split; [|split].
  - intros k. apply (committed_completed _ _ _ k Hc).
  - apply (committed_index _ _ _ Hc).
  - apply (committed_listing _ _ _ Hc).
Qed.

Lemma scrapeChapters_preserves_progress_witness :
  exists summary tracker' w',
    Scraper.scrapeChapters Samples.oneRetry (List.map Samples.numbered [2; 4; 5])
      Samples.oneFailure (Utils.newProgressTracker 3) Samples.resumedWorld
      = Some (summary, tracker', w') /\
    (forall k, In k ["chapter-1"; "chapter-3"] ->
               In k (Models.completedChapters (Scraper.state w'))) /\
    3 <= Models.lastCompletedIndex (Scraper.state w').
Proof.
  destruct (Scraper.scrapeChapters Samples.oneRetry (List.map Samples.numbered [2; 4; 5])
              Samples.oneFailure (Utils.newProgressTracker 3) Samples.resumedWorld)
    as [[[summary tracker'] w']|] eqn:H; [|vm_compute in H; discriminate].
  exists summary, tracker', w'. split; [reflexivity|].
  destruct (scrapeChapters_preserves_progress _ _ _ _ _ _ _ _ H) as (Hk & Hidx & _).
  split; assumption.
Defined.

(** X2: once [scrapeChapters] has returned, every chapter whose task
    succeeded (result [undefined]) is recorded in the state: its id is in
    [completedChapters] and [lastCompletedIndex] is at least its index. *)
Theorem scrapeChapters_records_successes
    (config : Models.CrawlerConfig) (chapters : list Models.ChapterInfo)
    (schedule : list (nat * Scraper.Attempt)) (tracker tracker' : Utils.ProgressTracker)
    (w w' : Scraper.World) (summary : Scraper.Summary) :
  Scraper.scrapeChapters config chapters schedule tracker w = Some (summary, tracker', w') ->
  Forall2 (fun ch r =>
             r = Scraper.Undefined ->
             In (Models.id ch) (Models.completedChapters (Scraper.state w')) /\
             Models.index ch <= Models.lastCompletedIndex (Scraper.state w'))
          chapters (Scraper.results summary).
Proof. intros H. exact (scrapeChapters_recorded _ _ _ _ _ _ _ _ H). Qed.

Lemma scrapeChapters_records_successes_witness :
  exists summary tracker' w',
    Scraper.scrapeChapters Samples.oneRetry (List.map Samples.numbered [2; 4; 5])
      Samples.oneFailure (Utils.newProgressTracker 3) Samples.resumedWorld
      = Some (summary, tracker', w') /\
    Forall2 (fun ch r =>
               r = Scraper.Undefined ->
               In (Models.id ch) (Models.completedChapters (Scraper.state w')) /\
               Models.index ch <= Models.lastCompletedIndex (Scraper.state w'))
            (List.map Samples.numbered [2; 4; 5]) (Scraper.results summary).
Proof.
  destruct (Scraper.scrapeChapters Samples.oneRetry (List.map Samples.numbered [2; 4; 5])
              Samples.oneFailure (Utils.newProgressTracker 3) Samples.resumedWorld)
    as [[[summary tracker'] w']|] eqn:H; [|vm_compute in H; discriminate].
  exists summary, tracker', w'. split; [reflexivity|].
  exact (scrapeChapters_records_successes _ _ _ _ _ _ _ _ H).
Defined.

(** X3: a run of [scrapeChapters] adds to [completedChapters] only ids of
    the chapters it was given, and [lastCompletedIndex] ends as it was or as
    the index of one of those chapters. *)
Theorem scrapeChapters_records_only_scheduled
    (config : Models.CrawlerConfig) (chapters : list Models.ChapterInfo)
    (schedule : list (nat * Scraper.Attempt)) (tracker tracker' : Utils.ProgressTracker)
    (w w' : Scraper.World) (summary : Scraper.Summary) :
  Scraper.scrapeChapters config chapters schedule tracker w = Some (summary, tracker', w') ->
  (forall k, In k (Models.completedChapters (Scraper.state w')) ->
             In k (Models.completedChapters (Scraper.state w)) \/
             exists ch, In ch chapters /\ k = Models.id ch) /\
  (Models.lastCompletedIndex (Scraper.state w') = Models.lastCompletedIndex (Scraper.state w) \/
   exists ch, In ch chapters /\
              Models.lastCompletedIndex (Scraper.state w') = Models.index ch).
Proof.
  intros H. pose proof (scrapeChapters_committed _ _ _ _ _ _ _ _ H) as Hc.
  split.
  - intros k. apply (committed_completed _ _ _ k Hc).
  - apply (committed_index _ _ _ Hc).
Qed.

Lemma scrapeChapters_records_only_scheduled_witness :
  exists summary tracker' w',
    Scraper.scrapeChapters Samples.oneRetry (List.map Samples.numbered [2; 4; 5])
      Samples.oneFailure (Utils.newProgressTracker 3) Samples.resumedWorld
      = Some (summary, tracker', w') /\
    (forall k, In k (Models.completedChapters (Scraper.state w')) ->
               In k ["chapter-1"; "chapter-3"] \/
               exists ch, In ch (List.map Samples.numbered [2; 4; 5]) /\ k = Models.id ch).
Proof.
  destruct (Scraper.scrapeChapters Samples.oneRetry (List.map Samples.numbered [2; 4; 5])
              Samples.oneFailure (Utils.newProgressTracker 3) Samples.resumedWorld)
    as [[[summary tracker'] w']|] eqn:H; [|vm_compute in H; discriminate].
  exists summary, tracker', w'. split; [reflexivity|].
  exact (proj1 (scrapeChapters_records_only_scheduled _ _ _ _ _ _ _ _ H)).
Defined.

(** The run of [Samples.oneFailure] on the resumed state: chapters 2 and 5
    are added, chapter 4 is not. *)
Example scrapeChapters_resumed_run :
  (fun r => (Models.completedChapters (Scraper.state r.2),
             Models.lastCompletedIndex (Scraper.state r.2))) <$>
    Scraper.scrapeChapters Samples.oneRetry (List.map Samples.numbered [2; 4; 5])
      Samples.oneFailure (Utils.newProgressTracker 3) Samples.resumedWorld
  = Some (["chapter-1"; "chapter-3"; "chapter-2"; "chapter-5"], 5).
Proof. vm_compute. reflexivity. Qed.

(** ** A second pass after a run *)

Section SecondPass.
Import Js Utils Models Scraper.

Lemma targetIndexes_chapters (config : CrawlerConfig) (st st' : CrawlerState) :
  chapters st' = chapters st -> targetIndexes config st' = targetIndexes config st.
Proof. intros H. unfold targetIndexes. rewrite H. reflexivity. Qed.

Lemma getChaptersToScrape_committed (config : CrawlerConfig) (chs : list ChapterInfo)
    (st st' : CrawlerState) (c : ChapterInfo) :
  force config = false ->
  committed chs st st' ->
  In c (getChaptersToScrape config st') ->
  In c (getChaptersToScrape config st) /\ ~ In (id c) (completedChapters st').
Proof.
  intros Hforce Hc Hin.
  destruct (committed_listing _ _ _ Hc) as (_ & _ & Hchs).
  apply getChaptersToScrape_spec in Hin. destruct Hin as (H1 & H2 & H3).
  destruct H3 as [H3|H3]; [congruence|].
  split; [|exact H3].
  apply getChaptersToScrape_spec. rewrite <- Hchs.
  rewrite <- (targetIndexes_chapters config st st' Hchs).
  split; [exact H1|]. split; [exact H2|]. right.
  intros Hk. apply H3. apply (committed_completed _ _ _ (id c) Hc). exact Hk.
Qed.

Lemma Forall2_all_left {A B : Type} (P : A -> B -> Prop) (Q : B -> Prop) (R : A -> Prop)
    (l : list A) (rs : list B) :
  (forall a b, P a b -> Q b -> R a) ->
  Forall2 P l rs -> List.Forall Q rs -> List.Forall R l.
Proof.
  intros HPQ H. induction H as [|a b l rs Hab _ IH]; intros HQ.
  - constructor.
  - inversion HQ; subst. constructor; [eapply HPQ; eassumption | apply IH; assumption].
Qed.

End SecondPass.

(** X4: without [force], what [getChaptersToScrape] selects after a run of
    [scrapeChapters] on its selection is part of what it selected before and
    holds no completed chapter; and when every task of the run succeeded it
    selects nothing. *)
Theorem getChaptersToScrape_after_run
    (config : Models.CrawlerConfig)
    (schedule : list (nat * Scraper.Attempt)) (tracker tracker' : Utils.ProgressTracker)
    (w w' : Scraper.World) (summary : Scraper.Summary) :
  Models.force config = false ->
  Scraper.scrapeChapters config (Scraper.getChaptersToScrape config (Scraper.state w))
    schedule tracker w = Some (summary, tracker', w') ->
  (forall c, In c (Scraper.getChaptersToScrape config (Scraper.state w')) ->
             In c (Scraper.getChaptersToScrape config (Scraper.state w)) /\
             ~ In (Models.id c) (Models.completedChapters (Scraper.state w'))) /\
  (List.Forall (fun r => r = Scraper.Undefined) (Scraper.results summary) ->
   Scraper.getChaptersToScrape config (Scraper.state w') = []).
Proof.
  intros Hforce H.
  pose proof (scrapeChapters_committed _ _ _ _ _ _ _ _ H) as Hc.
  pose proof (scrapeChapters_recorded _ _ _ _ _ _ _ _ H) as Hr.
  split.
  - intros c. apply (getChaptersToScrape_committed _ _ _ _ c Hforce Hc).
  - intros Hall.
    assert (Hdone : List.Forall (Scraper.recorded (Scraper.state w'))
                      (Scraper.getChaptersToScrape config (Scraper.state w))).
    { eapply Forall2_all_left; [|exact Hr|exact Hall].
      intros a b Hab Hb. exact (Hab Hb). }
    rewrite List.Forall_forall in Hdone.
    destruct (Scraper.getChaptersToScrape config (Scraper.state w')) as [|c l] eqn:Hl;
      [reflexivity|].
    assert (Hin : In c (Scraper.getChaptersToScrape config (Scraper.state w')))
      by (rewrite Hl; left; reflexivity).
    destruct (getChaptersToScrape_committed _ _ _ _ c Hforce Hc Hin) as (Hbefore & Hnot).
    destruct (Hdone c Hbefore) as (Hid & _). contradiction.
Qed.

Lemma getChaptersToScrape_after_run_witness :
  exists summary tracker' w',
    Scraper.scrapeChapters Samples.oneRetry
      (Scraper.getChaptersToScrape Samples.oneRetry (Scraper.state Samples.resumedWorld))
      Samples.allGood (Utils.newProgressTracker 3) Samples.resumedWorld
      = Some (summary, tracker', w') /\
    Scraper.getChaptersToScrape Samples.oneRetry (Scraper.state w') = [].
Proof.
  destruct (Scraper.scrapeChapters Samples.oneRetry
              (Scraper.getChaptersToScrape Samples.oneRetry (Scraper.state Samples.resumedWorld))
              Samples.allGood (Utils.newProgressTracker 3) Samples.resumedWorld)
    as [[[summary tracker'] w']|] eqn:H; [|vm_compute in H; discriminate].
  exists summary, tracker', w'. split; [reflexivity|].
  refine (proj2 (getChaptersToScrape_after_run Samples.oneRetry _ _ _ _ _ _ _ H) _);
    [reflexivity|].
  assert (Hres : Scraper.results <$>
                   (fst <$> (fst <$> Scraper.scrapeChapters Samples.oneRetry
                     (Scraper.getChaptersToScrape Samples.oneRetry
                        (Scraper.state Samples.resumedWorld))
                     Samples.allGood (Utils.newProgressTracker 3) Samples.resumedWorld))
                 = Some [Scraper.Undefined; Scraper.Undefined; Scraper.Undefined])
    by (vm_compute; reflexivity).
  rewrite H in Hres. simpl in Hres. injection Hres as ->.
  repeat constructor.
Defined.

(** ** The checkpoint during a run *)

Section CheckpointDuringRun.
Import Js Utils Models Scraper.

Lemma loadState_saved (config : CrawlerConfig) (w w' : World) (now : Z) :
  resume config = true ->
  saveState config w = (Ok tt, w') ->
  readFault (disk w') (stateFile config) = false ->
  loadState config now (disk w') = Loaded (asStored (state w)).
Proof.
  intros Hresume Hsave Hread.
  rewrite saveState_writeFile in Hsave. unfold onDisk in Hsave.
  destruct (writeFile _ _ (disk w)) as [r fs'] eqn:Hwrite.
  injection Hsave as -> <-. cbn [disk] in *.
  destruct (writeFile_ok _ _ _ _ Hwrite) as [Hfile _].
  unfold loadState, fileExists, readFile.
  rewrite Hresume, Hread, Hfile.
  rewrite bool_decide_eq_true_2 by eauto.
  cbn [andb JSON_parse bind].
  pose proof (migrate_stored (state w)) as Hmig.
  pose proof (state_stored (state w)) as Hst.
  unfold stored, stateValue in Hmig, Hst.
  rewrite serialize_object in Hmig, Hst. cbv beta iota in Hmig, Hst.
  rewrite Hmig, Hst. reflexivity.
Qed.

Lemma string_app_assoc (a b c : string) : ((a ++ b) ++ c)%string = (a ++ (b ++ c))%string.
Proof.
  induction a as [|x a IH]; [reflexivity|].
  change (String x ((a ++ b) ++ c) = String x (a ++ (b ++ c))). rewrite IH. reflexivity.
Qed.

Lemma markdown_name_not_checkpoint (a : string) : (a ++ ".md")%string <> "state.json".
Proof.
  intros H.
  repeat (destruct a as [|? a]; [discriminate H | injection H as _ H]).
  destruct a; discriminate H.
Qed.

Lemma chapterFilename_not_checkpoint (config : CrawlerConfig) (info : ChapterInfo) :
  join (outputDir config) (chapterFilename info) <> stateFile config.
Proof.
  unfold join, stateFile, chapterFilename. intros [= H].
  rewrite <- !string_app_assoc in H.
  exact (markdown_name_not_checkpoint _ H).
Qed.

Lemma writeFile_other (p q : path) (c : text) (fs fs' : FileSystem) (r : result unit) :
  writeFile p c fs = (r, fs') -> q <> p -> files fs' !! q = files fs !! q.
Proof.
  unfold writeFile, iobind, ensureDir, fsWriteFile. intros H Hne.
  assert (Hleft : forall fs0 : FileSystem,
            files (match failedWrite fs0 p with
                   | Some partial => withFile fs0 p partial
                   | None => fs0
                   end) !! q = files fs0 !! q).
  { intros fs0. destruct (failedWrite fs0 p); [|reflexivity].
    simpl. apply lookup_insert_ne. congruence. }
  destruct (bool_decide (dirname p ∈ dirs fs)).
  - destruct (writeFault fs p); injection H as <- <-; [apply Hleft|].
    simpl. apply lookup_insert_ne. congruence.
  - destruct (mkdirFault fs (dirname p)); [injection H as <- <-; reflexivity|].
    simpl in H. destruct (writeFault fs p); injection H as <- <-;
      [apply (Hleft (withDir fs (dirname p)))|].
    simpl. apply lookup_insert_ne. congruence.
Qed.

(** An attempt, by the step it stops at. *)
Lemma scrapeAttempt_steps (config : CrawlerConfig) (ch : ChapterInfo) (env : Attempt)
    (w : World) (page : Adapter.Page) (c : ChapterContent) (w1 : World) :
  createdPage env = Ok page ->
  Adapter.extractChapterContent page ch (extractedTime env) = Ok c ->
  saveChapterContent config c (markdownOf env (Models.content c)) w = (Ok tt, w1) ->
  let w2 := {| state := commit ch (committedTime env) (state w);
               disk := disk w1; browserRunning := browserRunning w1 |} in
  scrapeAttempt config ch env w =
    if Z.of_nat (length (completedChapters (state w2))) mod 5 =? 0
    then match saveState config w2 with
         | (Ok _, w3) => (Ok c, w3)
         | (Err e, w3) => (Err e, w3)
         end
    else (Ok c, w2).
Proof.
  intros Hpage Hextract Hsave.
  pose proof (saveChapterContent_state config c (markdownOf env (Models.content c)) w) as Hs.
  rewrite Hsave in Hs. simpl in Hs.
  unfold scrapeAttempt, iobind, liftResult.
  rewrite Hpage, Hextract, Hsave. unfold setState, modify, gets. cbn [state].
  rewrite Hs.
  destruct (_ mod 5 =? 0); [|reflexivity].
  destruct (saveState config _) as [[[]|e] w3]; reflexivity.
Qed.

(** What a successful attempt went through. *)
Lemma scrapeAttempt_inversion (config : CrawlerConfig) (ch : ChapterInfo) (env : Attempt)
    (w : World) (c : ChapterContent) :
  (scrapeAttempt config ch env w).1 = Ok c ->
  exists page w1,
    createdPage env = Ok page /\
    Adapter.extractChapterContent page ch (extractedTime env) = Ok c /\
    saveChapterContent config c (markdownOf env (Models.content c)) w = (Ok tt, w1).
Proof.
  unfold scrapeAttempt, iobind, liftResult.
  destruct (createdPage env) as [page|e]; [|discriminate].
  destruct (Adapter.extractChapterContent page ch (extractedTime env)) as [c0|e] eqn:Hc;
    [|discriminate].
  destruct (saveChapterContent config c0 _ w) as [[[]|e] w1] eqn:Hs; [|discriminate].
  unfold setState, modify, gets. simpl.
  destruct (_ mod 5 =? 0).
  - destruct (saveState config _) as [[[]|e] w3]; simpl; [|discriminate].
    intros [= <-]. eauto.
  - simpl. intros [= <-]. eauto.
Qed.

Lemma extractChapterContent_info (page : Adapter.Page) (ch : ChapterInfo) (now : Z)
    (c : ChapterContent) :
  Adapter.extractChapterContent page ch now = Ok c -> info c = ch.
Proof.
  unfold Adapter.extractChapterContent, Adapter.rethrow.
  destruct (Adapter.goto page (url ch)) as [document|e]; [|discriminate].
  cbn [bind].
  destruct (Adapter.selectContainer document Adapter.contentSelectors None);
    cbn [bind Adapter.validateContent]; [|discriminate].
  intros [= <-]. reflexivity.
Qed.

End CheckpointDuringRun.

(** X5: when an attempt of [scrapeChapter] succeeds and the number of
    completed chapters is then a multiple of five, the checkpoint on disk is
    the one of the state the attempt leaves: with resume enabled and the file
    readable, [loadState] gives that state back, [lastUpdated] being its ISO
    string. *)
Theorem scrapeAttempt_periodic_checkpoint
    (config : Models.CrawlerConfig) (ch : Models.ChapterInfo) (env : Scraper.Attempt)
    (w : Scraper.World) (c : Models.ChapterContent) (now : Z) :
  Models.resume config = true ->
  (Scraper.scrapeAttempt config ch env w).1 = Ok c ->
  Z.of_nat (length (Models.completedChapters
                      (Scraper.state (Scraper.scrapeAttempt config ch env w).2))) mod 5 = 0 ->
  Utils.readFault (Scraper.disk (Scraper.scrapeAttempt config ch env w).2)
                  (Scraper.stateFile config) = false ->
  Scraper.loadState config now (Scraper.disk (Scraper.scrapeAttempt config ch env w).2)
  = Scraper.Loaded (Scraper.asStored (Scraper.state (Scraper.scrapeAttempt config ch env w).2)).
Proof.
  intros Hresume Hok.
  destruct (scrapeAttempt_inversion _ _ _ _ _ Hok) as (page & w1 & Hpage & Hextract & Hsave).
  pose proof (scrapeAttempt_ok _ _ _ _ _ Hok) as Hstate.
  rewrite Hstate.
  rewrite (scrapeAttempt_steps _ _ _ _ _ _ _ Hpage Hextract Hsave) in *.
  cbn [Scraper.state] in *.
  intros Hfive Hread. apply Z.eqb_eq in Hfive. rewrite Hfive in *.
  destruct (Scraper.saveState config _) as [[[]|e] w3] eqn:Hcheckpoint;
    [|discriminate Hok].
  cbn [snd] in *.
  rewrite (loadState_saved _ _ _ now Hresume Hcheckpoint Hread). reflexivity.
Qed.

Lemma scrapeAttempt_periodic_checkpoint_witness :
  Scraper.loadState Samples.config 1700000009999
    (Scraper.disk (Scraper.scrapeAttempt Samples.config (Samples.numbered 5)
                     Samples.goodAttempt Samples.fourDoneWorld).2)
  = Scraper.Loaded
      (Scraper.asStored
         (Scraper.state (Scraper.scrapeAttempt Samples.config (Samples.numbered 5)
                           Samples.goodAttempt Samples.fourDoneWorld).2)).
Proof.
  eapply (scrapeAttempt_periodic_checkpoint Samples.config (Samples.numbered 5)
            Samples.goodAttempt Samples.fourDoneWorld).
  - reflexivity.
  - vm_compute. reflexivity.
  - vm_compute. reflexivity.
  - vm_compute. reflexivity.
Defined.

(** X6: when an attempt of [scrapeChapter] succeeds and the number of
    completed chapters is then not a multiple of five, the checkpoint file is
    left as it was, neither written nor removed, while the chapter's markdown
    file is on the disk under the name made of its index and id. *)
Theorem scrapeAttempt_between_checkpoints
    (config : Models.CrawlerConfig) (ch : Models.ChapterInfo) (env : Scraper.Attempt)
    (w : Scraper.World) (c : Models.ChapterContent) :
  (Scraper.scrapeAttempt config ch env w).1 = Ok c ->
  Z.of_nat (length (Models.completedChapters
                      (Scraper.state (Scraper.scrapeAttempt config ch env w).2))) mod 5 <> 0 ->
  Utils.files (Scraper.disk (Scraper.scrapeAttempt config ch env w).2)
    !! Scraper.stateFile config
  = Utils.files (Scraper.disk w) !! Scraper.stateFile config /\
  Utils.files (Scraper.disk (Scraper.scrapeAttempt config ch env w).2)
    !! Utils.join (Models.outputDir config) (Scraper.chapterFilename ch)
  = Some (Js.Plain (Scraper.createChapterMarkdown ch
                      (Scraper.markdownOf env (Models.content c))
                      (Models.contentMetadata c))).
Proof.
  intros Hok.
  destruct (scrapeAttempt_inversion _ _ _ _ _ Hok) as (page & w1 & Hpage & Hextract & Hsave).
  pose proof (extractChapterContent_info _ _ _ _ Hextract) as Hinfo.
  rewrite (scrapeAttempt_steps _ _ _ _ _ _ _ Hpage Hextract Hsave) in *.
  cbn [Scraper.state] in *.
  destruct (_ mod 5 =? 0) eqn:Hfive.
  - apply Z.eqb_eq in Hfive.
    destruct (Scraper.saveState config _) as [[[]|e] w3] eqn:Hcheckpoint;
      [|discriminate Hok].
    pose proof (saveState_state config
                  {| Scraper.state := Scraper.commit ch (Scraper.committedTime env)
                                        (Scraper.state w);
                     Scraper.disk := Scraper.disk w1;
                     Scraper.browserRunning := Scraper.browserRunning w1 |}) as Hs.
    rewrite Hcheckpoint in Hs. cbn [snd Scraper.state] in *. rewrite Hs.
    intros Hnot. contradiction.
  - intros _. cbn [snd Scraper.disk].
    unfold Scraper.saveChapterContent, Scraper.onDisk in Hsave.
    destruct (Utils.writeFile _ _ (Scraper.disk w)) as [r fs'] eqn:Hwrite.
    injection Hsave as -> <-. cbn [Scraper.disk]. rewrite Hinfo in Hwrite. split.
    + apply (writeFile_other _ _ _ _ _ _ Hwrite).
      intros Heq. symmetry in Heq. exact (chapterFilename_not_checkpoint _ _ Heq).
    + apply (writeFile_ok _ _ _ _ Hwrite).
Qed.

Lemma scrapeAttempt_between_checkpoints_witness :
  Utils.files (Scraper.disk (Scraper.scrapeAttempt Samples.config (Samples.numbered 2)
                               Samples.goodAttempt Samples.resumedWorld).2)
    !! Scraper.stateFile Samples.config = None /\
  is_Some (Utils.files (Scraper.disk (Scraper.scrapeAttempt Samples.config
                                        (Samples.numbered 2) Samples.goodAttempt
                                        Samples.resumedWorld).2)
             !! Utils.join (Models.outputDir Samples.config) "0002-chapter-2.md").
Proof.
  edestruct (scrapeAttempt_between_checkpoints Samples.config (Samples.numbered 2)
               Samples.goodAttempt Samples.resumedWorld) as [Hstate Hchapter].
  - vm_compute. reflexivity.
  - vm_compute. discriminate.
  - split.
    + rewrite Hstate. reflexivity.
    + change "0002-chapter-2.md" with (Scraper.chapterFilename (Samples.numbered 2)).
      rewrite Hchapter. eauto.
Defined.

(** X7: when the chapter is extracted and its file written, the number of
    completed chapters becomes a multiple of five and the write of the
    checkpoint fails, the attempt throws the error of that write although
    the chapter's file is on the disk and the state already counts the
    chapter as completed; the caller sees a failed attempt. *)
Theorem scrapeAttempt_checkpoint_failure
    (config : Models.CrawlerConfig) (ch : Models.ChapterInfo) (env : Scraper.Attempt)
    (w w1 : Scraper.World) (page : Adapter.Page) (c : Models.ChapterContent) (e : string) :
  Scraper.createdPage env = Ok page ->
  Adapter.extractChapterContent page ch (Scraper.extractedTime env) = Ok c ->
  Scraper.saveChapterContent config c (Scraper.markdownOf env (Models.content c)) w
    = (Ok tt, w1) ->
  Z.of_nat (length (Models.completedChapters
                      (Scraper.commit ch (Scraper.committedTime env) (Scraper.state w))))
    mod 5 = 0 ->
  Utils.writeFails (Scraper.disk w1) (Scraper.stateFile config) e ->
  (Scraper.scrapeAttempt config ch env w).1 = Err e /\
  Scraper.state (Scraper.scrapeAttempt config ch env w).2
    = Scraper.commit ch (Scraper.committedTime env) (Scraper.state w) /\
  In (Models.id ch)
     (Models.completedChapters (Scraper.state (Scraper.scrapeAttempt config ch env w).2)) /\
  Utils.files (Scraper.disk (Scraper.scrapeAttempt config ch env w).2)
    !! Utils.join (Models.outputDir config) (Scraper.chapterFilename ch)
  = Some (Js.Plain (Scraper.createChapterMarkdown ch
                      (Scraper.markdownOf env (Models.content c))
                      (Models.contentMetadata c))).
Proof.
  intros Hpage Hextract Hsave Hfive Hfail.
  pose proof (extractChapterContent_info _ _ _ _ Hextract) as Hinfo.
  rewrite (scrapeAttempt_steps _ _ _ _ _ _ _ Hpage Hextract Hsave).
  cbn [Scraper.state]. apply Z.eqb_eq in Hfive. rewrite Hfive.
  set (w2 := {| Scraper.state := Scraper.commit ch (Scraper.committedTime env)
                                   (Scraper.state w);
                Scraper.disk := Scraper.disk w1;
                Scraper.browserRunning := Scraper.browserRunning w1 |}).
  pose proof (saveState_state config w2) as Hs.
  destruct (saveState_fails config w2 e Hfail) as (Herr & _ & Hfiles & _).
  destruct (Scraper.saveState config w2) as [[[]|e'] w3]; cbn [fst snd] in *;
    [discriminate Herr|].
  injection Herr as ->. rewrite Hs. cbn [w2 Scraper.state].
  split; [reflexivity|]. split; [reflexivity|]. split.
  - apply recorded_commit.
  - rewrite (Hfiles _ (chapterFilename_not_checkpoint config ch)).
    cbn [w2 Scraper.disk].
    unfold Scraper.saveChapterContent, Scraper.onDisk in Hsave.
    destruct (Utils.writeFile _ _ (Scraper.disk w)) as [r fs'] eqn:Hwrite.
    injection Hsave as -> <-. cbn [Scraper.disk]. rewrite Hinfo in Hwrite.
    apply (writeFile_ok _ _ _ _ Hwrite).
Qed.

Lemma scrapeAttempt_checkpoint_failure_witness :
  (Scraper.scrapeAttempt Samples.config (Samples.numbered 5) Samples.goodAttempt
     Samples.lockedCheckpointWorld).1 = Err "EACCES: permission denied" /\
  In "chapter-5"
     (Models.completedChapters
        (Scraper.state (Scraper.scrapeAttempt Samples.config (Samples.numbered 5)
                          Samples.goodAttempt Samples.lockedCheckpointWorld).2)).
Proof.
  edestruct (scrapeAttempt_checkpoint_failure Samples.config (Samples.numbered 5)
               Samples.goodAttempt Samples.lockedCheckpointWorld)
    as (Herr & _ & Hin & _).
  - reflexivity.
  - vm_compute. reflexivity.
  - vm_compute. reflexivity.
  - vm_compute. reflexivity.
  - right. split; [right; reflexivity | vm_compute; reflexivity].
  - split; [exact Herr | exact Hin].
Defined.

(** With a checkpoint that cannot be written the fifth chapter is reported
    as failed after its retries, and is in [completedChapters] all the same:
    a later run without [force] does not scrape it again. *)
Example scrapeChapters_failed_yet_completed :
  (fun r => (Scraper.results r.1.1,
             Models.completedChapters (Scraper.state r.2))) <$>
    Scraper.scrapeChapters Samples.oneRetry [Samples.numbered 5]
      [(0%nat, Samples.goodAttempt); (0%nat, Samples.goodAttempt)]
      (Utils.newProgressTracker 1) Samples.lockedCheckpointWorld
  = Some ([Scraper.Failure (Samples.numbered 5) "EACCES: permission denied"],
          ["chapter-1"; "chapter-2"; "chapter-3"; "chapter-4"; "chapter-5"]).
Proof. vm_compute. reflexivity. Qed.

(** ** loadState on what it finds *)

Section LoadState.
Import Js Utils Models Scraper.

Lemma lookupProp_assign (key : string) (x : value) (props : list (string * value)) :
  lookupProp key (assignProp key x props) = x.
Proof.
  induction props as [|[k y] props IH]; simpl; [rewrite String.eqb_refl; reflexivity|].
  destruct (String.eqb k key) eqn:Hk; simpl; rewrite Hk; [reflexivity | exact IH].
Qed.

Lemma lookupProp_assign_other (key other : string) (x : value)
    (props : list (string * value)) :
  other <> key ->
  lookupProp other (assignProp key x props) = lookupProp other props.
Proof.
  intros Hne. induction props as [|[k y] props IH]; simpl.
  - destruct (String.eqb_spec key other); [congruence | reflexivity].
  - destruct (String.eqb_spec k key) as [->|Hk]; simpl.
    + destruct (String.eqb_spec key other); [congruence | reflexivity].
    + destruct (String.eqb k other); [reflexivity | exact IH].
Qed.

Lemma lookupProp_revived_absent (key : string) (ms : list (string * json)) :
  ~ In key (List.map fst ms) ->
  lookupProp key (List.map (fun kv : string * json => (kv.1, revive kv.2)) ms) = VUndefined.
Proof.
  induction ms as [|[k j] ms IH]; [reflexivity|]. simpl. intros Hnot.
  destruct (String.eqb_spec k key); [tauto | apply IH; tauto].
Qed.

End LoadState.

(** X8: [loadState] starts from the initial state, and throws nothing, when
    resume is off, when there is no checkpoint file, when the file cannot be
    read, when its text is not JSON, and when the document is [null] or a
    number, a string or a boolean. *)
Theorem loadState_starts_fresh
    (config : Models.CrawlerConfig) (now : Z) (fs : Utils.FileSystem) :
  Models.resume config = false \/
  Utils.files fs !! Scraper.stateFile config = None \/
  Utils.readFault fs (Scraper.stateFile config) = true \/
  (exists s, Utils.files fs !! Scraper.stateFile config = Some (Js.Plain s)) \/
  Utils.files fs !! Scraper.stateFile config = Some (Js.Document Js.JNull) \/
  (exists n, Utils.files fs !! Scraper.stateFile config = Some (Js.Document (Js.JNum n))) \/
  (exists s, Utils.files fs !! Scraper.stateFile config = Some (Js.Document (Js.JStr s))) \/
  (exists b, Utils.files fs !! Scraper.stateFile config = Some (Js.Document (Js.JBool b))) ->
  Scraper.loadState config now fs = Scraper.Loaded (Scraper.initState config now).
Proof.
  unfold Scraper.loadState, Utils.fileExists, Utils.readFile.
  intros [H|[H|[H|[[s H]|[H|[[n H]|[[s H]|[b H]]]]]]]].
  - rewrite H. reflexivity.
  - rewrite H. rewrite bool_decide_eq_false_2 by (intros [x Hx]; discriminate).
    rewrite andb_false_r. reflexivity.
  - rewrite H. destruct (_ && _); reflexivity.
  - rewrite H. destruct (_ && _); [|reflexivity].
    destruct (Utils.readFault fs _); reflexivity.
  - rewrite H. destruct (_ && _); [|reflexivity].
    destruct (Utils.readFault fs _); reflexivity.
  - rewrite H. destruct (_ && _); [|reflexivity].
    destruct (Utils.readFault fs _); reflexivity.
  - rewrite H. destruct (_ && _); [|reflexivity].
    destruct (Utils.readFault fs _); reflexivity.
  - rewrite H. destruct (_ && _); [|reflexivity].
    destruct (Utils.readFault fs _); reflexivity.
Qed.

Lemma loadState_starts_fresh_witness :
  Scraper.loadState Samples.config 7 Samples.emptyDisk
  = Scraper.Loaded (Scraper.initState Samples.config 7).
Proof.
  apply (loadState_starts_fresh Samples.config 7 Samples.emptyDisk).
  right. left. reflexivity.
Defined.

(** X9: a checkpoint that is a JSON object without a [completedChapters]
    member is taken as it is, with an empty [completedChapters] added: it is
    never discarded for the initial state, what [loadState] leaves has an
    empty list of completed chapters, and without the added member the
    document would not have the shape of a state. *)
Theorem loadState_migrates_old_format
    (config : Models.CrawlerConfig) (now : Z) (fs : Utils.FileSystem)
    (ms : list (string * Js.json)) :
  Models.resume config = true ->
  Utils.readFault fs (Scraper.stateFile config) = false ->
  Utils.files fs !! Scraper.stateFile config = Some (Js.Document (Js.JObj ms)) ->
  ~ In "completedChapters" (List.map fst ms) ->
  let migrated :=
    Js.VObj (Js.assignProp "completedChapters" (Js.VArr [])
               (List.map (fun kv : string * Js.json => (kv.1, Js.revive kv.2)) ms)) in
  Scraper.stateOf (Js.revive (Js.JObj ms)) = None /\
  Scraper.loadState config now fs =
    match Scraper.stateOf migrated with
    | Some st => Scraper.Loaded st
    | None => Scraper.Unshaped migrated
    end /\
  (forall st, Scraper.loadState config now fs = Scraper.Loaded st ->
              Models.completedChapters st = [] /\
              Scraper.field Scraper.asString (Js.revive (Js.JObj ms)) "url"
                = Some (Models.stateUrl st) /\
              Scraper.field Scraper.asNumber (Js.revive (Js.JObj ms)) "lastCompletedIndex"
                = Some (Models.lastCompletedIndex st)).
Proof.
  intros Hresume Hread Hfile Habsent migrated.
  assert (Hundef : Js.lookupProp "completedChapters"
                     (List.map (fun kv : string * Js.json => (kv.1, Js.revive kv.2)) ms)
                   = Js.VUndefined) by (apply lookupProp_revived_absent; exact Habsent).
  assert (Hload : Scraper.loadState config now fs =
                  match Scraper.stateOf migrated with
                  | Some st => Scraper.Loaded st
                  | None => Scraper.Unshaped migrated
                  end).
  { unfold Scraper.loadState, Utils.fileExists, Utils.readFile.
    rewrite Hresume, Hread, Hfile. rewrite bool_decide_eq_true_2 by eauto.
    cbn [andb Js.JSON_parse bind Js.revive].
    unfold Scraper.migrate. cbn [Js.getProp bind]. rewrite Hundef.
    cbn [Js.truthy]. reflexivity. }
  split; [|split].
  - unfold Scraper.stateOf. cbn [Js.revive Scraper.field]. rewrite Hundef.
    destruct (Scraper.asString _); [|reflexivity]. cbn [mbind option_bind].
    destruct (Scraper.asNullable _ _); [|reflexivity]. cbn [mbind option_bind].
    destruct (Scraper.asArray Scraper.chapterOf _); [|reflexivity]. cbn [mbind option_bind].
    destruct (Scraper.asNumber _); reflexivity.
  - exact Hload.
  - intros st. rewrite Hload.
    destruct (Scraper.stateOf migrated) as [st'|] eqn:Hst; [|discriminate].
    intros [= ->]. revert Hst. unfold Scraper.stateOf, migrated.
    cbn [Scraper.field Js.revive].
    rewrite lookupProp_assign.
    rewrite !lookupProp_assign_other by discriminate.
    destruct (Scraper.asString _) as [u|]; [|discriminate]. cbn [mbind option_bind].
    destruct (Scraper.asNullable _ _) as [m|]; [|discriminate]. cbn [mbind option_bind].
    destruct (Scraper.asArray Scraper.chapterOf _) as [cs|]; [|discriminate].
    cbn [mbind option_bind].
    destruct (Scraper.asNumber _) as [n|]; [|discriminate]. cbn [mbind option_bind].
    cbn [Scraper.asArray mapM]. cbn [mbind option_bind].
    destruct (Scraper.asTimestamp _) as [t|]; [|discriminate]. cbn [mbind option_bind].
    intros [= <-]. cbn. auto.
Qed.

Lemma loadState_migrates_old_format_witness :
  Scraper.loadState Samples.config 7 Samples.oldCheckpointDisk
  = Scraper.Loaded
      {| Models.stateUrl := Models.configUrl Samples.config;
         Models.metadata := None;
         Models.chapters := [];
         Models.lastCompletedIndex := 0;
         Models.completedChapters := [];
         Models.lastUpdated := Models.DateString "2023-11-14T22:13:20.000Z" |}.
Proof.
  destruct (loadState_migrates_old_format Samples.config 7 Samples.oldCheckpointDisk
              [ ("url", Js.JStr (Models.configUrl Samples.config));
                ("metadata", Js.JNull);
                ("chapters", Js.JArr []);
                ("lastCompletedIndex", Js.JNum 0);
                ("lastUpdated", Js.JStr "2023-11-14T22:13:20.000Z") ])
    as (_ & Hload & _).
  - reflexivity.
  - reflexivity.
  - vm_compute. reflexivity.
  - simpl. intuition discriminate.
  - rewrite Hload. vm_compute. reflexivity.
Defined.

(** ** The indexes parseRange gives *)

Section RangeIndexes.
Import Js Utils.

Lemma digitValue_nonneg (c : ascii) (d : Z) : digitValue c = Some d -> 0 <= d.
Proof.
  unfold digitValue. cbv zeta.
  destruct ((48 <=? _) && _) eqn:H1; [intros [= Hd]; lia|].
  destruct ((97 <=? _) && _) eqn:H2; [intros [= Hd]; lia|].
  destruct ((65 <=? _) && _) eqn:H3; [intros [= Hd]; lia | discriminate].
Qed.

Lemma parseDigits_nonneg (radix : Z) (s : string) (acc : option Z) (n : Z) :
  0 < radix ->
  (forall a, acc = Some a -> 0 <= a) ->
  parseDigits radix s acc = Some n -> 0 <= n.
Proof.
  intros Hradix. revert acc. induction s as [|c s IH]; intros acc Hacc; simpl.
  - intros H. apply Hacc. exact H.
  - destruct (digitValue c) as [d|] eqn:Hd; [|apply Hacc].
    destruct (d <? radix); [|apply Hacc].
    apply IH. intros a [= <-].
    pose proof (digitValue_nonneg _ _ Hd).
    destruct acc as [a0|]; simpl; [pose proof (Hacc a0 eq_refl); nia | lia].
Qed.

Lemma includes_trimStart (c : ascii) (s : string) :
  includes c s = false -> includes c (trimStart s) = false.
Proof.
  induction s as [|d s IH]; [reflexivity|]. intros H. simpl.
  destruct (isWhiteSpace d); [|exact H].
  simpl in H. apply orb_false_iff in H as [_ H]. apply IH. exact H.
Qed.

(** The radix that the prefix of the digits gives. *)
Lemma parseInt_radix (s2 : string) :
  0 < (match s2 with
       | String "0"%char (String "x"%char r) => (16, r)
       | String "0"%char (String "X"%char r) => (16, r)
       | _ => (10, s2)
       end).1.
Proof.
  destruct s2 as [|c r]; [simpl; lia|].
  destruct c as [[] [] [] [] [] [] [] []]; try (simpl; lia).
  destruct r as [|c' r]; [simpl; lia|].
  destruct c' as [[] [] [] [] [] [] [] []]; simpl; lia.
Qed.

Lemma parseInt_nonneg (s : string) (n : Z) :
  includes "-" s = false -> parseInt s = Some n -> 0 <= n.
Proof.
  intros Hdash. apply includes_trimStart in Hdash.
  unfold parseInt. cbv zeta.
  assert (Hsign : forall M : Z * string,
             0 < M.1 ->
             (let '(radix, s3) := M in Z.mul 1 <$> parseDigits radix s3 None) = Some n ->
             0 <= n).
  { intros [radix s3] Hradix. simpl in Hradix.
    destruct (parseDigits radix s3 None) as [m|] eqn:Hm; [|discriminate].
    intros [= <-].
    assert (0 <= m) by (apply (parseDigits_nonneg radix s3 None); [lia | discriminate | exact Hm]).
    lia. }
  destruct (trimStart s) as [|c r].
  - simpl. discriminate.
  - assert (Hnot : c <> "-"%char).
    { intros ->. simpl in Hdash. discriminate. }
    destruct c as [[] [] [] [] [] [] [] []];
      try (exfalso; apply Hnot; reflexivity);
      intros H;
      first [ exact (Hsign (10, _) ltac:(simpl; lia) H)
            | exact (Hsign _ (parseInt_radix r) H)
            | exact (Hsign _ (parseInt_radix (String "0" r)) H) ].
Qed.

Lemma split_pieces (sep : ascii) (s piece : string) :
  In piece (split sep s) -> includes sep piece = false.
Proof.
  revert piece. induction s as [|c s IH]; intros piece; simpl.
  - intros [<-|[]]. reflexivity.
  - destruct (Ascii.eqb c sep) eqn:Hc.
    + intros [<-|H]; [reflexivity | apply IH; exact H].
    + destruct (split sep s) as [|p ps] eqn:Hs.
      * intros [<-|[]]. simpl. rewrite ascii_eqb_comm, Hc. reflexivity.
      * intros [<-|H].
        -- simpl. rewrite ascii_eqb_comm, Hc. apply IH. left. reflexivity.
        -- apply IH. right. exact H.
Qed.

Lemma rangeIndexes_bounds (token : string) (total k : Z) :
  In k (rangeIndexes token total) -> 1 <= k <= total.
Proof.
  unfold rangeIndexes. destruct (includes "-" token).
  - destruct (split "-" token) as [|startStr [|endStr rest]] eqn:Hsplit;
      [intros [] | intros [] |].
    assert (Hstart : includes "-" startStr = false)
      by (apply (split_pieces "-" token); rewrite Hsplit; left; reflexivity).
    cbv zeta.
    destruct (mathMin _ (Some total)) as [last|] eqn:Hmin; [|intros []].
    intros Hin. apply in_fromTo in Hin.
    assert (Hlast : last <= total).
    { unfold mathMin in Hmin.
      destruct (if truthyString endStr then _ else _); [|discriminate].
      injection Hmin as <-. lia. }
    destruct (parseInt startStr) as [n|] eqn:Hn; [|lia].
    pose proof (parseInt_nonneg _ _ Hstart Hn).
    destruct (n =? 0) eqn:Hz; [lia|]. apply Z.eqb_neq in Hz. lia.
  - destruct (parseInt token) as [num|]; [|intros []].
    destruct (_ && _) eqn:H; [|intros []].
    apply andb_true_iff in H as [H1 H2]. apply Z.ltb_lt in H1. apply Z.leb_le in H2.
    intros [<-|[]]. lia.
Qed.

(** *** The set and the sort *)

Lemma in_setAdd (set : list Z) (x k : Z) : In k (setAdd set x) <-> In k set \/ k = x.
Proof.
  unfold setAdd. destruct (existsb (Z.eqb x) set) eqn:H.
  - apply includes_number in H. split; [tauto|]. intros [Hk | ->]; assumption.
  - rewrite in_app_iff. simpl. intuition.
Qed.

Lemma setAdd_distinct (set : list Z) (x : Z) :
  List.NoDup set -> List.NoDup (setAdd set x).
Proof.
  intros H. unfold setAdd. destruct (existsb (Z.eqb x) set) eqn:Hx; [assumption|].
  apply List.NoDup_app; [assumption | repeat constructor; simpl; tauto |].
  intros y Hy [Heq|[]]. subst y.
  assert (existsb (Z.eqb x) set = true) by (apply includes_number; exact Hy).
  congruence.
Qed.

Lemma in_addAll (l set : list Z) (k : Z) :
  In k (fold_left setAdd l set) <-> In k set \/ In k l.
Proof.
  revert set. induction l as [|x l IH]; intros set; simpl; [tauto|].
  rewrite IH, in_setAdd. intuition.
Qed.

Lemma addAll_distinct (l set : list Z) :
  List.NoDup set -> List.NoDup (fold_left setAdd l set).
Proof.
  revert set. induction l as [|x l IH]; intros set H; simpl; [assumption|].
  apply IH. apply setAdd_distinct. exact H.
Qed.

Lemma in_tokens (f : string -> list Z) (ranges : list string) (set : list Z) (k : Z) :
  In k (fold_left (fun set range => fold_left setAdd (f range) set) ranges set) <->
  In k set \/ exists range, In range ranges /\ In k (f range).
Proof.
  revert set. induction ranges as [|r ranges IH]; intros set; simpl.
  - split; [tauto|]. intros [H|(r & [] & _)]. exact H.
  - rewrite IH, in_addAll. split.
    + intros [[H|H]|(r' & Hr & Hk)]; eauto.
    + intros [H|(r' & [<-|Hr] & Hk)]; eauto.
Qed.

Lemma tokens_distinct (f : string -> list Z) (ranges : list string) (set : list Z) :
  List.NoDup set ->
  List.NoDup (fold_left (fun set range => fold_left setAdd (f range) set) ranges set).
Proof.
  revert set. induction ranges as [|r ranges IH]; intros set H; simpl; [assumption|].
  apply IH. apply addAll_distinct. exact H.
Qed.

Lemma in_insertSorted (x k : Z) (l : list Z) : In k (insertSorted x l) <-> k = x \/ In k l.
Proof.
  induction l as [|y l IH]; simpl; [intuition|].
  destruct (x <=? y); simpl; [intuition|]. rewrite IH. intuition.
Qed.

Lemma in_sortNumeric (k : Z) (l : list Z) : In k (sortNumeric l) <-> In k l.
Proof.
  induction l as [|x l IH]; simpl; [tauto|].
  rewrite in_insertSorted, IH. intuition.
Qed.

Lemma insertSorted_ascending (x : Z) (l : list Z) :
  StronglySorted Z.lt l -> ~ In x l -> StronglySorted Z.lt (insertSorted x l).
Proof.
  induction l as [|y l IH]; intros Hs Hx; simpl.
  - repeat constructor.
  - apply StronglySorted_inv in Hs as [Hs Hy].
    destruct (x <=? y) eqn:Hxy.
    + apply Z.leb_le in Hxy. assert (x < y) by (simpl in Hx; lia).
      constructor; [constructor; assumption|].
      constructor; [assumption|].
      rewrite List.Forall_forall in *. intros z Hz. specialize (Hy z Hz). lia.
    + apply Z.leb_gt in Hxy. constructor.
      * apply IH; [assumption | simpl in Hx; tauto].
      * rewrite List.Forall_forall in *. intros z Hz.
        apply in_insertSorted in Hz as [->|Hz]; [lia | apply Hy; exact Hz].
Qed.

Lemma sortNumeric_ascending (l : list Z) :
  List.NoDup l -> StronglySorted Z.lt (sortNumeric l).
Proof.
  induction 1 as [|x l Hx _ IH]; simpl; [constructor|].
  apply insertSorted_ascending; [exact IH|].
  rewrite in_sortNumeric. exact Hx.
Qed.

Lemma fromTo_ascending (a b : Z) : StronglySorted Z.lt (fromTo a b).
Proof.
  unfold fromTo. generalize (Z.to_nat (b - a + 1)) as n. generalize 0%nat as start.
  intros start n. revert start. induction n as [|n IH]; intros start; simpl.
  - constructor.
  - constructor; [apply IH|].
    rewrite List.Forall_forall. intros z Hz.
    apply in_map_iff in Hz as (k & <- & Hk). apply in_seq in Hk. lia.
Qed.

Lemma parseRange_tokens (rangeStr : string) (total : Z) :
  truthyString rangeStr = true -> rangeStr <> "all" ->
  parseRange rangeStr total =
    sortNumeric
      (fold_left (fun set range => fold_left setAdd (rangeIndexes range total) set)
                 (List.map trim (split "," rangeStr)) []).
Proof.
  intros Ht Hall. unfold parseRange. rewrite Ht.
  destruct (String.eqb_spec rangeStr "all"); [contradiction | reflexivity].
Qed.

Lemma parseRange_bounds (rangeStr : string) (total k : Z) :
  In k (parseRange rangeStr total) -> 1 <= k <= total.
Proof.
  unfold parseRange. destruct (_ || _).
  - apply in_fromTo.
  - cbv zeta. rewrite in_sortNumeric, in_tokens.
    intros [[]|(range & _ & Hk)]. exact (rangeIndexes_bounds _ _ _ Hk).
Qed.

End RangeIndexes.

(** X10: whatever the range string, [parseRange] returns indexes between 1
    and [totalChapters], in strictly ascending order (so none twice). *)
Theorem parseRange_ascending_in_bounds (rangeStr : string) (totalChapters : Z) :
  StronglySorted Z.lt (Utils.parseRange rangeStr totalChapters) /\
  (forall k, In k (Utils.parseRange rangeStr totalChapters) -> 1 <= k <= totalChapters).
Proof.
  split; [|intros k; apply parseRange_bounds].
  unfold Utils.parseRange. destruct (_ || _).
  - apply fromTo_ascending.
  - cbv zeta. apply sortNumeric_ascending, tokens_distinct. constructor.
Qed.

(** X11: for a range string other than the empty one and ["all"], an index
    is returned by [parseRange] exactly when one of the comma-separated
    tokens, trimmed, adds it: the result is the union of the tokens, whatever
    their order or repetition, and a token that adds nothing (or fails to
    parse) takes nothing away from the others. *)
Theorem parseRange_union_of_tokens (rangeStr : string) (totalChapters k : Z) :
  Js.truthyString rangeStr = true ->
  rangeStr <> "all" ->
  (In k (Utils.parseRange rangeStr totalChapters) <->
   exists token, In token (Js.split "," rangeStr) /\
                 In k (Utils.rangeIndexes (Js.trim token) totalChapters)).
Proof.
  intros Ht Hall. rewrite (parseRange_tokens _ _ Ht Hall), in_sortNumeric, in_tokens.
  split.
  - intros [[]|(range & Hr & Hk)]. apply in_map_iff in Hr as (token & <- & Htoken). eauto.
  - intros (token & Htoken & Hk). right. exists (Js.trim token).
    split; [apply in_map; exact Htoken | exact Hk].
Qed.

Lemma parseRange_union_of_tokens_witness :
  In 7 (Utils.parseRange "abc, 7 ,9-" 10).
Proof.
  apply (parseRange_union_of_tokens "abc, 7 ,9-" 10 7); [reflexivity | discriminate |].
  exists " 7 ". split; [vm_compute; tauto | vm_compute; tauto].
Defined.

(** X12: [getChaptersToScrape] returns only chapters of the listing whose
    index lies between 1 and the number of listed chapters, with or without
    a range: a chapter whose own number is greater than the length of the
    listing is never scraped. *)
Theorem getChaptersToScrape_index_in_listing
    (config : Models.CrawlerConfig) (st : Models.CrawlerState) (c : Models.ChapterInfo) :
  In c (Scraper.getChaptersToScrape config st) ->
  In c (Models.chapters st) /\
  1 <= Models.index c <= Z.of_nat (length (Models.chapters st)).
Proof.
  intros H. apply getChaptersToScrape_spec in H as (Hin & Htarget & _).
  split; [exact Hin|].
  unfold Scraper.targetIndexes in Htarget. cbv zeta in Htarget.
  destruct (Models.range config) as [rangeStr|].
  - destruct (Js.truthyString rangeStr).
    + exact (parseRange_bounds _ _ _ Htarget).
    + apply in_fromTo in Htarget. exact Htarget.
  - apply in_fromTo in Htarget. exact Htarget.
Qed.

Lemma getChaptersToScrape_index_in_listing_witness :
  1 <= Models.index (Samples.numbered 2)
    <= Z.of_nat (length (Models.chapters Samples.resumed)).
Proof.
  apply (getChaptersToScrape_index_in_listing Samples.oneRetry Samples.resumed
           (Samples.numbered 2)).
  vm_compute. tauto.
Defined.

(** A listing whose chapters carry the numbers 101 to 103 in their
    addresses: nothing is selected. *)
Example getChaptersToScrape_numbers_beyond_listing :
  Scraper.getChaptersToScrape Samples.config
    {| Models.stateUrl := Models.configUrl Samples.config;
       Models.metadata := None;
       Models.chapters := List.map Samples.numbered [101; 102; 103];
       Models.lastCompletedIndex := 0;
       Models.completedChapters := [];
       Models.lastUpdated := Models.DateObject 0 |} = [].
Proof. vm_compute. reflexivity. Qed.

(** ** When the wait for an idle network resolves *)

Section IdleWindow.
Import Browser.

Lemma ordered_in (from : Z) (events : list event) (u : Z) (k : eventKind) :
  ordered from events -> In (u, k) events -> from <= u.
Proof.
  revert from. induction events as [|[t0 k0] events IH]; intros from; simpl; [tauto|].
  intros [Hle Hrest] [[= -> ->]|Hin]; [exact Hle|].
  specialize (IH _ Hrest Hin). lia.
Qed.

Lemma fire_resolved (timeout : Z) (idle : idleTimer) (t : Z) :
  fire timeout idle = Resolved t ->
  t <= timeout /\ exists first, idle = Armed t first.
Proof.
  unfold fire. destruct idle as [|d first]; [discriminate|].
  destruct ((d <? timeout) || (first && (d =? timeout))) eqn:H; [|discriminate].
  intros [= <-]. split; [|eauto].
  apply orb_true_iff in H as [H|H]; [apply Z.ltb_lt in H; lia|].
  apply andb_true_iff in H as [_ H]. apply Z.eqb_eq in H. lia.
Qed.

(** The wait resolves at the deadline of the timer it holds, every event
    left being later, or [idleTime] after a response that no event follows
    before that time. *)
Lemma settle_resolved (timeout idleTime : Z) (events : list event) :
  forall (from : Z) (idle : idleTimer) (t : Z),
    ordered from events ->
    settle timeout idleTime idle events = Resolved t ->
    t <= timeout /\
    (((exists first, idle = Armed t first) /\
      (forall u k, In (u, k) events -> t <= u)) \/
     (exists r, In (r, Response) events /\ t = r + idleTime /\
                forall u k, In (u, k) events -> u <= r \/ t <= u)).
Proof.
  induction events as [|[u kind] events IH]; intros from idle t Hord; simpl.
  - intros H. destruct (fire_resolved _ _ _ H) as [Hle Harmed].
    split; [exact Hle|]. left. split; [exact Harmed | tauto].
  - destruct Hord as [Hfrom Hord].
    destruct (due timeout idle u) eqn:Hdue.
    + intros H. destruct (fire_resolved _ _ _ H) as [Hle [first ->]].
      split; [exact Hle|]. left. split; [eauto|].
      assert (Htu : t <= u).
      { unfold due in Hdue. apply orb_true_iff in Hdue as [Hd|Hd];
          [apply Z.leb_le in Hd; lia | apply Z.leb_le in Hd; exact Hd]. }
      intros v k [[= <- <-]|Hin]; [exact Htu|].
      pose proof (ordered_in _ _ _ _ Hord Hin). lia.
    + intros H.
      assert (Hnext : exists idle', settle timeout idleTime idle' events = Resolved t /\
                                    (idle' = Cleared \/
                                     (kind = Response /\ idle' = Armed (u + idleTime) false))).
      { destruct kind; eexists; (split; [exact H|]); [left | right]; auto. }
      destruct Hnext as (idle' & Hsettle & Hidle').
      destruct (IH u idle' t Hord Hsettle) as [Hle [[[first Harmed] Hlater]|Hresp]].
      * split; [exact Hle|]. right.
        destruct Hidle' as [->|[-> ->]]; [discriminate|].
        injection Harmed as <- _. exists u.
        split; [left; reflexivity|]. split; [reflexivity|].
        intros v k [[= <- <-]|Hin]; [left; lia | right; eapply Hlater; exact Hin].
      * split; [exact Hle|]. right.
        destruct Hresp as (r & Hin & -> & Hwindow). exists r.
        split; [right; exact Hin|]. split; [reflexivity|].
        intros v k [[= <- <-]|Hv]; [|eapply Hwindow; exact Hv].
        left. exact (ordered_in _ _ _ _ Hord Hin).
Qed.

(** On a busy network the overall timer fires first. *)
Lemma settle_busy (timeout idleTime : Z) (before : list event) (t : Z) (kind : eventKind) :
  timeout <= t + idleTime ->
  forall (from : Z) (idle : idleTimer),
    (idle = Cleared \/ exists first, idle = Armed (from + idleTime) first) ->
    busy from idleTime (before ++ [(t, kind)]) ->
    settle timeout idleTime idle (before ++ [(t, kind)])
    = Rejected timeout "Network idle timeout".
Proof.
  intros Hlast.
  assert (Hdue : forall from idle u,
             (idle = Cleared \/ exists first, idle = Armed (from + idleTime) first) ->
             u < from + idleTime ->
             due timeout idle u = true ->
             fire timeout idle = Rejected timeout "Network idle timeout").
  { intros from idle u [->|[first ->]] Hu; [reflexivity|].
    unfold due, fire. intros Hd.
    apply orb_true_iff in Hd as [Hd|Hd]; apply Z.leb_le in Hd; [|lia].
    replace (from + idleTime <? timeout) with false by (symmetry; apply Z.ltb_ge; lia).
    replace (from + idleTime =? timeout) with false by (symmetry; apply Z.eqb_neq; lia).
    rewrite andb_false_r. reflexivity. }
  assert (Hend : forall idle',
             (idle' = Cleared \/ idle' = Armed (t + idleTime) false) ->
             fire timeout idle' = Rejected timeout "Network idle timeout").
  { intros idle' [->| ->]; [reflexivity|]. unfold fire.
    replace (t + idleTime <? timeout) with false by (symmetry; apply Z.ltb_ge; lia).
    reflexivity. }
  induction before as [|[u k] before IH]; intros from idle Hidle; simpl.
  - intros [Ht _].
    destruct (due timeout idle t) eqn:Hd; [exact (Hdue _ _ _ Hidle Ht Hd)|].
    destruct kind; [reflexivity|].
    exact (Hend (Armed (t + idleTime) false) (or_intror eq_refl)).
  - intros [Hu Hrest].
    destruct (due timeout idle u) eqn:Hd; [exact (Hdue _ _ _ Hidle Hu Hd)|].
    destruct k; apply (IH u); eauto.
Qed.

End IdleWindow.

(** X13: when [waitForNetworkIdle], called with a positive [idleTime],
    resolves, at the time [t], then [t] is at least [idleTime] and at most
    [timeout], no network event of the page
    fell within the [idleTime] before [t], and [t] is [idleTime] after the
    call or after a response. *)
Theorem waitForNetworkIdle_resolves_after_silence
    (events : list Browser.event) (timeout idleTime t : Z) :
  0 < idleTime ->
  Browser.ordered 0 events ->
  Browser.waitForNetworkIdle events timeout idleTime = Browser.Resolved t ->
  idleTime <= t <= timeout /\
  (forall u kind, In (u, kind) events -> u < t -> u + idleTime <= t) /\
  (t = idleTime \/ In (t - idleTime, Browser.Response) events).
Proof.
  intros Hidle Hord Hwait. unfold Browser.waitForNetworkIdle in Hwait.
  destruct (settle_resolved _ _ _ _ _ _ Hord Hwait)
    as [Hle [[[first Harmed] Hlater]|(r & Hin & -> & Hwindow)]].
  - injection Harmed as <- _. split; [lia|]. split; [|left; reflexivity].
    intros u kind Hu Hlt. specialize (Hlater _ _ Hu). lia.
  - pose proof (ordered_in _ _ _ _ Hord Hin) as Hr. split; [lia|]. split.
    + intros u kind Hu Hlt. destruct (Hwindow _ _ Hu); lia.
    + right. replace (r + idleTime - idleTime) with r by lia. exact Hin.
Qed.

Lemma waitForNetworkIdle_resolves_after_silence_witness :
  500 <= 840 <= 30000 /\
  (forall u kind, In (u, kind) (Adapter.network Samples.quietPage) -> u < 840 ->
                  u + 500 <= 840).
Proof.
  destruct (waitForNetworkIdle_resolves_after_silence
              (Adapter.network Samples.quietPage) 30000 500 840) as (Hbounds & Hwindow & _).
  - lia.
  - simpl. lia.
  - reflexivity.
  - split; assumption.
Defined.

(** X14: when every network event comes less than [idleTime] after the one
    before it (the first, after the call) and the last one comes at
    [timeout - idleTime] or later, [waitForNetworkIdle] is rejected with
    [Network idle timeout], at [timeout]: a page that keeps its network busy
    never counts as loaded. *)
Theorem waitForNetworkIdle_busy_network
    (before : list Browser.event) (t : Z) (kind : Browser.eventKind)
    (timeout idleTime : Z) :
  Browser.busy 0 idleTime (before ++ [(t, kind)]) ->
  timeout <= t + idleTime ->
  Browser.waitForNetworkIdle (before ++ [(t, kind)]) timeout idleTime
  = Browser.Rejected timeout "Network idle timeout".
Proof.
  intros Hbusy Hlast. unfold Browser.waitForNetworkIdle.
  apply (settle_busy _ _ _ _ _ Hlast 0); [right; eauto | exact Hbusy].
Qed.

Lemma waitForNetworkIdle_busy_network_witness :
  Browser.waitForNetworkIdle
    (List.map (fun k => (400 * Z.of_nat k, Browser.Response)) (seq 1 79)
     ++ [(32000, Browser.Response)]) 30000 500
  = Browser.Rejected 30000 "Network idle timeout".
Proof.
  apply (waitForNetworkIdle_busy_network
           (List.map (fun k => (400 * Z.of_nat k, Browser.Response)) (seq 1 79))
           32000 Browser.Response 30000 500).
  - vm_compute. repeat split.
  - lia.
Defined.

(** ** safeGoto *)

(** X15: [safeGoto] calls [page.goto] at most three times, one turn after
    the other.  It returns the response of the first turn whose response is
    there and ok, having slept 1000 ms times its number after each failed
    turn before; when the three turns fail it throws the error of the third
    turn (a response that is not ok counts as a failed turn), and has slept
    1000 and 2000 ms, nothing after the third. *)
Theorem safeGoto_turns (goto : nat -> result (option Browser.HttpResponse)) :
  match Browser.safeGoto goto [] with
  | (Ok response, slept) =>
      exists i : nat,
        (i < 3)%nat /\
        Browser.checkedGoto (goto i) = Ok response /\
        Browser.ok response = true /\
        (forall j : nat, (j < i)%nat -> isOk (Browser.checkedGoto (goto j)) = false) /\
        slept = List.map (fun k => 1000 * (Z.of_nat k + 1)) (seq 0 i)
  | (Err e, slept) =>
      Browser.checkedGoto (goto 2%nat) = Err e /\
      (forall j : nat, (j < 3)%nat -> isOk (Browser.checkedGoto (goto j)) = false) /\
      slept = [1000; 2000]
  end.
Proof.
  assert (Hok : forall n response,
             Browser.checkedGoto n = Ok response -> Browser.ok response = true).
  { intros [[r|]|e] response; simpl; try discriminate.
    destruct (Browser.ok r) eqn:Hr; [|discriminate]. intros [= <-]. exact Hr. }
  unfold Browser.safeGoto. simpl.
  destruct (Browser.checkedGoto (goto 0%nat)) as [r0|e0] eqn:H0.
  { exists 0%nat. repeat split; [lia | exact H0 | exact (Hok _ _ H0) | intros j Hj; lia]. }
  destruct (Browser.checkedGoto (goto 1%nat)) as [r1|e1] eqn:H1.
  { exists 1%nat. repeat split; [lia | exact H1 | exact (Hok _ _ H1) |].
    intros j Hj. assert (j = 0%nat) as -> by lia. rewrite H0. reflexivity. }
  destruct (Browser.checkedGoto (goto 2%nat)) as [r2|e2] eqn:H2.
  { exists 2%nat. repeat split; [lia | exact H2 | exact (Hok _ _ H2) |].
    intros j Hj. assert (j = 0 \/ j = 1)%nat as [-> | ->] by lia;
      [rewrite H0 | rewrite H1]; reflexivity. }
  repeat split.
  intros j Hj. assert (j = 0 \/ j = 1 \/ j = 2)%nat as [-> | [-> | ->]] by lia;
    [rewrite H0 | rewrite H1 | rewrite H2]; reflexivity.
Qed.

(** ** scrape *)

Example scrape_first_run :
  (fun out => (Models.completedChapters <$>
                 match Scraper.returned out with Ok st => Some st | Err _ => None end,
               Scraper.browserOpen out)) <$>
    Scraper.scrape Samples.config Samples.firstRun Samples.emptyDisk
  = Some (Some ["chapter-1"; "chapter-2"; "chapter-3"; "chapter-4"; "chapter-5"], false).
Proof. vm_compute. reflexivity. Qed.

Example scrape_unavailable :
  (fun out => (Scraper.returned out, Scraper.browserOpen out)) <$>
    Scraper.scrape Samples.config Samples.unavailableRun Samples.emptyDisk
  = Some (Err "HTTP 503 Service Unavailable", false).
Proof. vm_compute. reflexivity. Qed.

Section ScrapeFacts.
Import Js Utils Models Scraper.

Lemma saveState_files_other (config : CrawlerConfig) (w : World) (p : path) :
  p <> stateFile config ->
  files (disk (saveState config w).2) !! p = files (disk w) !! p.
Proof.
  intros Hp. rewrite saveState_writeFile. unfold onDisk.
  destruct (writeFile _ _ (disk w)) as [r fs'] eqn:Hwrite. cbn [snd disk].
  exact (writeFile_other _ _ _ _ _ _ Hwrite Hp).
Qed.

Lemma saveState_browser (config : CrawlerConfig) (w : World) :
  browserRunning (saveState config w).2 = browserRunning w.
Proof.
  rewrite saveState_writeFile. unfold onDisk.
  destruct (writeFile _ _ (disk w)) as [r fs']. reflexivity.
Qed.

Lemma cleanup_saved (config : CrawlerConfig) (w w1 : World) :
  saveState config w = (Ok tt, w1) ->
  cleanup config w =
    (Ok tt, {| state := state w1; disk := disk w1; browserRunning := false |}).
Proof. intros H. unfold cleanup, iobind. rewrite H. reflexivity. Qed.

Lemma cleanup_inversion (config : CrawlerConfig) (w : World) :
  (cleanup config w).1 = Ok tt -> (saveState config w).1 = Ok tt.
Proof.
  unfold cleanup, iobind. destruct (saveState config w) as [[[]|e] w1]; simpl;
    [reflexivity | discriminate].
Qed.

Lemma cleanup_files_other (config : CrawlerConfig) (w : World) (p : path) :
  p <> stateFile config ->
  files (disk (cleanup config w).2) !! p = files (disk w) !! p.
Proof.
  intros Hp. pose proof (saveState_files_other config w p Hp) as H.
  unfold cleanup, iobind. destruct (saveState config w) as [[[]|e] w1]; exact H.
Qed.

Lemma extractMetadata_files_other (config : CrawlerConfig) (env : Phase) (w : World)
    (p : path) :
  p <> stateFile config ->
  files (disk (Scraper.extractMetadata config env w).2) !! p = files (disk w) !! p.
Proof.
  intros Hp. unfold Scraper.extractMetadata, iobind, liftResult.
  destruct (phasePage env) as [page|e]; [|reflexivity].
  destruct (Browser.safeGoto (navigation env) []).1 as [response|e]; [|reflexivity].
  destruct (Adapter.extractMetadata page (configUrl config)) as [found|e]; [|reflexivity].
  unfold setState, modify.
  rewrite saveState_files_other by exact Hp. reflexivity.
Qed.

(** What the [try] block returns is the state it leaves. *)
Lemma scrapeLoaded_returns_state (config : CrawlerConfig) (env : Run) (w0 w : World)
    (st : CrawlerState) :
  scrapeLoaded config env w0 = Some (Ok st, w) -> st = state w.
Proof.
  unfold scrapeLoaded.
  destruct (prepare config env w0) as [[[|c chs]|e] w1]; [| |discriminate].
  - intros [= <- <-]. reflexivity.
  - destruct (scrapeChapters _ _ _ _ _) as [[[summary tracker] w2]|]; [|discriminate].
    intros [= <- <-]. reflexivity.
Qed.

Lemma scrape_inversion (config : CrawlerConfig) (env : Run) (fs : FileSystem)
    (out : Outcome) (st : CrawlerState) :
  scrape config env fs = Some out ->
  returned out = Ok st ->
  exists st0 w w1,
    loadState config (startedAt env) fs = Loaded st0 /\
    scrapeLoaded config env {| state := st0; disk := fs; browserRunning := true |}
      = Some (Ok st, w) /\
    saveState config w = (Ok tt, w1) /\
    finalDisk out = disk w1 /\
    browserOpen out = false.
Proof.
  unfold scrape.
  destruct (browserStarted env) as [[]|e]; [|intros [= <-]; discriminate].
  destruct (loadState config (startedAt env) fs) as [st0|v]; [|discriminate].
  destruct (scrapeLoaded config env _) as [[r w]|] eqn:Hbody; [|discriminate].
  unfold cleanup, iobind.
  destruct (saveState config w) as [[[]|e] w1] eqn:Hsave; cbn.
  - intros [= <-]. cbn. intros ->. exists st0, w, w1. auto.
  - intros [= <-]. discriminate.
Qed.

End ScrapeFacts.

(** X16: when [scrape] returns a state, the checkpoint it leaves on the
    disk is the one of that state, written by [cleanup] in the [finally]:
    with resume enabled and the file readable, [loadState] gives the returned
    state back, [lastUpdated] being its ISO string; and the browser is
    closed. *)
Theorem scrape_leaves_checkpoint_of_returned_state
    (config : Models.CrawlerConfig) (env : Scraper.Run) (fs : Utils.FileSystem)
    (out : Scraper.Outcome) (st : Models.CrawlerState) (now : Z) :
  Scraper.scrape config env fs = Some out ->
  Scraper.returned out = Ok st ->
  Models.resume config = true ->
  Utils.readFault (Scraper.finalDisk out) (Scraper.stateFile config) = false ->
  Scraper.loadState config now (Scraper.finalDisk out)
    = Scraper.Loaded (Scraper.asStored st) /\
  Scraper.browserOpen out = false.
Proof.
  intros Hscrape Hreturned Hresume Hread.
  destruct (scrape_inversion _ _ _ _ _ Hscrape Hreturned)
    as (st0 & w & w1 & _ & Hbody & Hsave & Hdisk & Hbrowser).
  split; [|exact Hbrowser].
  rewrite Hdisk in *. rewrite (scrapeLoaded_returns_state _ _ _ _ _ Hbody).
  exact (loadState_saved _ _ _ now Hresume Hsave Hread).
Qed.

Lemma scrape_leaves_checkpoint_of_returned_state_witness :
  exists out st,
    Scraper.scrape Samples.config Samples.firstRun Samples.emptyDisk = Some out /\
    Scraper.returned out = Ok st /\
    Scraper.loadState Samples.config 1700000009999 (Scraper.finalDisk out)
      = Scraper.Loaded (Scraper.asStored st).
Proof.
  destruct (Scraper.scrape Samples.config Samples.firstRun Samples.emptyDisk)
    as [out|] eqn:Hscrape; [|vm_compute in Hscrape; discriminate].
  destruct (Scraper.returned out) as [st|e] eqn:Hreturned.
  - exists out, st. split; [reflexivity|]. split; [exact Hreturned|].
    refine (proj1 (scrape_leaves_checkpoint_of_returned_state Samples.config
                     Samples.firstRun Samples.emptyDisk out st 1700000009999
                     Hscrape Hreturned eq_refl _)).
    assert (H : (fun o => Utils.readFault (Scraper.finalDisk o)
                                          (Scraper.stateFile Samples.config))
                  <$> Scraper.scrape Samples.config Samples.firstRun Samples.emptyDisk
                = Some false)
      by (vm_compute; reflexivity).
    rewrite Hscrape in H. cbn in H. injection H as H. exact H.
  - exfalso.
    assert (H : isOk <$> (Scraper.returned
                            <$> Scraper.scrape Samples.config Samples.firstRun
                                  Samples.emptyDisk) = Some true)
      by (vm_compute; reflexivity).
    rewrite Hscrape in H. cbn in H. rewrite Hreturned in H. discriminate H.
Defined.

(** X17: when the checkpoint cannot be written at the end, [scrape] throws
    the error of that write whatever its [try] block returned or threw, since
    [cleanup] runs in the [finally] and saves the state before it closes the
    browser; the browser is left as it was, and the files other than the
    checkpoint are those the [try] block left. *)
Theorem scrape_cleanup_failure_replaces_result
    (config : Models.CrawlerConfig) (env : Scraper.Run) (fs : Utils.FileSystem)
    (st0 : Models.CrawlerState) (r : result Models.CrawlerState) (w : Scraper.World)
    (e : string) :
  Scraper.browserStarted env = Ok tt ->
  Scraper.loadState config (Scraper.startedAt env) fs = Scraper.Loaded st0 ->
  Scraper.scrapeLoaded config env
    {| Scraper.state := st0; Scraper.disk := fs; Scraper.browserRunning := true |}
    = Some (r, w) ->
  Utils.writeFails (Scraper.disk w) (Scraper.stateFile config) e ->
  exists out,
    Scraper.scrape config env fs = Some out /\
    Scraper.returned out = Err e /\
    Scraper.browserOpen out = Scraper.browserRunning w /\
    (forall p, p <> Scraper.stateFile config ->
       Utils.files (Scraper.finalDisk out) !! p = Utils.files (Scraper.disk w) !! p).
Proof.
  intros Hstart Hload Hbody Hfail.
  unfold Scraper.scrape. rewrite Hstart, Hload, Hbody.
  destruct (saveState_fails config w e Hfail) as (Herr & Hbrowser & Hfiles & _).
  unfold Scraper.cleanup, iobind.
  destruct (Scraper.saveState config w) as [[[]|e'] w1]; cbn [fst snd] in *;
    [discriminate Herr|].
  injection Herr as ->. eexists. split; [reflexivity|]. cbn. auto.
Qed.

Lemma scrape_cleanup_failure_replaces_result_witness :
  exists out,
    Scraper.scrape Samples.config Samples.unavailableRun Samples.readOnlyDisk = Some out /\
    Scraper.returned out = Err "EACCES: permission denied" /\
    Scraper.browserOpen out = true.
Proof.
  edestruct (scrape_cleanup_failure_replaces_result Samples.config Samples.unavailableRun
               Samples.readOnlyDisk) as (out & Hscrape & Hreturned & Hbrowser & _).
  - reflexivity.
  - vm_compute. reflexivity.
  - vm_compute. reflexivity.
  - right. split; [left; vm_compute; reflexivity | reflexivity].
  - exists out. split; [exact Hscrape|]. split; [exact Hreturned | exact Hbrowser].
Defined.

(** X18: when the loaded state has its metadata and a chapter list that is
    not empty, [scrape] runs neither the metadata nor the listing phase:
    whatever the novel page would give or throw, it ends the same. *)
Theorem scrape_resumed_skips_extraction
    (config : Models.CrawlerConfig) (env env' : Scraper.Run) (fs : Utils.FileSystem)
    (st : Models.CrawlerState) :
  Scraper.loadState config (Scraper.startedAt env) fs = Scraper.Loaded st ->
  Models.metadata st <> None ->
  Models.chapters st <> [] ->
  Scraper.browserStarted env' = Scraper.browserStarted env ->
  Scraper.startedAt env' = Scraper.startedAt env ->
  Scraper.attempts env' = Scraper.attempts env ->
  Scraper.scrape config env' fs = Scraper.scrape config env fs.
Proof.
  intros Hload Hmeta Hchs Hstart Hat Hattempts.
  unfold Scraper.scrape. rewrite Hstart, Hat, Hload.
  destruct (Scraper.browserStarted env) as [[]|e]; [|reflexivity].
  assert (Hprepare : forall run,
             Scraper.prepare config run
               {| Scraper.state := st; Scraper.disk := fs; Scraper.browserRunning := true |}
             = (Ok (Scraper.getChaptersToScrape config st),
                {| Scraper.state := st; Scraper.disk := fs;
                   Scraper.browserRunning := true |})).
  { intros run. unfold Scraper.prepare, iobind, gets, ret. cbn [Scraper.state].
    destruct (Models.metadata st) as [m|]; [|contradiction].
    cbn [Scraper.state].
    destruct (Models.chapters st) as [|c chs] eqn:Hc; [contradiction|].
    reflexivity. }
  unfold Scraper.scrapeLoaded. rewrite !Hprepare, Hattempts. reflexivity.
Qed.

Lemma scrape_resumed_skips_extraction_witness :
  Scraper.scrape Samples.config
    {| Scraper.browserStarted := Ok tt;
       Scraper.startedAt := 1700000000000;
       Scraper.metadataPhase := Samples.unavailablePhase;
       Scraper.listingPhase := Samples.unavailablePhase;
       Scraper.attempts := Scraper.attempts Samples.firstRun |}
    (Scraper.disk (Scraper.saveState Samples.config Samples.fourDoneWorld).2)
  = Scraper.scrape Samples.config Samples.firstRun
      (Scraper.disk (Scraper.saveState Samples.config Samples.fourDoneWorld).2).
Proof.
  apply (scrape_resumed_skips_extraction Samples.config Samples.firstRun _ _
           Samples.fourDone).
  - vm_compute. reflexivity.
  - discriminate.
  - discriminate.
  - reflexivity.
  - reflexivity.
  - reflexivity.
Defined.

(** X19: when the metadata phase fails (the page cannot be created, the
    three navigations fail, the extraction throws or its checkpoint cannot
    be written), [scrape] throws, without listing the chapters or attempting
    any: what it ends with does not depend on the listing page or on the
    attempts, and no file other than the checkpoint is written. *)
Theorem scrape_metadata_failure
    (config : Models.CrawlerConfig) (env : Scraper.Run) (fs : Utils.FileSystem)
    (st : Models.CrawlerState) (e : string) :
  Scraper.browserStarted env = Ok tt ->
  Scraper.loadState config (Scraper.startedAt env) fs = Scraper.Loaded st ->
  Models.metadata st = None ->
  (Scraper.extractMetadata config (Scraper.metadataPhase env)
     {| Scraper.state := st; Scraper.disk := fs; Scraper.browserRunning := true |}).1
    = Err e ->
  exists out,
    Scraper.scrape config env fs = Some out /\
    isOk (Scraper.returned out) = false /\
    (forall p, p <> Scraper.stateFile config ->
               Utils.files (Scraper.finalDisk out) !! p = Utils.files fs !! p) /\
    (forall listing attempts,
        Scraper.scrape config
          {| Scraper.browserStarted := Scraper.browserStarted env;
             Scraper.startedAt := Scraper.startedAt env;
             Scraper.metadataPhase := Scraper.metadataPhase env;
             Scraper.listingPhase := listing;
             Scraper.attempts := attempts |} fs = Some out).
Proof.
  intros Hstart Hload Hmeta Hfail.
  set (w0 := {| Scraper.state := st; Scraper.disk := fs; Scraper.browserRunning := true |})
    in *.
  assert (Hprepare : forall run,
             Scraper.metadataPhase run = Scraper.metadataPhase env ->
             Scraper.prepare config run w0
             = (Err e, (Scraper.extractMetadata config (Scraper.metadataPhase env) w0).2)).
  { intros run Hrun. unfold Scraper.prepare, iobind, gets. cbn [Scraper.state w0].
    rewrite Hmeta, Hrun. fold w0.
    destruct (Scraper.extractMetadata config (Scraper.metadataPhase env) w0)
      as [[[]|e'] w1]; cbn [fst snd] in *; [discriminate Hfail|].
    injection Hfail as ->. reflexivity. }
  set (w1 := (Scraper.extractMetadata config (Scraper.metadataPhase env) w0).2) in *.
  assert (Hscrape : forall run,
             Scraper.browserStarted run = Scraper.browserStarted env ->
             Scraper.startedAt run = Scraper.startedAt env ->
             Scraper.metadataPhase run = Scraper.metadataPhase env ->
             Scraper.scrape config run fs =
               Some {| Scraper.returned :=
                         match (Scraper.cleanup config w1).1 with
                         | Ok _ => Err e
                         | Err e' => Err e'
                         end;
                       Scraper.finalDisk := Scraper.disk (Scraper.cleanup config w1).2;
                       Scraper.browserOpen :=
                         Scraper.browserRunning (Scraper.cleanup config w1).2 |}).
  { intros run H1 H2 H3. unfold Scraper.scrape. rewrite H1, H2, Hstart, Hload.
    fold w0. unfold Scraper.scrapeLoaded. rewrite (Hprepare run H3).
    destruct (Scraper.cleanup config w1) as [cleaned w2]. reflexivity. }
  eexists. split; [apply Hscrape; reflexivity|]. split; [|split].
  - cbn. destruct (Scraper.cleanup config w1).1; reflexivity.
  - intros p Hp. cbn. rewrite cleanup_files_other by exact Hp.
    unfold w1. rewrite extractMetadata_files_other by exact Hp. reflexivity.
  - intros listing attempts. apply Hscrape; reflexivity.
Qed.

Lemma scrape_metadata_failure_witness :
  exists out,
    Scraper.scrape Samples.config Samples.unavailableRun Samples.emptyDisk = Some out /\
    isOk (Scraper.returned out) = false /\
    Scraper.scrape Samples.config
      {| Scraper.browserStarted := Ok tt;
         Scraper.startedAt := 1700000000000;
         Scraper.metadataPhase := Samples.unavailablePhase;
         Scraper.listingPhase := Samples.novelPhase;
         Scraper.attempts := Scraper.attempts Samples.firstRun |} Samples.emptyDisk
    = Some out.
Proof.
  edestruct (scrape_metadata_failure Samples.config Samples.unavailableRun
               Samples.emptyDisk) as (out & Hscrape & Hfailed & _ & Hsame).
  - reflexivity.
  - vm_compute. reflexivity.
  - reflexivity.
  - vm_compute. reflexivity.
  - exists out. split; [exact Hscrape|]. split; [exact Hfailed|].
    exact (Hsame Samples.novelPhase (Scraper.attempts Samples.firstRun)).
Defined.

(** X20: when the listing phase of the scraper succeeds, the state holds a
    chapter list that is not empty, each chapter with an id, a title and an
    address that are not empty, and the [totalChapters] of its metadata is
    the number of listed chapters, whatever the metadata page had said;
    [completedChapters] and [lastCompletedIndex] are as before. *)
Theorem extractChapterList_sets_total
    (config : Models.CrawlerConfig) (env : Scraper.Phase) (w : Scraper.World) :
  (Scraper.extractChapterList config env w).1 = Ok tt ->
  let st' := Scraper.state (Scraper.extractChapterList config env w).2 in
  Models.chapters st' <> [] /\
  List.Forall (fun ch => Models.id ch <> "" /\ Models.title ch <> "" /\ Models.url ch <> "")
              (Models.chapters st') /\
  (exists m, Models.metadata st' = Some m /\
             Models.totalChapters m = Z.of_nat (length (Models.chapters st'))) /\
  Models.completedChapters st' = Models.completedChapters (Scraper.state w) /\
  Models.lastCompletedIndex st' = Models.lastCompletedIndex (Scraper.state w).
Proof.
  unfold Scraper.extractChapterList, iobind, liftResult.
  destruct (Scraper.phasePage env) as [page|e]; [|discriminate].
  destruct (Browser.safeGoto (Scraper.navigation env) []).1 as [response|e];
    [|discriminate].
  destruct (Adapter.extractChapterList page (Models.configUrl config)) as [listed|e] eqn:Hl;
    [|discriminate].
  unfold Scraper.setState, modify, gets. cbn [Scraper.state Scraper.withChapters Models.metadata].
  destruct (Models.metadata (Scraper.state w)) as [m|]; [|discriminate].
  match goal with |- context [Scraper.saveState config ?w2] =>
    pose proof (saveState_state config w2) as Hs;
    destruct (Scraper.saveState config w2) as [[[]|e] w3]
  end; [|discriminate].
  intros _. cbn [snd] in *. rewrite Hs. cbn.
  assert (Hvalid : Adapter.validateChapters listed = true).
  { unfold Adapter.extractChapterList, Adapter.rethrow in Hl.
    destruct (Browser.safeWaitForLoadState (Adapter.network page)); [|discriminate].
    cbn [bind] in Hl.
    destruct (Adapter.chaptersOnPage page) as [chs|e]; [|discriminate].
    cbn [bind] in Hl.
    destruct (Adapter.validateChapters chs) eqn:Hv; [|discriminate].
    injection Hl as <-. exact Hv. }
  unfold Adapter.validateChapters in Hvalid.
  apply andb_true_iff in Hvalid as [Hlen Hall]. apply Z.ltb_lt in Hlen.
  split; [intros ->; simpl in Hlen; lia|]. split; [|split; [eauto | auto]].
  rewrite forallb_forall in Hall. apply List.Forall_forall. intros ch Hin.
  specialize (Hall ch Hin).
  apply andb_true_iff in Hall as [Hall Hu]. apply andb_true_iff in Hall as [Hi Ht].
  repeat split; intros Hempty; rewrite Hempty in *; discriminate.
Qed.

Lemma extractChapterList_sets_total_witness :
  exists m,
    Models.metadata
      (Scraper.state (Scraper.extractChapterList Samples.config Samples.novelPhase
                        Samples.fourDoneWorld).2) = Some m /\
    Models.totalChapters m = 5.
Proof.
  destruct (extractChapterList_sets_total Samples.config Samples.novelPhase
              Samples.fourDoneWorld) as (_ & _ & (m & Hm & Htotal) & _).
  - vm_compute. reflexivity.
  - exists m. split; [exact Hm|]. rewrite Htotal.
    assert (H : Z.of_nat (length (Models.chapters
                  (Scraper.state (Scraper.extractChapterList Samples.config
                                    Samples.novelPhase Samples.fourDoneWorld).2))) = 5)
      by (vm_compute; reflexivity).
    exact H.
Defined.

(** ** The content container, case by case *)

Section ContainerCases.
Import Js Models Adapter.

Lemma selectContainer_some (querySelector : Dom) (selectors : list string)
    (current : option Element) (el : Element) :
  selectContainer querySelector selectors current = Some el ->
  (selectors = [] /\ current = Some el) \/
  (exists selector, In selector selectors /\ querySelector selector = Some el /\
                    (longEnough el = true \/ selector = List.last selectors "")).
Proof.
  revert current. induction selectors as [|s selectors IH]; intros current; simpl.
  - intros H. left. auto.
  - intros H. right.
    destruct (querySelector s) as [e|] eqn:Hs.
    + destruct (longEnough e) eqn:Hlong.
      * injection H as <-. exists s. auto.
      * destruct (IH _ H) as [[-> Hcur]|(s' & Hin & Hq & Hlast)].
        -- injection Hcur as <-. exists s. auto.
        -- exists s'. split; [right; exact Hin|]. split; [exact Hq|].
           destruct Hlast as [Hl|Hl]; [left; exact Hl|]. right.
           destruct selectors; [destruct Hin | exact Hl].
    + destruct (IH _ H) as [[-> Hcur]|(s' & Hin & Hq & Hlast)]; [discriminate|].
      exists s'. split; [right; exact Hin|]. split; [exact Hq|].
      destruct Hlast as [Hl|Hl]; [left; exact Hl|]. right.
      destruct selectors; [destruct Hin | exact Hl].
Qed.

Lemma selectContainer_nothing (querySelector : Dom) (selectors : list string)
    (current : option Element) :
  selectContainer querySelector selectors current = None ->
  allShort querySelector selectors /\
  (selectors = [] \/ querySelector (List.last selectors "") = None).
Proof.
  revert current. induction selectors as [|s selectors IH]; intros current; simpl.
  - intros _. split; [intros s e []|left; reflexivity].
  - destruct (querySelector s) as [e|] eqn:Hs.
    + destruct (longEnough e) eqn:Hlong; [discriminate|].
      intros H. destruct (IH _ H) as [Hshort Hlast]. split.
      * intros s' e' [<-|Hin] Hq; [congruence | exact (Hshort _ _ Hin Hq)].
      * right. destruct Hlast as [->|Hl]; [simpl in H; discriminate|].
        destruct selectors; [simpl in H; discriminate | exact Hl].
    + intros H. destruct (IH _ H) as [Hshort Hlast]. split.
      * intros s' e' [<-|Hin] Hq; [congruence | exact (Hshort _ _ Hin Hq)].
      * right. destruct Hlast as [->|Hl]; [exact Hs|].
        destruct selectors; [exact Hs | exact Hl].
Qed.

End ContainerCases.

(** X21: what [extractChapterContent] returns is the content of an
    element of the loaded page that one of the content selectors matched,
    under the chapter's own info; what it throws carries the prefix of the
    extraction.  When [page.goto] throws, it throws that error with the
    prefix; when the page is loaded and the in-page script finds no
    candidate with enough text and nothing under the last selector, it
    throws [Content container not found] with the prefix. *)
Theorem extractChapterContent_outcomes
    (page : Adapter.Page) (chapterInfo : Models.ChapterInfo) (now : Z) :
  (forall c, Adapter.extractChapterContent page chapterInfo now = Ok c ->
     exists document selector el,
       Adapter.goto page (Models.url chapterInfo) = Ok document /\
       In selector Adapter.contentSelectors /\
       document selector = Some el /\
       Models.info c = chapterInfo /\
       Models.content c = Adapter.cleanedHTML el /\
       Models.images c = Adapter.imageUrls el) /\
  (forall e, Adapter.extractChapterContent page chapterInfo now = Err e ->
     exists cause, e = "Content extraction failed: " ++ cause) /\
  (forall cause, Adapter.goto page (Models.url chapterInfo) = Err cause ->
     Adapter.extractChapterContent page chapterInfo now
     = Err ("Content extraction failed: " ++ cause)) /\
  (forall document,
     Adapter.goto page (Models.url chapterInfo) = Ok document ->
     Adapter.allShort document Adapter.contentSelectors ->
     document Adapter.anyContentClass = None ->
     Adapter.extractChapterContent page chapterInfo now
     = Err "Content extraction failed: Content container not found").
Proof.
  unfold Adapter.extractChapterContent, Adapter.rethrow.
  destruct (Adapter.goto page (Models.url chapterInfo)) as [document|cause0].
  - cbn [bind].
    destruct (Adapter.selectContainer document Adapter.contentSelectors None) as [el|] eqn:Hsel;
      cbn [bind Adapter.validateContent].
    + destruct (selectContainer_some _ _ _ _ Hsel) as [[Hnil _]|(s & Hin & Hq & Hlast)];
        [discriminate Hnil|].
      split; [|split; [discriminate|split; [discriminate|]]].
      * intros c [= <-]. exists document, s, el. repeat split; assumption.
      * intros document' [= <-] Hshort Hnone. exfalso.
        destruct Hlast as [Hlong|Hlast].
        -- rewrite (Hshort _ _ Hin Hq) in Hlong. discriminate Hlong.
        -- change (List.last Adapter.contentSelectors "") with Adapter.anyContentClass
             in Hlast.
           rewrite Hlast, Hnone in Hq. discriminate Hq.
    + split; [discriminate|]. split; [|split; [discriminate|]].
      * intros e [= <-]. exists "Content container not found". reflexivity.
      * intros. reflexivity.
  - cbn [bind]. split; [discriminate|]. split; [|split; [|discriminate]].
    + intros e [= <-]. eauto.
    + intros cause [= <-]. reflexivity.
Qed.

(** ** retryWithBackoff *)

Section Retrying.
Import Utils.

Context {W A : Type} (fn : nat -> io W A) (count : W -> nat).
Hypothesis counted : forall k w, count (fn k w).2 = S (count w).

Lemma retryFrom_attempts (retries fuel attemptNumber : nat) (w : W) :
  (count w + 1 <= count (retryFrom fn retries fuel attemptNumber w).2
   <= count w + S fuel)%nat.
Proof.
  revert attemptNumber w. induction fuel as [|fuel IH]; intros n w; simpl.
  - pose proof (counted n w) as Hc.
    destruct (fn n w) as [r w'] eqn:Hf. simpl in Hc.
    destruct (afterAttempt retries n r); simpl; lia.
  - pose proof (counted n w) as Hc.
    destruct (fn n w) as [r w'] eqn:Hf. simpl in Hc.
    destruct (afterAttempt retries n r) as [next|r']; simpl; [|lia].
    specialize (IH next w'). lia.
Qed.

End Retrying.

(** X22: [retryWithBackoff] calls the function at least once and at most
    [retries + 1] times, counted by any counter that each call raises by
    one; and a first call that returns is the only one: its value is the
    result. *)
Theorem retryWithBackoff_attempts {W A : Type}
    (fn : nat -> io W A) (retries : nat) (count : W -> nat) (w : W) :
  (forall k w, count (fn k w).2 = S (count w)) ->
  (count w + 1 <= count (Utils.retryWithBackoff fn retries w).2 <= count w + retries + 1)%nat /\
  (isOk (fn 1%nat w).1 = true -> Utils.retryWithBackoff fn retries w = fn 1%nat w).
Proof.
  intros Hcounted. unfold Utils.retryWithBackoff. split.
  - pose proof (retryFrom_attempts fn count Hcounted retries retries 1 w). lia.
  - intros Hok. destruct retries as [|retries]; simpl;
      destruct (fn 1%nat w) as [[a|e] w']; simpl in *; congruence.
Qed.

Lemma retryWithBackoff_attempts_witness :
  (1 <= (Utils.retryWithBackoff (A := unit)
           (fun attemptNumber calls =>
              (if (attemptNumber <? 3)%nat then Err "Navigation timeout" else Ok tt,
               S calls)) 3 0%nat).2 <= 4)%nat.
Proof.
  destruct (retryWithBackoff_attempts (W := nat) (A := unit)
              (fun attemptNumber calls =>
                 (if (attemptNumber <? 3)%nat then Err "Navigation timeout" else Ok tt,
                  S calls)) 3
              (fun calls => calls) 0%nat) as [Hbounds _].
  - reflexivity.
  - exact Hbounds.
Defined.

(** ** createLogger *)

(** X23: a logger made by [createLogger] with the level ['error'] is the
    logger of the level ['info'], since [levels.error] is 0 and
    [levels[level] || levels.info] takes the default for it; and with every
    level that is not the name of a property all objects inherit, or with
    none, the methods [error] and [warn] write their message: no level turns
    the warnings off, and [debug] writes only with the level ['debug']. *)
Theorem createLogger_levels (level : option string) (method : string) :
  Utils.logs (Some "error") method = Utils.logs (Some "info") method /\
  (match level with Some name => Utils.inheritedProperty name = false | None => True end ->
   Utils.logs level "error" = true /\
   Utils.logs level "warn" = true /\
   (Utils.logs level "debug" = true <-> level = Some "debug")).
Proof.
  split; [reflexivity|].
  destruct level as [name|]; [|intros _; repeat split; discriminate].
  intros Hown. unfold Utils.logs, Utils.currentLevel. rewrite Hown.
  unfold Utils.levels. cbn [Utils.levelOf].
  destruct (String.eqb_spec "error" name) as [<-|He];
    [repeat split; discriminate|].
  destruct (String.eqb_spec "warn" name) as [<-|Hw];
    [repeat split; discriminate|].
  destruct (String.eqb_spec "info" name) as [<-|Hi];
    [repeat split; discriminate|].
  destruct (String.eqb_spec "debug" name) as [<-|Hd];
    [repeat split; reflexivity|].
  repeat split; try reflexivity; try discriminate.
  intros [= H]. congruence.
Qed.

Lemma createLogger_levels_witness :
  Utils.logs (Some "error") "info" = true /\ Utils.logs (Some "silent") "warn" = true.
Proof.
  split.
  - destruct (createLogger_levels None "info") as [H _]. rewrite H. reflexivity.
  - destruct (createLogger_levels (Some "silent") "warn") as [_ H].
    destruct H as (_ & Hwarn & _); [reflexivity | exact Hwarn].
Defined.

(** A level named as a property that every object has turns every method
    off. *)
Example createLogger_inherited_level :
  List.map (Utils.logs (Some "constructor")) ["error"; "warn"; "info"; "debug"]
  = [false; false; false; false].
Proof. reflexivity. Qed.

(** ** parseFrontmatter on what createChapterMarkdown writes *)

Example parseFrontmatter_of_chapter :
  let parsed :=
    Output.parseFrontmatter
      (Scraper.createChapterMarkdown (Samples.numbered 2) "Some text."
         {| Models.wordCount := 2; Models.extractedAt := "2023-11-14T22:13:20.000Z" |}) in
  (parsed.1 !! "title", parsed.1 !! "chapter", parsed.1 !! "word_count", parsed.2)
  = (Some "Chapter 2", Some "2", Some "2",
     "# Chapter 2" ++ Js.newline ++ Js.newline ++ "Some text.").
Proof. vm_compute. reflexivity. Qed.

Section Frontmatter.
Import Js Utils Models Scraper Output.

Lemma string_app_nil (s : string) : (s ++ "")%string = s.
Proof.
  induction s as [|c s IH]; [reflexivity|].
  change (String c (s ++ "") = String c s). rewrite IH. reflexivity.
Qed.

Lemma string_app_cons (c : ascii) (s t : string) :
  (String c s ++ t)%string = String c (s ++ t).
Proof. reflexivity. Qed.

Lemma includes_app (c : ascii) (a b : string) :
  includes c (a ++ b) = includes c a || includes c b.
Proof.
  induction a as [|d a IH]; [reflexivity|].
  rewrite string_app_cons. simpl. rewrite IH. apply orb_assoc.
Qed.

(** *** The digits of a number hold no line feed *)

Lemma digitChar_not_newline (d : Z) :
  0 <= d < 10 -> Ascii.eqb "010" (digitChar d) = false.
Proof.
  intros H.
  assert (d = 0 \/ d = 1 \/ d = 2 \/ d = 3 \/ d = 4 \/ d = 5 \/ d = 6 \/ d = 7 \/
          d = 8 \/ d = 9) as Hd by lia.
  repeat (destruct Hd as [->|Hd]; [reflexivity|]). subst d. reflexivity.
Qed.

Lemma digitsOf_no_newline (fuel : nat) (n : Z) (acc : string) :
  includes "010" acc = false -> includes "010" (digitsOf fuel n acc) = false.
Proof.
  revert n acc. induction fuel as [|fuel IH]; intros n acc Hacc; simpl; [exact Hacc|].
  assert (Hnext : includes "010" (String (digitChar (n mod 10)) acc) = false).
  { cbn [includes]. rewrite digitChar_not_newline by (apply Z.mod_pos_bound; lia).
    exact Hacc. }
  destruct (n <? 10); [exact Hnext | apply IH; exact Hnext].
Qed.

Lemma numberToString_no_newline (n : Z) : includes "010" (numberToString n) = false.
Proof.
  unfold numberToString. destruct (n <? 0).
  - cbn [includes]. change (Ascii.eqb "010" "-") with false. cbn [orb].
    apply digitsOf_no_newline. reflexivity.
  - apply digitsOf_no_newline. reflexivity.
Qed.

(** *** Finding the closing mark *)

Lemma stripPrefix_app (prefix s : string) : stripPrefix prefix (prefix ++ s) = Some s.
Proof.
  induction prefix as [|c prefix IH]; [destruct s; reflexivity|].
  rewrite string_app_cons. simpl. rewrite Ascii.eqb_refl. exact IH.
Qed.

Lemma cut_cons (sep : string) (c : ascii) (rest : string) :
  stripPrefix sep (String c rest) = None ->
  cut sep (String c rest) =
    match cut sep rest with
    | Some (before, after) => Some (String c before, after)
    | None => None
    end.
Proof. intros H. simpl. simpl in H. rewrite H. reflexivity. Qed.

Lemma cut_found (sep s : string) : cut sep (sep ++ s) = Some ("", s).
Proof.
  pose proof (stripPrefix_app sep s) as H.
  destruct (sep ++ s)%string as [|c rest]; simpl; simpl in H; rewrite H; reflexivity.
Qed.

Lemma cut_within_line (line s : string) :
  includes "010" line = false ->
  cut closing (line ++ s) =
    match cut closing s with
    | Some (before, after) => Some ((line ++ before)%string, after)
    | None => None
    end.
Proof.
  induction line as [|c line IH]; intros Hline.
  - change ("" ++ s)%string with s. destruct (cut closing s) as [[before after]|]; reflexivity.
  - simpl in Hline. apply orb_false_iff in Hline as [Hc Hline].
    rewrite string_app_cons, cut_cons.
    + rewrite (IH Hline). destruct (cut closing s) as [[before after]|]; reflexivity.
    + unfold closing, newline. simpl. rewrite Hc. reflexivity.
Qed.

(** A line of the frontmatter: no line feed in it, and a first character
    that is not a dash. *)
Lemma cut_lines (lines : list string) (tail : string) :
  lines <> [] ->
  List.Forall (fun line => includes "010" line = false /\
                           exists c rest, line = String c rest /\ Ascii.eqb "-" c = false)
              lines ->
  cut closing (String.concat newline lines ++ closing ++ tail)
  = Some (String.concat newline lines, tail).
Proof.
  induction lines as [|line lines IH]; [congruence|]. intros _ Hall.
  apply Forall_cons_iff in Hall as [[Hline _] Hrest].
  destruct lines as [|next lines].
  - cbn [String.concat]. rewrite (cut_within_line _ _ Hline), cut_found, string_app_nil.
    reflexivity.
  - change (String.concat newline (line :: next :: lines))
      with (line ++ newline ++ String.concat newline (next :: lines))%string.
    rewrite !string_app_assoc. rewrite (cut_within_line _ _ Hline).
    assert (Hnext : exists c rest, (String.concat newline (next :: lines)
                                    ++ closing ++ tail)%string = String c rest /\
                                   Ascii.eqb "-" c = false).
    { pose proof Hrest as Hn. apply Forall_cons_iff in Hn as [[_ (c & rest & -> & Hc)] _].
      destruct lines; cbn [String.concat]; rewrite ?string_app_cons; eauto. }
    destruct Hnext as (c & rest & Heq & Hc).
    change (newline ++ String.concat newline (next :: lines) ++ closing ++ tail)%string
      with (String "010" (String.concat newline (next :: lines) ++ closing ++ tail)).
    rewrite cut_cons.
    + rewrite IH by (congruence || exact Hrest). reflexivity.
    + rewrite Heq.
      change closing
        with (String "010" (String "-" (String "-" (String "-" (String "010" ""))))).
      cbn [stripPrefix]. rewrite Ascii.eqb_refl, Hc. reflexivity.
Qed.

Lemma split_lines (lines : list string) :
  lines <> [] ->
  List.Forall (fun line => includes "010" line = false) lines ->
  split "010" (String.concat newline lines) = lines.
Proof.
  induction lines as [|line lines IH]; [congruence|]. intros _ Hall.
  apply Forall_cons_iff in Hall as [Hline Hrest].
  destruct lines as [|next lines].
  - cbn [String.concat]. apply split_without_separator. exact Hline.
  - change (String.concat newline (line :: next :: lines))
      with (line ++ String "010" (String.concat newline (next :: lines)))%string.
    rewrite (split_at_separator _ _ _ Hline), IH by (congruence || exact Hrest).
    reflexivity.
Qed.

(** *** A line, read *)

Lemma indexOf_app (c : ascii) (key rest : string) :
  includes c key = false ->
  indexOf c (key ++ String c rest) = Some (String.length key).
Proof.
  induction key as [|d key IH]; intros H.
  - simpl. rewrite Ascii.eqb_refl. reflexivity.
  - simpl in H. apply orb_false_iff in H as [Hd Hkey].
    rewrite string_app_cons. simpl. rewrite ascii_eqb_comm, Hd, (IH Hkey). reflexivity.
Qed.

Lemma substringTo_app (key rest : string) : substringTo (String.length key) (key ++ rest) = key.
Proof.
  induction key as [|d key IH]; [destruct rest; reflexivity|].
  rewrite string_app_cons. simpl. rewrite IH. reflexivity.
Qed.

Lemma substringFrom_app (key rest : string) (c : ascii) :
  substringFrom (S (String.length key)) (key ++ String c rest) = rest.
Proof.
  induction key as [|d key IH]; [reflexivity|].
  rewrite string_app_cons. simpl. exact IH.
Qed.

Lemma parseLine_key (frontmatter : gmap string string) (key rest : string) :
  includes ":" key = false ->
  key <> "" ->
  trim key = key ->
  key <> "__proto__" ->
  parseLine frontmatter (key ++ String ":" rest)
  = <[ key := stripQuotes (trim rest) ]> frontmatter.
Proof.
  intros Hcolon Hne Htrim Hproto. unfold parseLine.
  rewrite (indexOf_app _ _ _ Hcolon).
  destruct key as [|d key]; [congruence|].
  change (0 <? String.length (String d key))%nat with true. cbv iota zeta.
  rewrite substringTo_app, substringFrom_app, Htrim.
  destruct (String.eqb_spec (String d key) "__proto__"); [contradiction | reflexivity].
Qed.

Lemma trimEnd_kept (s : string) (c : ascii) :
  isWhiteSpace c = false -> trimEnd (s ++ String c "") = (s ++ String c "")%string.
Proof.
  intros Hc. induction s as [|d s IH].
  - simpl. rewrite Hc. reflexivity.
  - rewrite string_app_cons. simpl. rewrite IH.
    destruct s; reflexivity.
Qed.

Lemma dropEndQuote_app (s : string) (c : ascii) :
  isQuote c = true -> dropEndQuote (s ++ String c "") = s.
Proof.
  intros Hc. induction s as [|d s IH].
  - simpl. rewrite Hc. reflexivity.
  - rewrite string_app_cons. simpl. rewrite IH. destruct s; reflexivity.
Qed.

Lemma quoted_value (value : string) :
  stripQuotes (trim (" " ++ quote ++ value ++ quote)) = value.
Proof.
  unfold trim, quote.
  change (trimStart (" " ++ String (ascii_of_nat 34) "" ++ value
                     ++ String (ascii_of_nat 34) ""))
    with (String (ascii_of_nat 34) value ++ String (ascii_of_nat 34) "")%string.
  rewrite trimEnd_kept by reflexivity.
  rewrite string_app_cons. cbn [stripQuotes]. change (isQuote (ascii_of_nat 34)) with true.
  cbv iota. apply dropEndQuote_app. reflexivity.
Qed.

Lemma concat_last (lines : list string) (last : string) :
  lines <> [] ->
  String.concat newline (lines ++ [last])
  = (String.concat newline lines ++ newline ++ last)%string.
Proof.
  induction lines as [|line lines IH]; [congruence|]. intros _.
  destruct lines as [|next lines]; [reflexivity|].
  change (String.concat newline ((line :: next :: lines) ++ [last]))
    with (line ++ newline ++ String.concat newline ((next :: lines) ++ [last]))%string.
  rewrite IH by congruence.
  change (String.concat newline (line :: next :: lines))
    with (line ++ newline ++ String.concat newline (next :: lines))%string.
  rewrite !string_app_assoc. reflexivity.
Qed.

Lemma concat_between_marks (lines : list string) (tail : string) :
  lines <> [] ->
  (String.concat newline ("---" :: lines ++ ["---"]) ++ newline ++ tail)%string
  = (opening ++ String.concat newline lines ++ closing ++ tail)%string.
Proof.
  intros Hne.
  assert (Hcons : String.concat newline ("---" :: lines ++ ["---"])
                  = ("---" ++ newline ++ String.concat newline (lines ++ ["---"]))%string).
  { destruct lines as [|line lines]; [congruence | reflexivity]. }
  rewrite Hcons, (concat_last _ _ Hne). unfold opening, closing.
  rewrite !string_app_assoc. reflexivity.
Qed.

(** The optional lines change no key but their own. *)
Lemma parseLine_other (frontmatter : gmap string string) (key rest other : string) :
  includes ":" key = false -> key <> "" -> trim key = key -> key <> "__proto__" ->
  other <> key ->
  parseLine frontmatter (key ++ String ":" rest) !! other = frontmatter !! other.
Proof.
  intros H1 H2 H3 H4 Hother. rewrite parseLine_key by assumption.
  apply lookup_insert_ne. congruence.
Qed.

End Frontmatter.

(** X24: the markdown file that [createChapterMarkdown] makes for a chapter
    whose title, id and address hold no line feed (nor does the extraction
    time) is read back by [parseFrontmatter]: the frontmatter gives the
    title, the id and the address as they were, quotes taken off, and the
    markdown is the heading with the title, an empty line and the content. *)
Theorem parseFrontmatter_reads_chapter
    (info : Models.ChapterInfo) (content : string) (metadata : Models.ContentMetadata) :
  Js.includes "010" (Models.title info) = false ->
  Js.includes "010" (Models.id info) = false ->
  Js.includes "010" (Models.url info) = false ->
  Js.includes "010" (Models.extractedAt metadata) = false ->
  let parsed :=
    Output.parseFrontmatter (Scraper.createChapterMarkdown info content metadata) in
  parsed.2 = ("# " ++ Models.title info ++ Js.newline ++ Js.newline ++ content)%string /\
  parsed.1 !! "title" = Some (Models.title info) /\
  parsed.1 !! "id" = Some (Models.id info) /\
  parsed.1 !! "url" = Some (Models.url info).
Proof.
  intros Htitle Hid Hurl Hat.
  set (tail := ("# " ++ Models.title info ++ Js.newline ++ Js.newline ++ content)%string).
  set (fixed := [ ("title: " ++ Js.quote ++ Models.title info ++ Js.quote)%string;
                  ("chapter: " ++ Js.numberToString (Models.index info))%string;
                  ("id: " ++ Js.quote ++ Models.id info ++ Js.quote)%string;
                  ("url: " ++ Js.quote ++ Models.url info ++ Js.quote)%string ]).
  assert (Hshape : exists optional,
             Scraper.createChapterMarkdown info content metadata
             = (Output.opening ++ String.concat Js.newline (fixed ++ optional)
                ++ Output.closing ++ tail)%string /\
             List.Forall
               (fun line =>
                  Js.includes "010" line = false /\
                  exists key rest,
                    line = (key ++ String ":" rest)%string /\
                    (key = "word_count" \/ key = "extracted_at"))
               optional).
  { unfold Scraper.createChapterMarkdown. cbv zeta.
    destruct (Models.wordCount metadata =? 0);
      destruct (Models.extractedAt metadata) as [|c at_] eqn:Hextracted.
    - exists []. split; [|constructor].
      rewrite <- concat_between_marks by discriminate. reflexivity.
    - exists [("extracted_at: " ++ Js.quote ++ String c at_ ++ Js.quote)%string].
      split; [rewrite <- concat_between_marks by discriminate; reflexivity|].
      repeat constructor.
      + rewrite !includes_app, Hat. reflexivity.
      + exists "extracted_at", (" " ++ Js.quote ++ String c at_ ++ Js.quote)%string.
        split; [reflexivity | right; reflexivity].
    - exists [("word_count: " ++ Js.numberToString (Models.wordCount metadata))%string].
      split; [rewrite <- concat_between_marks by discriminate; reflexivity|].
      repeat constructor.
      + rewrite includes_app, numberToString_no_newline. reflexivity.
      + exists "word_count", (" " ++ Js.numberToString (Models.wordCount metadata))%string.
        split; [reflexivity | left; reflexivity].
    - exists [("word_count: " ++ Js.numberToString (Models.wordCount metadata))%string;
              ("extracted_at: " ++ Js.quote ++ String c at_ ++ Js.quote)%string].
      split; [rewrite <- concat_between_marks by discriminate; reflexivity|].
      repeat constructor.
      + rewrite includes_app, numberToString_no_newline. reflexivity.
      + exists "word_count", (" " ++ Js.numberToString (Models.wordCount metadata))%string.
        split; [reflexivity | left; reflexivity].
      + rewrite !includes_app, Hat. reflexivity.
      + exists "extracted_at", (" " ++ Js.quote ++ String c at_ ++ Js.quote)%string.
        split; [reflexivity | right; reflexivity]. }
  destruct Hshape as (optional & -> & Hoptional).
  assert (Hfixed : List.Forall (fun line => Js.includes "010" line = false) fixed).
  { unfold fixed. repeat constructor;
      rewrite ?includes_app, ?Htitle, ?Hid, ?Hurl, ?numberToString_no_newline;
      reflexivity. }
  assert (Hlines : List.Forall (fun line => Js.includes "010" line = false)
                               (fixed ++ optional)).
  { apply List.Forall_app. split; [exact Hfixed|].
    eapply List.Forall_impl; [|exact Hoptional]. intros line [H _]. exact H. }
  assert (Hdash : List.Forall
                    (fun line => Js.includes "010" line = false /\
                                 exists c rest, line = String c rest /\
                                                Ascii.eqb "-" c = false)
                    (fixed ++ optional)).
  { apply List.Forall_app. split.
    - unfold fixed. unfold fixed in Hfixed.
      repeat (apply Forall_cons_iff in Hfixed as [? Hfixed]).
      repeat constructor; try assumption; eexists _, _; split; reflexivity.
    - eapply List.Forall_impl; [|exact Hoptional].
      intros line [H (key & rest & -> & [-> | ->])]; (split; [exact H|]);
        eexists _, _; split; reflexivity. }
  cbv zeta. unfold Output.parseFrontmatter.
  rewrite stripPrefix_app, cut_lines by (discriminate || exact Hdash).
  rewrite split_lines by (discriminate || exact Hlines).
  cbn [fst snd]. split; [reflexivity|].
  rewrite fold_left_app.
  assert (Hkeep : forall other frontmatter,
             other <> "word_count" -> other <> "extracted_at" ->
             fold_left Output.parseLine optional frontmatter !! other
             = frontmatter !! other).
  { clear Hlines Hdash. intros other frontmatter H1 H2. revert frontmatter.
    induction Hoptional as [|line optional [_ (key & rest & -> & Hkey)] _ IH];
      intros frontmatter; [reflexivity|].
    cbn [fold_left]. rewrite IH.
    destruct Hkey as [-> | ->]; apply parseLine_other;
      reflexivity || discriminate || assumption. }
  rewrite !Hkeep by discriminate.
  unfold fixed. cbn [fold_left].
  change ("title: " ++ Js.quote ++ Models.title info ++ Js.quote)%string
    with ("title" ++ String ":" (" " ++ Js.quote ++ Models.title info ++ Js.quote))%string.
  change ("chapter: " ++ Js.numberToString (Models.index info))%string
    with ("chapter" ++ String ":" (" " ++ Js.numberToString (Models.index info)))%string.
  change ("id: " ++ Js.quote ++ Models.id info ++ Js.quote)%string
    with ("id" ++ String ":" (" " ++ Js.quote ++ Models.id info ++ Js.quote))%string.
  change ("url: " ++ Js.quote ++ Models.url info ++ Js.quote)%string
    with ("url" ++ String ":" (" " ++ Js.quote ++ Models.url info ++ Js.quote))%string.
  rewrite !parseLine_key by (reflexivity || discriminate).
  rewrite !quoted_value.
  split; [|split].
  - rewrite !lookup_insert_ne by discriminate. apply lookup_insert_eq.
  - rewrite lookup_insert_ne by discriminate. apply lookup_insert_eq.
  - apply lookup_insert_eq.
Qed.

Lemma parseFrontmatter_reads_chapter_witness :
  (Output.parseFrontmatter
     (Scraper.createChapterMarkdown (Samples.numbered 2) "Some text."
        {| Models.wordCount := 2;
           Models.extractedAt := "2023-11-14T22:13:20.000Z" |})).1 !! "title"
  = Some "Chapter 2".
Proof.
  destruct (parseFrontmatter_reads_chapter (Samples.numbered 2) "Some text."
              {| Models.wordCount := 2; Models.extractedAt := "2023-11-14T22:13:20.000Z" |})
    as (_ & Htitle & _);
    [reflexivity | reflexivity | reflexivity | reflexivity | exact Htitle].
Defined.

(** A title with a line feed in it, as the text of a link can have, is not
    read back: the frontmatter gives its first line only. *)
Example parseFrontmatter_title_on_two_lines :
  (Output.parseFrontmatter
     (Scraper.createChapterMarkdown
        {| Models.index := 2; Models.id := "chapter-2";
           Models.title := "Chapter 2" ++ Js.newline ++ "The Gate";
           Models.url := "https://mtlbooks.com/novel/example/chapter-2" |}
        "Some text."
        {| Models.wordCount := 2; Models.extractedAt := "" |})).1 !! "title"
  = Some "Chapter 2".
Proof. vm_compute. reflexivity. Qed.

(** ** scrape, a second time *)

Section ScrapeAgain.
Import Js Utils Models Scraper.

Lemma writeFile_again (p : path) (c c' : text) (fs fs' : FileSystem) :
  writeFile p c fs = (Ok tt, fs') ->
  writeFile p c' fs' = (Ok tt, withFile fs' p c').
Proof.
  unfold writeFile, iobind, ensureDir, fsWriteFile.
  destruct (bool_decide (dirname p ∈ dirs fs)) eqn:Hdir.
  - destruct (writeFault fs p) eqn:Hw; [discriminate|].
    intros [= <-]. cbn [dirs withFile writeFault]. rewrite Hdir.
    change (writeFault (withFile fs p c) p) with (writeFault fs p). rewrite Hw.
    reflexivity.
  - destruct (mkdirFault fs (dirname p)); [discriminate|]. cbn [fst snd].
    cbn [withDir writeFault].
    destruct (writeFault fs p) eqn:Hw; [discriminate|].
    intros [= <-]. cbn [dirs withFile withDir writeFault].
    rewrite bool_decide_eq_true_2 by set_solver.
    change (writeFault (withFile (withDir fs (dirname p)) p c) p) with (writeFault fs p).
    rewrite Hw. reflexivity.
Qed.

Lemma saveState_again (config : CrawlerConfig) (w w1 w' : World) :
  saveState config w = (Ok tt, w1) ->
  disk w' = disk w1 ->
  (saveState config w').1 = Ok tt.
Proof.
  rewrite !saveState_writeFile. unfold onDisk.
  destruct (writeFile _ _ (disk w)) as [r fs1] eqn:Hwrite.
  intros [= -> <-] ->. cbn [disk].
  rewrite (writeFile_again _ _ _ _ _ Hwrite). reflexivity.
Qed.

End ScrapeAgain.

(** X25: a second [scrape] after one that returned a state with its
    metadata, its chapters listed and nothing left to scrape, on the disk
    the first one left: with resume enabled and the checkpoint readable it
    returns the same state ([lastUpdated] as its ISO string) whatever the
    novel page or the chapters would give, the browser having started; it
    closes the browser and changes no file but the checkpoint. *)
Theorem scrape_again_is_idle
    (config : Models.CrawlerConfig) (env env' : Scraper.Run) (fs : Utils.FileSystem)
    (out : Scraper.Outcome) (st : Models.CrawlerState) :
  Scraper.scrape config env fs = Some out ->
  Scraper.returned out = Ok st ->
  Models.metadata st <> None ->
  Models.chapters st <> [] ->
  Scraper.getChaptersToScrape config st = [] ->
  Models.resume config = true ->
  Utils.readFault (Scraper.finalDisk out) (Scraper.stateFile config) = false ->
  Scraper.browserStarted env' = Ok tt ->
  exists out',
    Scraper.scrape config env' (Scraper.finalDisk out) = Some out' /\
    Scraper.returned out' = Ok (Scraper.asStored st) /\
    Scraper.browserOpen out' = false /\
    (forall p, p <> Scraper.stateFile config ->
               Utils.files (Scraper.finalDisk out') !! p
               = Utils.files (Scraper.finalDisk out) !! p).
Proof.
  intros Hscrape Hreturned Hmeta Hchs Hnone Hresume Hread Hstart.
  destruct (scrape_inversion _ _ _ _ _ Hscrape Hreturned)
    as (st0 & w & w1 & _ & Hbody & Hsave & Hdisk & _).
  pose proof (scrapeLoaded_returns_state _ _ _ _ _ Hbody) as Hst.
  rewrite Hdisk in *.
  pose proof (loadState_saved _ _ _ (Scraper.startedAt env') Hresume Hsave Hread) as Hload.
  rewrite <- Hst in Hload.
  set (w0 := {| Scraper.state := Scraper.asStored st; Scraper.disk := Scraper.disk w1;
                Scraper.browserRunning := true |}).
  assert (Hprepare : Scraper.prepare config env' w0 = (Ok [], w0)).
  { assert (Hlisted : (Z.of_nat (length (Models.chapters st)) =? 0) = false)
      by (destruct (Models.chapters st); [contradiction | reflexivity]).
    assert (Hnone' : Scraper.getChaptersToScrape config (Scraper.asStored st) = [])
      by exact Hnone.
    unfold Scraper.prepare, iobind, gets, ret.
    change (Scraper.state w0) with (Scraper.asStored st).
    change (Models.metadata (Scraper.asStored st)) with (Models.metadata st).
    destruct (Models.metadata st) as [m|]; [|contradiction].
    change (Scraper.state w0) with (Scraper.asStored st).
    change (Models.chapters (Scraper.asStored st)) with (Models.chapters st).
    rewrite Hlisted.
    change (Scraper.state w0) with (Scraper.asStored st).
    rewrite Hnone'. reflexivity. }
  pose proof (saveState_again config w w1 w0 Hsave eq_refl) as Hagain.
  pose proof (saveState_files_other config w0) as Hfiles.
  unfold Scraper.scrape. rewrite Hstart, Hload. fold w0.
  unfold Scraper.scrapeLoaded. rewrite Hprepare.
  unfold Scraper.cleanup, iobind, Scraper.closeBrowser, modify.
  pose proof (saveState_state config w0) as Hstate.
  destruct (Scraper.saveState config w0) as [[[]|e] w2]; cbn [fst snd] in *;
    [|discriminate Hagain].
  eexists. split; [reflexivity|]. cbn. repeat split. exact Hfiles.
Qed.

Lemma scrape_again_is_idle_witness :
  exists out st out',
    Scraper.scrape Samples.config Samples.firstRun Samples.emptyDisk = Some out /\
    Scraper.returned out = Ok st /\
    Scraper.scrape Samples.config Samples.unavailableRun (Scraper.finalDisk out)
      = Some out' /\
    Scraper.returned out' = Ok (Scraper.asStored st).
Proof.
  destruct (Scraper.scrape Samples.config Samples.firstRun Samples.emptyDisk)
    as [out|] eqn:Hscrape; [|vm_compute in Hscrape; discriminate].
  assert (Hfacts :
            (fun o => match Scraper.returned o with
                      | Ok st =>
                          bool_decide (Models.metadata st <> None) &&
                          bool_decide (Models.chapters st <> []) &&
                          bool_decide (Scraper.getChaptersToScrape Samples.config st = []) &&
                          negb (Utils.readFault (Scraper.finalDisk o)
                                  (Scraper.stateFile Samples.config))
                      | Err _ => false
                      end)
              <$> Scraper.scrape Samples.config Samples.firstRun Samples.emptyDisk
            = Some true) by (vm_compute; reflexivity).
  rewrite Hscrape in Hfacts. cbn [fmap option_fmap option_map] in Hfacts.
  injection Hfacts as Hfacts.
  destruct (Scraper.returned out) as [st|e] eqn:Hreturned; [|discriminate Hfacts].
  apply andb_true_iff in Hfacts as [Hfacts Hread].
  apply andb_true_iff in Hfacts as [Hfacts Hnone].
  apply andb_true_iff in Hfacts as [Hmeta Hchs].
  apply bool_decide_eq_true in Hmeta, Hchs, Hnone. apply negb_true_iff in Hread.
  destruct (scrape_again_is_idle Samples.config Samples.firstRun Samples.unavailableRun
              Samples.emptyDisk out st Hscrape Hreturned Hmeta Hchs Hnone eq_refl Hread
              eq_refl) as (out' & Hagain & Hsame & _).
  exists out, st, out'. auto.
Defined.

(** ** The limiter's queue *)

Section LimiterQueue.
Import Js Utils Models Scraper.

(** The tasks that have started come first, the queued ones after them. *)
Lemma dispatch_started (free : nat) (started rest : list Task) :
  List.Forall (fun t => isQueued t = false) started ->
  dispatch free (started ++ rest) = (started ++ dispatch free rest)%list.
Proof.
  intros H. revert free. induction H as [|t started Ht _ IH]; intros free; [reflexivity|].
  simpl. unfold isQueued in Ht.
  destruct (status t) eqn:Hst; [discriminate| |]; rewrite IH; reflexivity.
Qed.

Lemma dispatch_queued (free : nat) (queued : list Task) :
  List.Forall (fun t => isQueued t = true) queued ->
  exists started queued',
    dispatch free queued = (started ++ queued')%list /\
    List.Forall (fun t => isQueued t = false) started /\
    List.Forall (fun t => isQueued t = true) queued'.
Proof.
  intros H. revert free. induction H as [|t queued Ht Hq IH]; intros free.
  - exists [], []. repeat constructor.
  - simpl. unfold isQueued in Ht. destruct (status t) eqn:Hst; try discriminate.
    destruct free as [|free].
    + exists [], (t :: queued). split; [reflexivity|]. split; [constructor|].
      constructor; [unfold isQueued; rewrite Hst; reflexivity | exact Hq].
    + destruct (IH free) as (started & queued' & -> & Hs & Hq').
      exists ({| chapter := chapter t; status := Running 1 |} :: started), queued'.
      split; [reflexivity|]. split; [constructor; [reflexivity | exact Hs] | exact Hq'].
Qed.

Lemma limiter_in_order (config : CrawlerConfig) (ts : list Task) :
  (exists started queued,
      ts = (started ++ queued)%list /\
      List.Forall (fun t => isQueued t = false) started /\
      List.Forall (fun t => isQueued t = true) queued) ->
  exists started queued,
    limiter config ts = (started ++ queued)%list /\
    List.Forall (fun t => isQueued t = false) started /\
    List.Forall (fun t => isQueued t = true) queued.
Proof.
  intros (started & queued & -> & Hs & Hq). unfold limiter.
  rewrite (dispatch_started _ _ _ Hs).
  destruct (dispatch_queued (concurrency config - runningCount (started ++ queued)) _ Hq)
    as (started' & queued' & -> & Hs' & Hq').
  exists (started ++ started')%list, queued'.
  split; [apply app_assoc|]. split; [apply List.Forall_app; auto | exact Hq'].
Qed.

Lemma settle_in_order (ts : list Task) (i : nat) (ch : ChapterInfo) (n : nat) (t' : Task) :
  ts !! i = Some {| chapter := ch; status := Running n |} ->
  isQueued t' = false ->
  (exists started queued,
      ts = (started ++ queued)%list /\
      List.Forall (fun t => isQueued t = false) started /\
      List.Forall (fun t => isQueued t = true) queued) ->
  exists started queued,
    <[i := t']> ts = (started ++ queued)%list /\
    List.Forall (fun t => isQueued t = false) started /\
    List.Forall (fun t => isQueued t = true) queued.
Proof.
  intros Hi Ht' (started & queued & -> & Hs & Hq).
  destruct (decide (i < length started)%nat) as [Hlt|Hge].
  - exists (<[i := t']> started), queued. split; [|split; [|exact Hq]].
    + apply insert_app_l. exact Hlt.
    + apply Forall_insert; assumption.
  - exfalso. rewrite lookup_app_r in Hi by lia.
    rewrite List.Forall_forall in Hq.
    assert (Hin : In {| chapter := ch; status := Running n |} queued)
      by (apply list_elem_of_In; eapply list_elem_of_lookup_2; exact Hi).
    specialize (Hq _ Hin). discriminate Hq.
Qed.

Lemma step_in_order (config : CrawlerConfig) (pool : Pool) (next : nat * Attempt) :
  (exists started queued,
      tasks pool = (started ++ queued)%list /\
      List.Forall (fun t => isQueued t = false) started /\
      List.Forall (fun t => isQueued t = true) queued) ->
  exists started queued,
    tasks (step config pool next) = (started ++ queued)%list /\
    List.Forall (fun t => isQueued t = false) started /\
    List.Forall (fun t => isQueued t = true) queued.
Proof.
  intros H. unfold step.
  destruct (pickRunning next.1 (tasks pool)) as [i|] eqn:Hpick; [|exact H].
  destruct (pickRunning_running _ _ _ Hpick) as (ch & n & Hi). rewrite Hi.
  destruct (scrapeAttempt config ch next.2 (world pool)) as [r w].
  destruct (afterAttempt (retries config) n r) as [n'|[c|e]]; cbn [tasks].
  - eapply settle_in_order; eauto.
  - apply limiter_in_order. eapply settle_in_order; eauto.
  - apply limiter_in_order. eapply settle_in_order; eauto.
Qed.

Lemma run_in_order (config : CrawlerConfig) (schedule : list (nat * Attempt)) (pool : Pool) :
  (exists started queued,
      tasks pool = (started ++ queued)%list /\
      List.Forall (fun t => isQueued t = false) started /\
      List.Forall (fun t => isQueued t = true) queued) ->
  exists started queued,
    tasks (run config pool schedule) = (started ++ queued)%list /\
    List.Forall (fun t => isQueued t = false) started /\
    List.Forall (fun t => isQueued t = true) queued.
Proof.
  revert pool. induction schedule as [|next schedule IH]; intros pool H; [exact H|].
  simpl. apply IH, step_in_order, H.
Qed.

End LimiterQueue.

(** X26: at every moment of [scrapeChapters] under a limiter of at least
    one slot, the tasks are those of the chapters in their order, no more
    tasks run than [concurrency], every slot is taken as long as a task is
    queued, and the chapters are started in the order of the list: the
    queued tasks are the last ones. *)
Theorem scrapeChapters_limiter
    (config : Models.CrawlerConfig) (chapters : list Models.ChapterInfo)
    (schedule : list (nat * Scraper.Attempt)) (tracker : Utils.ProgressTracker)
    (w : Scraper.World) :
  (1 <= Models.concurrency config)%nat ->
  let pool := Scraper.run config (Scraper.startPool config chapters tracker w) schedule in
  List.map Scraper.chapter (Scraper.tasks pool) = chapters /\
  (Scraper.runningCount (Scraper.tasks pool) <= Models.concurrency config)%nat /\
  (existsb Scraper.isQueued (Scraper.tasks pool) = true ->
   Scraper.runningCount (Scraper.tasks pool) = Models.concurrency config) /\
  exists started queued,
    Scraper.tasks pool = (started ++ queued)%list /\
    List.Forall (fun t => Scraper.isQueued t = false) started /\
    List.Forall (fun t => Scraper.isQueued t = true) queued.
Proof.
  intros _ pool.
  pose proof (run_invariant config chapters tracker schedule _
                (startPool_invariant config chapters tracker w)) as Hinv.
  fold pool in Hinv. destruct Hinv as [Hchs _ _ _ Hslots Hqueue].
  split; [exact Hchs|]. split; [exact Hslots|]. split; [exact Hqueue|].
  apply run_in_order. cbn [Scraper.startPool Scraper.tasks].
  apply limiter_in_order.
  exists [], (List.map (fun ch => {| Scraper.chapter := ch; Scraper.status := Scraper.Queued |})
                chapters).
  split; [reflexivity|]. split; [constructor|].
  apply List.Forall_forall. intros t Hin. apply in_map_iff in Hin as (ch & <- & _).
  reflexivity.
Qed.

Lemma scrapeChapters_limiter_witness :
  let pool := Scraper.run Samples.oneRetry
                (Scraper.startPool Samples.oneRetry (List.map Samples.numbered [2; 4; 5])
                   (Utils.newProgressTracker 3) Samples.resumedWorld)
                (firstn 1 Samples.oneFailure) in
  (Scraper.runningCount (Scraper.tasks pool) <= 2)%nat.
Proof.
  refine (proj1 (proj2 (scrapeChapters_limiter Samples.oneRetry
                          (List.map Samples.numbered [2; 4; 5])
                          (firstn 1 Samples.oneFailure) (Utils.newProgressTracker 3)
                          Samples.resumedWorld _))).
  simpl. lia.
Defined.

(** ** index.json *)

Section IndexCounts.
Import Js Utils Models Output.

Lemma completed_count (chs : list ChapterInfo) (done : list string) :
  List.NoDup (List.map id chs) ->
  List.NoDup done ->
  (forall k, In k done -> In k (List.map id chs)) ->
  length (List.filter (fun ch => existsb (String.eqb (id ch)) done) chs) = length done.
Proof.
  revert done. induction chs as [|c chs IH]; intros done Hids Hdone Hsub.
  - destruct done as [|k done]; [reflexivity|]. destruct (Hsub k (or_introl eq_refl)).
  - cbn [List.map] in Hids. apply NoDup_cons_iff in Hids as [Hc Hids].
    cbn [List.filter].
    destruct (existsb (String.eqb (id c)) done) eqn:Hin.
    + apply includes_string in Hin.
      apply in_split in Hin as (before & after & ->).
      apply NoDup_remove in Hdone as [Hdone Hnot].
      rewrite length_app. cbn [length]. rewrite Nat.add_succ_r, <- length_app. f_equal.
      rewrite <- (IH (before ++ after)%list Hids Hdone).
      * f_equal. apply filter_ext_in. intros ch Hch.
        assert (Hne : id ch <> id c).
        { intros Heq. apply Hc. rewrite <- Heq. apply in_map. exact Hch. }
        destruct (existsb (String.eqb (id ch)) (before ++ id c :: after)) eqn:H1;
          destruct (existsb (String.eqb (id ch)) (before ++ after)) eqn:H2;
          try reflexivity.
        -- apply includes_string in H1. apply includes_string_false in H2.
           exfalso. apply H2. apply in_app_iff in H1 as [H1|[H1|H1]];
             [apply in_or_app; auto | congruence | apply in_or_app; auto].
        -- apply includes_string in H2. apply includes_string_false in H1.
           exfalso. apply H1. apply in_app_iff in H2 as [H2|H2];
             apply in_or_app; simpl; auto.
      * intros k Hk.
        assert (Hk' : In k (before ++ id c :: after))
          by (apply in_app_iff in Hk as [Hk|Hk]; apply in_or_app; simpl; auto).
        destruct (Hsub k Hk') as [Heq|Hrest]; [|exact Hrest].
        exfalso. apply Hnot. rewrite Heq. exact Hk.
    + apply includes_string_false in Hin. apply IH; [exact Hids | exact Hdone|].
      intros k Hk. destruct (Hsub k Hk) as [Heq|Hrest]; [|exact Hrest].
      exfalso. apply Hin. rewrite Heq. exact Hk.
Qed.

End IndexCounts.

(** X27: in the data of index.json, when the listed chapters have distinct
    ids and the completed ids are distinct ids of listed chapters, the
    statistics agree with the chapter entries: [completedChapters] is the
    number of entries marked completed, and [failedChapters] the number of
    entries not marked so (attempted or not). *)
Theorem generateIndex_statistics (st : Models.CrawlerState) :
  List.NoDup (List.map Models.id (Models.chapters st)) ->
  List.NoDup (Models.completedChapters st) ->
  (forall k, In k (Models.completedChapters st) ->
             In k (List.map Models.id (Models.chapters st))) ->
  Output.statisticsCompleted (Output.statistics st)
    = Z.of_nat (length (List.filter Output.completed (Output.indexChapters st))) /\
  Output.statisticsFailed (Output.statistics st)
    = Z.of_nat (length (List.filter (fun entry => negb (Output.completed entry))
                                    (Output.indexChapters st))) /\
  Output.statisticsTotal (Output.statistics st)
    = Z.of_nat (length (Output.indexChapters st)).
Proof.
  intros Hids Hdone Hsub.
  pose proof (completed_count _ _ Hids Hdone Hsub) as Hcount.
  assert (Hyes : length (List.filter Output.completed (Output.indexChapters st))
                 = length (Models.completedChapters st)).
  { rewrite <- Hcount. unfold Output.indexChapters.
    generalize (Models.chapters st) as chs. intros chs.
    induction chs as [|c chs IH]; [reflexivity|]. cbn [List.map List.filter Output.completed].
    destruct (existsb _ _); cbn [length]; rewrite IH; reflexivity. }
  assert (Hsplit : forall entries : list Output.IndexChapter,
             (length (List.filter Output.completed entries)
              + length (List.filter (fun entry => negb (Output.completed entry)) entries)
              = length entries)%nat).
  { intros entries. induction entries as [|e entries IH]; [reflexivity|].
    cbn [List.filter]. destruct (Output.completed e); cbn [negb length]; lia. }
  specialize (Hsplit (Output.indexChapters st)).
  assert (Hlen : length (Output.indexChapters st) = length (Models.chapters st))
    by (unfold Output.indexChapters; apply length_map).
  unfold Output.statistics. cbn. rewrite Hyes in *. rewrite Hlen in *.
  split; [reflexivity|]. split; [lia | reflexivity].
Qed.

Lemma generateIndex_statistics_witness :
  Output.statisticsFailed (Output.statistics Samples.resumed) = 3.
Proof.
  destruct (generateIndex_statistics Samples.resumed) as (_ & Hfailed & _).
  - vm_compute. repeat constructor; simpl; intuition discriminate.
  - vm_compute. repeat constructor; simpl; intuition discriminate.
  - intros k Hk. vm_compute in Hk. vm_compute. intuition.
  - rewrite Hfailed. reflexivity.
Defined.

(** Two links to the same chapter number share an id: once it is completed
    both entries are marked completed, and one chapter still counts as
    failed. *)
Example generateIndex_shared_id :
  let st := {| Models.stateUrl := Models.configUrl Samples.config;
               Models.metadata := None;
               Models.chapters := [Samples.numbered 1; Samples.numbered 1];
               Models.lastCompletedIndex := 1;
               Models.completedChapters := ["chapter-1"];
               Models.lastUpdated := Models.DateObject 0 |} in
  List.map Output.completed (Output.indexChapters st) = [true; true] /\
  Output.statisticsFailed (Output.statistics st) = 1.
Proof. vm_compute. split; reflexivity. Qed.

(** ** The registry of pages *)

(** X28: on a manager that knows only pages it has made, [createPage]
    with an id that is not empty followed by [closePage] of that id leaves
    the open pages as they were and the id out of the registry: a page kept
    under the same id before is still open, and [getPage] and [closePage] no
    longer reach it.  A page made without an id is left open by
    [closeAllPages]. *)
Theorem createPage_closePage
    (m : Browser.Manager) (pageId : string) :
  Browser.knownPages m ->
  Js.truthyString pageId = true ->
  let closed := Browser.closePage pageId (Browser.createPage (Some pageId) m).2 in
  Browser.openPages closed = Browser.openPages m /\
  Browser.pages closed = delete pageId (Browser.pages m) /\
  Browser.getPage pageId closed = None /\
  Browser.closePage pageId closed = closed /\
  (Browser.createPage None m).1
    ∈ Browser.openPages (Browser.closeAllPages (Browser.createPage None m).2).
Proof.
  intros [Hopen Hkept] Hid closed.
  assert (Hfresh : Browser.created m ∉ Browser.openPages m)
    by (intros Hin; specialize (Hopen _ Hin); lia).
  assert (Hclosed : closed =
                    {| Browser.pages := delete pageId (Browser.pages m);
                       Browser.openPages := Browser.openPages m;
                       Browser.created := S (Browser.created m) |}).
  { unfold closed, Browser.closePage, Browser.createPage. cbn [snd Browser.pages].
    rewrite Hid, lookup_insert_eq. cbn [Browser.pages Browser.openPages Browser.created].
    f_equal; [apply delete_insert_eq|].
    apply set_eq. intros x.
    rewrite elem_of_difference, elem_of_union, !elem_of_singleton. split.
    - intros [[Hx|Hx] Hne]; [contradiction | exact Hx].
    - intros Hx. split; [right; exact Hx | intros ->; contradiction]. }
  rewrite Hclosed. cbn [Browser.openPages Browser.pages Browser.getPage].
  split; [reflexivity|]. split; [reflexivity|]. split; [apply lookup_delete_eq|].
  split.
  - unfold Browser.closePage. cbn [Browser.pages]. rewrite lookup_delete_eq. reflexivity.
  - unfold Browser.closeAllPages, Browser.createPage. cbn.
    apply elem_of_difference. split; [apply elem_of_union; left; apply elem_of_singleton; reflexivity|].
    intros Himg. apply elem_of_map_img in Himg as (k & Hk).
    specialize (Hkept _ _ Hk). lia.
Qed.

Lemma createPage_closePage_witness :
  let m := (Browser.createPage (Some "metadata")
              {| Browser.pages := ∅; Browser.openPages := ∅; Browser.created := 0 |}).2 in
  Browser.openPages (Browser.closePage "metadata"
                       (Browser.createPage (Some "metadata") m).2)
  = Browser.openPages m.
Proof.
  intros m.
  refine (proj1 (createPage_closePage m "metadata" _ eq_refl)).
  split.
  - intros page Hpage. unfold m in *. cbn in *.
    apply elem_of_union in Hpage as [Hpage|Hpage];
      [apply elem_of_singleton in Hpage; lia | apply elem_of_empty in Hpage; destruct Hpage].
  - intros pageId page Hpage. unfold m in *. cbn in *.
    apply lookup_insert_Some in Hpage as [[_ <-]|[_ Hpage]]; [lia|].
    rewrite lookup_empty in Hpage. discriminate.
Defined.

(** ** The numeric options *)

(** The form of the web page always ends in a concurrency the limiter
    accepts. *)
Lemma web_concurrency_in_range (field : string) :
  1 <= WebUi.configuredConcurrency (WebUi.submitted field) <= 10.
Proof. unfold WebUi.configuredConcurrency. cbv zeta. lia. Qed.

(** X29: the command line declares its numeric options with [parseInt] as
    the processing function, which is called with the default value as its
    second argument, the radix.  Without the options the values are the
    defaults 2, 3 and 30000.  A timeout that is given is always [NaN], the
    radix 30000 being out of range; a concurrency is read in base 2 and a
    retry count in base 3, so an argument that starts with a digit from 2 to
    9 (from 3 to 9 for the retries) gives [NaN], which the clamp of the
    concurrency between 1 and 10 keeps; [-c 10] gives 2. *)
Theorem cli_numeric_options :
  Cli.configuredConcurrency None = Some 2 /\
  Cli.retriesOption None = Some 3 /\
  Cli.timeoutOption None = Some 30000 /\
  (forall s, Cli.timeoutOption (Some s) = None) /\
  (forall s, match Cli.configuredConcurrency (Some s) with
             | Some n => 1 <= n <= 10
             | None => True
             end) /\
  (forall (c : ascii) (rest : string),
      In c ["2"; "3"; "4"; "5"; "6"; "7"; "8"; "9"]%char ->
      Cli.configuredConcurrency (Some (String c rest)) = None) /\
  (forall (c : ascii) (rest : string),
      In c ["3"; "4"; "5"; "6"; "7"; "8"; "9"]%char ->
      Cli.retriesOption (Some (String c rest)) = None) /\
  Cli.configuredConcurrency (Some "10") = Some 2.
Proof.
  split; [reflexivity|]. split; [reflexivity|]. split; [reflexivity|].
  split; [intros s; reflexivity|]. split; [|split; [|split; [|reflexivity]]].
  - intros s. unfold Cli.configuredConcurrency, Cli.mathMax, Js.mathMin.
    destruct (Cli.concurrencyOption (Some s)) as [n|]; [lia | exact I].
  - intros c rest Hc. simpl in Hc.
    repeat (destruct Hc as [<-|Hc]; [reflexivity|]). destruct Hc.
  - intros c rest Hc. simpl in Hc.
    repeat (destruct Hc as [<-|Hc]; [reflexivity|]). destruct Hc.
Qed.

Lemma cli_numeric_options_witness :
  Cli.configuredConcurrency (Some "5") = None /\ Cli.retriesOption (Some "5") = None.
Proof.
  destruct cli_numeric_options as (_ & _ & _ & _ & _ & Hc & Hr & _).
  split; [apply (Hc "5"%char ""); simpl; tauto | apply (Hr "5"%char ""); simpl; tauto].
Defined.

(** ** loadAllChapters *)

Section LoadMore.
Import Adapter.

Lemma loadMore_clicks (found : nat -> bool) (remaining attempts : nat) (waited : Z) :
  let result := loadMore found remaining attempts waited in
  (attempts <= result.1 <= attempts + remaining)%nat /\
  (forall k, (attempts <= k < result.1)%nat -> found k = true) /\
  ((result.1 < attempts + remaining)%nat -> found result.1 = false) /\
  result.2 = waited + 2000 * (Z.of_nat result.1 - Z.of_nat attempts).
Proof.
  revert attempts waited. induction remaining as [|remaining IH]; intros attempts waited.
  - simpl. repeat split; lia.
  - cbn [loadMore]. destruct (found attempts) eqn:Hfound.
    + specialize (IH (S attempts) (waited + 2000)). cbv zeta in IH.
      destruct IH as (Hbound & Hall & Hstop & Hwait). cbv zeta.
      split; [lia|]. split; [|split].
      * intros k Hk. destruct (decide (k = attempts)) as [->|Hne]; [exact Hfound|].
        apply Hall. lia.
      * intros Hlt. apply Hstop. lia.
      * rewrite Hwait. lia.
    + cbn. repeat split; try lia. intros _. exact Hfound.
Qed.

End LoadMore.

(** X30: [loadAllChapters] clicks a button that loads more chapters at most
    ten times: it clicks as long as the in-page script finds one, stops at
    the first turn that finds none, and after the tenth click it does not
    look again; it has then waited 2000 ms for each click and 1000 ms after
    the scroll.  On a listing that always offers more, what a tenth click
    loads is the last that is listed. *)
Theorem loadAllChapters_clicks (found : nat -> bool) :
  let clicks := (Adapter.loadAllChapters found).1 in
  (clicks <= 10)%nat /\
  (forall k, (k < clicks)%nat -> found k = true) /\
  ((clicks < 10)%nat -> found clicks = false) /\
  (Adapter.loadAllChapters found).2 = 2000 * Z.of_nat clicks + 1000.
Proof.
  unfold Adapter.loadAllChapters.
  pose proof (loadMore_clicks found Adapter.maxAttempts 0 0) as H. cbv zeta in H.
  destruct (Adapter.loadMore found Adapter.maxAttempts 0 0) as [attempts waited].
  cbn [fst snd] in *. destruct H as (Hbound & Hall & Hstop & Hwait).
  unfold Adapter.maxAttempts in *.
  split; [lia|]. split; [|split].
  - intros k Hk. apply Hall. lia.
  - intros Hlt. apply Hstop. lia.
  - rewrite Hwait. lia.
Qed.

Example loadAllChapters_endless :
  Adapter.loadAllChapters (fun _ => true) = (10%nat, 21000).
Proof. reflexivity. Qed.
